(** * Authentication and account-protection core of adonisjs-pg

    A shallow embedding of the token, rate-limit, login-protection and
    API-key services (app/services/...), with the properties the design
    document states about them.

    Conventions.
    - A JavaScript string is a [string] of bytes (its UTF-8 encoding, which is
      what [createHash(..).update(s)] and [Buffer.from(s)] read).
    - A timestamp is a [Z], in milliseconds, as [Date.now()] returns it.  One
      service call reads the clock once: every operation takes [now].
    - An [async] method is a function from the world before the call to its
      outcome (a value or a thrown exception) and the world after it; what a
      call wrote before it threw stays written. *)

From Stdlib Require Import ZArith String Ascii List Lia Bool.
From stdpp Require Import gmap strings pretty.
Import ListNotations.
Local Open Scope string_scope.
Local Open Scope Z_scope.

(* ================================================================== *)
(** * Part I: the model                                                *)
(* ================================================================== *)

(** ** SHA-256 (FIPS 180-4), as computed by node's [createHash('sha256')] *)

Module Sha256.

Definition wrap32 (x : Z) : Z := x mod 2 ^ 32.
Definition add32 (x y : Z) : Z := wrap32 (x + y).
Definition shr (n x : Z) : Z := Z.shiftr x n.
Definition rotr (n x : Z) : Z :=
  Z.lor (Z.shiftr x n) (wrap32 (Z.shiftl x (32 - n))).
Definition not32 (x : Z) : Z := Z.lxor x 0xFFFFFFFF.

Definition Ch (x y z : Z) : Z := Z.lxor (Z.land x y) (Z.land (not32 x) z).
Definition Maj (x y z : Z) : Z :=
  Z.lxor (Z.lxor (Z.land x y) (Z.land x z)) (Z.land y z).
Definition Sum0 (x : Z) : Z := Z.lxor (Z.lxor (rotr 2 x) (rotr 13 x)) (rotr 22 x).
Definition Sum1 (x : Z) : Z := Z.lxor (Z.lxor (rotr 6 x) (rotr 11 x)) (rotr 25 x).
Definition sig0 (x : Z) : Z := Z.lxor (Z.lxor (rotr 7 x) (rotr 18 x)) (shr 3 x).
Definition sig1 (x : Z) : Z := Z.lxor (Z.lxor (rotr 17 x) (rotr 19 x)) (shr 10 x).

(** The sixty-four round constants. *)
Definition K : list Z :=
  [ 0x428A2F98; 0x71374491; 0xB5C0FBCF; 0xE9B5DBA5
  ; 0x3956C25B; 0x59F111F1; 0x923F82A4; 0xAB1C5ED5
  ; 0xD807AA98; 0x12835B01; 0x243185BE; 0x550C7DC3
  ; 0x72BE5D74; 0x80DEB1FE; 0x9BDC06A7; 0xC19BF174
  ; 0xE49B69C1; 0xEFBE4786; 0x0FC19DC6; 0x240CA1CC
  ; 0x2DE92C6F; 0x4A7484AA; 0x5CB0A9DC; 0x76F988DA
  ; 0x983E5152; 0xA831C66D; 0xB00327C8; 0xBF597FC7
  ; 0xC6E00BF3; 0xD5A79147; 0x06CA6351; 0x14292967
  ; 0x27B70A85; 0x2E1B2138; 0x4D2C6DFC; 0x53380D13
  ; 0x650A7354; 0x766A0ABB; 0x81C2C92E; 0x92722C85
  ; 0xA2BFE8A1; 0xA81A664B; 0xC24B8B70; 0xC76C51A3
  ; 0xD192E819; 0xD6990624; 0xF40E3585; 0x106AA070
  ; 0x19A4C116; 0x1E376C08; 0x2748774C; 0x34B0BCB5
  ; 0x391C0CB3; 0x4ED8AA4A; 0x5B9CCA4F; 0x682E6FF3
  ; 0x748F82EE; 0x78A5636F; 0x84C87814; 0x8CC70208
  ; 0x90BEFFFA; 0xA4506CEB; 0xBEF9A3F7; 0xC67178F2 ].

(** The eight working words. *)
Record regs : Type := Regs
  { ra : Z; rb : Z; rc : Z; rd : Z; re : Z; rf : Z; rg : Z; rh : Z }.

Definition init : regs :=
  Regs 0x6A09E667 0xBB67AE85 0x3C6EF372 0xA54FF53A
       0x510E527F 0x9B05688C 0x1F83D9AB 0x5BE0CD19.

Definition round (s : regs) (k w : Z) : regs :=
  let t1 := add32 (add32 (add32 (add32 (rh s) (Sum1 (re s)))
                                (Ch (re s) (rf s) (rg s))) k) w in
  let t2 := add32 (Sum0 (ra s)) (Maj (ra s) (rb s) (rc s)) in
  Regs (add32 t1 t2) (ra s) (rb s) (rc s) (add32 (rd s) t1) (re s) (rf s) (rg s).

(** The message schedule is kept as a window of sixteen words,
    W[t] .. W[t+15]; the word that enters is W[t+16]. *)
Definition next_word (win : list Z) : Z :=
  add32 (add32 (add32 (sig1 (nth 14 win 0)) (nth 9 win 0))
               (sig0 (nth 1 win 0)))
        (nth 0 win 0).

Fixpoint rounds (ks : list Z) (win : list Z) (s : regs) : regs :=
  match ks with
  | [] => s
  | k :: ks' => rounds ks' (tl win ++ [next_word win]) (round s k (nth 0 win 0))
  end.

Definition compress (s : regs) (block : list Z) : regs :=
  let s' := rounds K block s in
  Regs (add32 (ra s) (ra s')) (add32 (rb s) (rb s'))
       (add32 (rc s) (rc s')) (add32 (rd s) (rd s'))
       (add32 (re s) (re s')) (add32 (rf s) (rf s'))
       (add32 (rg s) (rg s')) (add32 (rh s) (rh s')).

(** Padding: 0x80, zeros up to 56 modulo 64, the bit length on 8 bytes. *)
Definition be_bytes (n : nat) (x : Z) : list Z :=
  map (fun i => Z.land (Z.shiftr x (8 * Z.of_nat i)) 0xFF) (rev (seq 0 n)).

Definition pad (msg : list Z) : list Z :=
  let len := Z.of_nat (length msg) in
  msg ++ [0x80] ++ repeat 0 (Z.to_nat ((55 - len) mod 64)) ++ be_bytes 8 (8 * len).

Fixpoint words_of_bytes (bs : list Z) : list Z :=
  match bs with
  | b0 :: b1 :: b2 :: b3 :: rest =>
      Z.lor (Z.lor (Z.lor (Z.shiftl b0 24) (Z.shiftl b1 16)) (Z.shiftl b2 8)) b3
      :: words_of_bytes rest
  | _ => []
  end.

Fixpoint blocks (n : nat) (ws : list Z) (s : regs) : regs :=
  match n with
  | O => s
  | S n' => blocks n' (skipn 16 ws) (compress s (firstn 16 ws))
  end.

Definition bytes_of_string (s : string) : list Z :=
  map (fun c => Z.of_N (N_of_ascii c)) (list_ascii_of_string s).

Definition hash_words (msg : list Z) : regs :=
  let ws := words_of_bytes (pad msg) in
  blocks (length ws / 16) ws init.

(** [createHash('sha256').update(s).digest()]: thirty-two bytes. *)
Definition digest (s : string) : list Z :=
  let r := hash_words (bytes_of_string s) in
  be_bytes 4 (ra r) ++ be_bytes 4 (rb r) ++ be_bytes 4 (rc r) ++ be_bytes 4 (rd r) ++
  be_bytes 4 (re r) ++ be_bytes 4 (rf r) ++ be_bytes 4 (rg r) ++ be_bytes 4 (rh r).

Definition hex_digit (n : Z) : ascii :=
  nth (Z.to_nat n) (list_ascii_of_string "0123456789abcdef") "0"%char.

(** [buf.toString('hex')]: two lower-case digits per byte. *)
Definition hex (bs : list Z) : string :=
  string_of_list_ascii
    (flat_map (fun b => [hex_digit (Z.shiftr b 4); hex_digit (Z.land b 0xF)]) bs).

(** [createHash('sha256').update(s).digest('hex')]. *)
Definition digest_hex (s : string) : string := hex (digest s).

End Sha256.

(** ** Strings, as the services use them *)

(** [String.prototype.toLowerCase]: the lower-casing of the whole Unicode
    repertoire, a table of the JavaScript engine and not of this repository.
    The services are modelled over any such function; the worked examples
    run with [Sample.toLowerCase]. *)
Class Builtins : Type := mkBuiltins
  { toLowerCase : string -> string }.

Module Str.

(** The white space and the line terminators of ECMAScript, which [trim]
    strips, as UTF-8 bytes: U+0009 to U+000D and U+0020; *)
Definition space1 (a : ascii) : bool :=
  match N_of_ascii a with
  | 9%N | 10%N | 11%N | 12%N | 13%N | 32%N => true
  | _ => false
  end.

(** U+00A0 (C2 A0); *)
Definition space2 (a b : ascii) : bool :=
  match N_of_ascii a, N_of_ascii b with
  | 194%N, 160%N => true
  | _, _ => false
  end.

(** U+1680 (E1 9A 80), U+2000 to U+200A (E2 80 80 to E2 80 8A), U+2028,
    U+2029 and U+202F (E2 80 A8, A9, AF), U+205F (E2 81 9F), U+3000
    (E3 80 80) and U+FEFF (EF BB BF). *)
Definition space3 (a b c : ascii) : bool :=
  match N_of_ascii a, N_of_ascii b with
  | 225%N, 154%N => (N_of_ascii c =? 128)%N
  | 226%N, 128%N =>
      ((128 <=? N_of_ascii c) && (N_of_ascii c <=? 138))%N
      || (N_of_ascii c =? 168)%N || (N_of_ascii c =? 169)%N
      || (N_of_ascii c =? 175)%N
  | 226%N, 129%N => (N_of_ascii c =? 159)%N
  | 227%N, 128%N => (N_of_ascii c =? 128)%N
  | 239%N, 187%N => (N_of_ascii c =? 191)%N
  | _, _ => false
  end.

(** [s.trimStart()], on the bytes of [s]. *)
Fixpoint trimStart (l : list ascii) : list ascii :=
  match l with
  | [] => []
  | a :: r1 =>
      if space1 a then trimStart r1
      else
        match r1 with
        | [] => l
        | b :: r2 =>
            if space2 a b then trimStart r2
            else
              match r2 with
              | [] => l
              | c :: r3 => if space3 a b c then trimStart r3 else l
              end
        end
  end.

(** [s.trimEnd()], on the bytes of [s] read from the last one: a white
    space is met with its bytes in the opposite order. *)
Fixpoint trimEnd_rev (l : list ascii) : list ascii :=
  match l with
  | [] => []
  | a :: r1 =>
      if space1 a then trimEnd_rev r1
      else
        match r1 with
        | [] => l
        | b :: r2 =>
            if space2 b a then trimEnd_rev r2
            else
              match r2 with
              | [] => l
              | c :: r3 => if space3 c b a then trimEnd_rev r3 else l
              end
        end
  end.

(** [s.trim()] *)
Definition trim (s : string) : string :=
  string_of_list_ascii
    (rev (trimEnd_rev (rev (trimStart (list_ascii_of_string s))))).

(** [email.trim().toLowerCase()] *)
Definition normalize `{Builtins} (s : string) : string := toLowerCase (trim s).

Definition nonempty (s : string) : bool :=
  match s with EmptyString => false | _ => true end.

(** [a || b] on a nullable string: [b] when [a] is null or empty. *)
Definition or_else (a : option string) (b : string) : string :=
  match a with
  | Some s => if nonempty s then s else b
  | None => b
  end.

End Str.

(** ** Records of the persistence, cache and notification collaborators *)

(** models/user.ts; the columns the services read or write. *)
Record User : Type := mkUser
  { id : Z
  ; email : option string
  ; name : string
  ; username : string
  ; isActive : bool
  ; isDeleted : option bool
  ; password : string
  ; emailVerifiedAt : option Z
  ; lastLoginAt : option Z
  ; lastIp : option string }.

(** app_key_service.ts, [interface RateLimitData]. *)
Record RateLimitData : Type := mkRateLimitData
  { attempts : Z
  ; firstAttempt : Z
  ; blockedUntil : option Z }.

(** What a cache entry can hold. *)
Inductive value : Type :=
| VStr (s : string)
| VNum (n : Z)
| VRate (d : RateLimitData)
| VUser (u : User).

(** The body of a mail, by template; the fields are what the template
    interpolates. *)
Inductive MailBody : Type :=
| VerificationMail (userName token : string)
| ResetMail (userName token : string)
| ResetSuccessMail (userName ip : string) (date : Z)
| ResetBlockedMail (userName ip : string) (date : Z)
| AccountBlockedMail (userName ip : string) (date : Z) (hours : Z).

Record Mail : Type := mkMail
  { to : string
  ; subject : string
  ; isHtml : bool
  ; body : MailBody }.

(** A row of the access-token table ([User.accessTokens]). *)
Record AccessToken : Type := mkAccessToken
  { tokenableId : Z
  ; tokenName : string
  ; abilities : list string
  ; expiresIn : Z
  ; createdAt : Z }.

(** Everything a service call can read or write: the key-value cache (each
    entry with the instant it expires), the users table, the access tokens,
    and the mails handed to the mailer. *)
Record world : Type := mkWorld
  { cache : gmap string (value * Z)
  ; users : list User
  ; accessTokens : list AccessToken
  ; outbox : list Mail }.

Definition with_cache (c : gmap string (value * Z)) (w : world) : world :=
  mkWorld c (users w) (accessTokens w) (outbox w).
Definition with_users (us : list User) (w : world) : world :=
  mkWorld (cache w) us (accessTokens w) (outbox w).
Definition with_accessTokens (ts : list AccessToken) (w : world) : world :=
  mkWorld (cache w) (users w) ts (outbox w).
Definition with_outbox (ms : list Mail) (w : world) : world :=
  mkWorld (cache w) (users w) (accessTokens w) ms.

(** ** Outcomes and sequencing of [async] calls *)

Inductive exn : Type :=
| Exception (message : string) (status : Z)   (* @adonisjs/core/exceptions *)
| E_ROW_NOT_FOUND                             (* lucid, [firstOrFail] *)
| E_INVALID_CREDENTIALS                       (* @adonisjs/auth *)
| RangeError                                  (* node, timingSafeEqual *)
| TypeError.                                  (* node, Buffer.from / update *)

Inductive result (A : Type) : Type :=
| Ok (a : A)
| Throw (e : exn).
Arguments Ok {A} a.
Arguments Throw {A} e.

Definition M (A : Type) : Type := world -> result A * world.

Definition ret {A : Type} (a : A) : M A := fun w => (Ok a, w).
Definition throw {A : Type} (e : exn) : M A := fun w => (Throw e, w).
Definition bind {A B : Type} (m : M A) (k : A -> M B) : M B :=
  fun w =>
    match m w with
    | (Ok a, w') => k a w'
    | (Throw e, w') => (Throw e, w')
    end.
Definition lift {A : Type} (r : result A) : M A := fun w => (r, w).
Definition modify (f : world -> world) : M unit := fun w => (Ok tt, f w).

Declare Scope js_scope.
Delimit Scope js_scope with js.
Notation "x <- m ;; k" := (bind m (fun x => k))
  (at level 100, m at next level, right associativity) : js_scope.
Notation "m ;;; k" := (bind m (fun _ => k))
  (at level 100, right associativity) : js_scope.
Local Open Scope js_scope.

(** The outcome and the final world of a call. *)
Definition outcome {A : Type} (m : M A) (w : world) : result A := fst (m w).
Definition after {A : Type} (m : M A) (w : world) : world := snd (m w).

(** JavaScript truthiness of a cached value ([!v], [v || undefined]). *)
Definition truthy (v : value) : bool :=
  match v with
  | VStr s => Str.nonempty s
  | VNum n => negb (n =? 0)
  | VRate _ => true
  | VUser _ => true
  end.

(** ** CacheService (#start/cache) *)

Module CacheService.

(** The entry under [key] as a read at [now] sees it. *)
Definition live (now : Z) (c : gmap string (value * Z)) (key : string)
  : option value :=
  match c !! key with
  | Some (v, expires) => if now <? expires then Some v else None
  | None => None
  end.

(** Modelled from the spec: #start/cache is not among the sources.  The
    cache collaborator is "get(key) -> T|absent, set(key, value, ttl),
    delete(key)", and a TTL is the "duration after which a cached entry is
    treated as absent".  A TTL is given in milliseconds ('15m' is 900000). *)
Definition get (now : Z) (key : string) : M (option value) :=
  fun w => (Ok (live now (cache w) key), w).

Definition set (now : Z) (key : string) (v : value) (ttl : Z) : M unit :=
  modify (fun w => with_cache (<[key := (v, now + ttl)]> (cache w)) w).

Definition delete (key : string) : M unit :=
  modify (fun w => with_cache (base.delete key (cache w)) w).

End CacheService.

(** Durations, as the sources write them. *)
Definition seconds (n : Z) : Z := n * 1000.
Definition minutes (n : Z) : Z := n * 60 * 1000.
Definition hours (n : Z) : Z := n * 60 * 60 * 1000.

(** ** node:crypto *)

Module Crypto.

Fixpoint bytes_eqb (a b : list Z) : bool :=
  match a, b with
  | [], [] => true
  | x :: a', y :: b' => (x =? y) && bytes_eqb a' b'
  | _, _ => false
  end.

(** [timingSafeEqual(a, b)] throws a RangeError when the two buffers differ
    in byte length, and otherwise tells whether they hold the same bytes. *)
Definition timingSafeEqual (a b : list Z) : result bool :=
  if (length a =? length b)%nat then Ok (bytes_eqb a b) else Throw RangeError.

(** [Buffer.from(s)] *)
Definition buffer_from (s : string) : list Z := Sha256.bytes_of_string s.

End Crypto.

(** ** TokenService (app/services/auth/token_service.ts) *)

Module TokenService.

Record TokenGenerationResult : Type := mkTokenGenerationResult
  { token : string
  ; hash : string }.

Record TokenValidationParams : Type := mkTokenValidationParams
  { identifier : string
  ; candidate : string          (* the field [token] *)
  ; cacheKey : string }.

Definition invalid_or_expired : exn :=
  Exception "Token inválido ou expirado" 400.

(** [rnd] is what [randomBytes(16)] returned. *)
Definition generateSecureToken (rnd : list Z) : TokenGenerationResult :=
  let token := Sha256.hex rnd in
  let hash := Sha256.digest_hex token in
  mkTokenGenerationResult token hash.

Definition storeTokenHash (now : Z) (key hash : string) (ttl : Z) : M unit :=
  CacheService.set now key (VStr hash) ttl.

Definition validateToken (now : Z) (params : TokenValidationParams) : M bool :=
  storedHash <- CacheService.get now (cacheKey params) ;;
  match storedHash with
  | None => throw invalid_or_expired
  | Some v =>
      if negb (truthy v) then throw invalid_or_expired
      else
        match v with
        | VStr stored =>
            let providedHash := Sha256.digest_hex (candidate params) in
            equal <- lift (Crypto.timingSafeEqual (Crypto.buffer_from stored)
                                                  (Crypto.buffer_from providedHash)) ;;
            if negb equal then throw invalid_or_expired else ret true
        | _ => throw TypeError     (* Buffer.from of a number or an object *)
        end
  end.

(** [User.accessTokens.all(user)], then a delete for each. *)
Definition revokeAllAccessTokens (user : User) : M unit :=
  modify (fun w =>
    with_accessTokens
      (filter (fun t => negb (tokenableId t =? id user)) (accessTokens w)) w).

Definition createAccessToken (now : Z) (user : User) : M AccessToken :=
  revokeAllAccessTokens user ;;;
  let t := mkAccessToken (id user) "access_token" ["*"] 86400 now in
  modify (fun w => with_accessTokens (accessTokens w ++ [t]) w) ;;;
  ret t.

End TokenService.

(** ** RateLimiter (#services/security/rate_limiter) *)

Module RateLimiter.

Record Config : Type := mkConfig
  { maxAttempts : Z
  ; windowMs : Z
  ; blockTimeMs : Z }.

Record CheckResult : Type := mkCheckResult
  { allowed : bool
  ; attemptsRemaining : Z
  ; blockedUntil : option Z }.

(** The counter is the number under [ratelimit:attempts:<identifier>:<ip>]:
    that is the entry LoginProtectionService.getFailedAttempts reads
    (login_protection_service.ts:112).  The start of the window and the
    end of the block are kept beside it. *)
Definition attemptsKey (identifier ip : string) : string :=
  "ratelimit:attempts:" +:+ identifier +:+ ":" +:+ ip.
Definition windowKey (identifier ip : string) : string :=
  "ratelimit:window:" +:+ identifier +:+ ":" +:+ ip.
Definition blockedKey (identifier ip : string) : string :=
  "ratelimit:blocked:" +:+ identifier +:+ ":" +:+ ip.

(** The entries the limiter keeps for an identifier and an address. *)
Definition limiter_key (identifier ip k : string) : Prop :=
  k = attemptsKey identifier ip \/
  k = windowKey identifier ip \/
  k = blockedKey identifier ip.

(** The record a read at [now] finds: attempts and start of the window. *)
Definition state (now : Z) (c : gmap string (value * Z)) (identifier ip : string)
  : option (Z * Z) :=
  match CacheService.live now c (attemptsKey identifier ip),
        CacheService.live now c (windowKey identifier ip) with
  | Some (VNum a), Some (VNum start) => Some (a, start)
  | _, _ => None
  end.

(** The attempts the limiter counts at [now]: those of the record, none
    when there is no record or its window has run out. *)
Definition counted (now : Z) (config : Config) (c : gmap string (value * Z))
    (identifier ip : string) : Z :=
  match state now c identifier ip with
  | Some (a, start) => if windowMs config <? now - start then 0 else a
  | None => 0
  end.

(** No window is running at [now]: no record, or one whose window has run
    out. *)
Definition fresh (now : Z) (config : Config) (c : gmap string (value * Z))
    (identifier ip : string) : Prop :=
  match state now c identifier ip with
  | Some (a, start) => windowMs config < now - start
  | None => True
  end.

(** The time a record lives after the attempt that brought it to [k]. *)
Definition ttl_after (config : Config) (k : Z) : Z :=
  if maxAttempts config <=? k then blockTimeMs config else windowMs config.

(** The entries of a window that started at [start] and whose latest
    attempt, the [k]-th, was made at [last]. *)
Definition counting (config : Config) (c : gmap string (value * Z))
    (identifier ip : string) (k start last : Z) : Prop :=
  c !! attemptsKey identifier ip = Some (VNum k, last + ttl_after config k) /\
  c !! windowKey identifier ip = Some (VNum start, last + ttl_after config k).

Definition blocked (now : Z) (c : gmap string (value * Z)) (identifier ip : string)
  : option Z :=
  match CacheService.live now c (blockedKey identifier ip) with
  | Some (VNum b) => if now <? b then Some b else None
  | _ => None
  end.

(** Modelled from the spec: rate_limiter.ts is not among the sources.
    "clearAttempts(scope, identifier, ip): deletes the state entirely". *)
Definition clearAttempts (identifier ip : string) : M unit :=
  CacheService.delete (attemptsKey identifier ip) ;;;
  CacheService.delete (windowKey identifier ip) ;;;
  CacheService.delete (blockedKey identifier ip).

(** Modelled from the spec: rate_limiter.ts is not among the sources.
    "check: reads current RateLimitState for the composite key.  If blocked
    and unexpired -> allowed=false.  If window expired -> treat as fresh
    (0 attempts).  Otherwise allowed = attempts < maxAttempts"; and
    "attempts resets to 0 (record deleted) when now - windowStart >
    windowDuration", the expiry of the window being "lazy (checked on
    read)". *)
Definition check (now : Z) (identifier ip : string) (config : Config)
  : M CheckResult :=
  fun w =>
    match blocked now (cache w) identifier ip with
    | Some b => (Ok (mkCheckResult false 0 (Some b)), w)
    | None =>
        match state now (cache w) identifier ip with
        | Some (a, start) =>
            if windowMs config <? now - start
            then (clearAttempts identifier ip ;;;
                  ret (mkCheckResult (0 <? maxAttempts config)
                                     (maxAttempts config) None)) w
            else (Ok (mkCheckResult (a <? maxAttempts config)
                                    (Z.max 0 (maxAttempts config - a)) None), w)
        | None =>
            (Ok (mkCheckResult (0 <? maxAttempts config)
                               (maxAttempts config) None), w)
        end
    end.

(** Modelled from the spec: rate_limiter.ts is not among the sources.
    "recordAttempt: increments attempts (creating state with
    windowStart=now if absent or expired); when the increment reaches
    maxAttempts, sets blockedUntil = now + blockDuration and extends the
    record's TTL to blockDuration; otherwise TTL = windowDuration". *)
Definition recordAttempt (now : Z) (identifier ip : string) (config : Config)
  : M unit :=
  fun w =>
    let '(a, start) :=
      match state now (cache w) identifier ip with
      | Some (a, start) =>
          if windowMs config <? now - start then (1, now) else (a + 1, start)
      | None => (1, now)
      end in
    if maxAttempts config <=? a
    then (CacheService.set now (attemptsKey identifier ip) (VNum a) (blockTimeMs config) ;;;
          CacheService.set now (windowKey identifier ip) (VNum start) (blockTimeMs config) ;;;
          CacheService.set now (blockedKey identifier ip)
                           (VNum (now + blockTimeMs config)) (blockTimeMs config)) w
    else (CacheService.set now (attemptsKey identifier ip) (VNum a) (windowMs config) ;;;
          CacheService.set now (windowKey identifier ip) (VNum start) (windowMs config)) w.

End RateLimiter.

(** ** LoginProtectionService (app/services/security/login_protection_service.ts) *)

Module LoginProtectionService.

Record LoginAttemptParams : Type := mkLoginAttemptParams
  { identifier : string
  ; ip : string
  ; success : bool
  ; userName : option string
  ; userEmail : option string }.

Record LoginProtectionResult : Type := mkLoginProtectionResult
  { allowed : bool
  ; attemptsRemaining : Z
  ; blockedUntil : option Z
  ; isBlocked : bool }.

Definition MAX_ATTEMPTS : Z := 5.
Definition WINDOW_MS : Z := 15 * 60 * 1000.
Definition BLOCK_TIME_MS : Z := 30 * 60 * 1000.
Definition EXTENDED_BLOCK_TIME_MS : Z := 2 * 60 * 60 * 1000.

Definition RATE_LIMIT_CONFIG : RateLimiter.Config :=
  RateLimiter.mkConfig MAX_ATTEMPTS WINDOW_MS BLOCK_TIME_MS.

Definition getAccountBlockKey (identifier : string) : string :=
  "account:blocked:" +:+ identifier.

(** [blockedUntil !== null && Date.now() < blockedUntil]; a value that is
    not a number compares as NaN. *)
Definition isAccountBlocked (now : Z) (identifier : string) : M bool :=
  blockedUntil <- CacheService.get now (getAccountBlockKey identifier) ;;
  ret match blockedUntil with
      | Some (VNum b) => now <? b
      | _ => false
      end.

(** [(await CacheService.get<number>(attemptsKey)) ?? 0] *)
Definition getFailedAttempts (now : Z) (identifier ip : string) : M value :=
  let attemptsKey := "ratelimit:attempts:login:" +:+ identifier +:+ ":" +:+ ip in
  v <- CacheService.get now attemptsKey ;;
  ret (default (VNum 0) v).

(** [attempts >= MAX_ATTEMPTS] on what [getFailedAttempts] returned. *)
Definition reaches_max (attempts : value) : bool :=
  match attempts with
  | VNum a => MAX_ATTEMPTS <=? a
  | _ => false
  end.

Definition sendAccountBlockedEmail (now : Z) (userName email ip : string) : M unit :=
  let blockDuration := EXTENDED_BLOCK_TIME_MS / (60 * 60 * 1000) in
  modify (fun w =>
    with_outbox
      (outbox w ++
       [mkMail email
               "Conta temporariamente bloqueada - Tentativas de login suspeitas"
               true
               (AccountBlockedMail userName ip now blockDuration)]) w).

Definition blockAccount (now : Z) (identifier : string) : M unit :=
  let blockedUntil := now + EXTENDED_BLOCK_TIME_MS in
  CacheService.set now (getAccountBlockKey identifier) (VNum blockedUntil)
                   (seconds (EXTENDED_BLOCK_TIME_MS / 1000)).

Definition clearLoginAttempts (identifier ip : string) : M unit :=
  RateLimiter.clearAttempts ("login:" +:+ identifier) ip.

Definition checkLoginAttempt (now : Z) (identifier ip : string)
  : M LoginProtectionResult :=
  rateLimitCheck <- RateLimiter.check now ("login:" +:+ identifier) ip RATE_LIMIT_CONFIG ;;
  isBlocked <- isAccountBlocked now identifier ;;
  if isBlocked then
    blockedUntil <- CacheService.get now (getAccountBlockKey identifier) ;;
    ret (mkLoginProtectionResult
           false 0
           match blockedUntil with
           | Some (VNum b) => if truthy (VNum b) then Some b else None
           | _ => None
           end
           true)
  else
    ret (mkLoginProtectionResult
           (RateLimiter.allowed rateLimitCheck)
           (RateLimiter.attemptsRemaining rateLimitCheck)
           (RateLimiter.blockedUntil rateLimitCheck)
           false).

Definition recordLoginAttempt (now : Z) (params : LoginAttemptParams) : M unit :=
  if success params then
    clearLoginAttempts (identifier params) (ip params)
  else
    RateLimiter.recordAttempt now ("login:" +:+ identifier params) (ip params)
                              RATE_LIMIT_CONFIG ;;;
    attempts <- getFailedAttempts now (identifier params) (ip params) ;;
    if reaches_max attempts then
      blockAccount now (identifier params) ;;;
      match userEmail params, userName params with
      | Some e, Some n =>
          if Str.nonempty e && Str.nonempty n
          then sendAccountBlockedEmail now n e (ip params)
          else ret tt
      | _, _ => ret tt
      end
    else ret tt.

(** The world after failed attempts at the instants [ts], in that order. *)
Definition failed_logins (identifier ip : string) (userName userEmail : option string)
    (ts : list Z) (w : world) : world :=
  fold_left
    (fun w t => after (recordLoginAttempt t
                         (mkLoginAttemptParams identifier ip false userName userEmail)) w)
    ts w.

End LoginProtectionService.

(** ** What the services import from outside the sources at hand *)

Class Externals : Type := mkExternals
  { (** the string built-ins of the engine *)
    builtins :: Builtins
    (** [sharedCache.user.userKey(id)] and [sharedCache.user.listKey] *)
  ; userKey : Z -> string
  ; listKey : string
    (** [RateLimiter.getDefaultConfig()] *)
  ; getDefaultConfig : RateLimiter.Config
    (** [User.verifyCredentials(uid, password)] of the auth-finder mixin, a
        reader of the users table: the user, a falsy value, or an exception. *)
  ; verifyCredentials : list User -> string -> string -> result (option User) }.

(** ** The users table (lucid) *)

Module Db.

(** [User.query().where(p).first()] *)
Definition first (p : User -> bool) : M (option User) :=
  fun w => (Ok (find p (users w)), w).

(** [User.query().where(p).firstOrFail()] *)
Definition firstOrFail (p : User -> bool) : M User :=
  u <- first p ;;
  match u with
  | Some u => ret u
  | None => throw E_ROW_NOT_FOUND
  end.

(** [where('email', e)]: a null column equals nothing. *)
Definition email_is (e : string) (u : User) : bool :=
  match email u with
  | Some e' => (e' =? e)%string
  | None => false
  end.

Definition username_is (e : string) (u : User) : bool :=
  (username u =? e)%string.

(** [user.save()]: the row of that id is replaced. *)
Definition save (u : User) : M unit :=
  modify (fun w =>
    with_users (map (fun v => if id v =? id u then u else v) (users w)) w).

End Db.

Definition set_emailVerifiedAt (t : option Z) (u : User) : User :=
  mkUser (id u) (email u) (name u) (username u) (isActive u) (isDeleted u)
         (password u) t (lastLoginAt u) (lastIp u).
Definition set_password (p : string) (u : User) : User :=
  mkUser (id u) (email u) (name u) (username u) (isActive u) (isDeleted u)
         p (emailVerifiedAt u) (lastLoginAt u) (lastIp u).
Definition set_login (t : option Z) (i : option string) (u : User) : User :=
  mkUser (id u) (email u) (name u) (username u) (isActive u) (isDeleted u)
         (password u) (emailVerifiedAt u) t i.

(** The columns [email] and [name] of a user, for the modules whose own
    parameters carry the same names. *)
Definition user_email (u : User) : option string := email u.
Definition user_name (u : User) : string := name u.
Definition user_isActive (u : User) : bool := isActive u.

(** [user.serialize()]: the password column is [serializeAs: null]. *)
Definition serialize (u : User) : User := set_password "" u.

(** [!user.isActive || user.isDeleted] *)
Definition inactive_or_deleted (u : User) : bool :=
  negb (isActive u) || default false (isDeleted u).

(** ** sharedCache.user (#services/shared/cache_service) *)

Module SharedCache.
Section WithExternals.
Context `{Externals}.

(** Modelled from the spec: cache_service.ts is not among the sources.  A
    mutation "MUST invalidate both the per-id cache entry and the
    list-level cache entry"; entries are "invalidated (deleted, not
    updated)". *)
Definition invalidateUser (uid : option Z) : M unit :=
  match uid with
  | Some i => CacheService.delete (userKey i)
  | None => ret tt
  end ;;;
  CacheService.delete listKey.

End WithExternals.
End SharedCache.

(** ** EmailService (#services/app_email_service) *)

Module EmailService.

(** The mail is handed to the mailer. *)
Definition send (m : Mail) : M unit :=
  modify (fun w => with_outbox (outbox w ++ [m]) w).

End EmailService.

(** ** EmailVerificationService (app/services/auth/email_verification_service.ts) *)

Module EmailVerificationService.
Section WithExternals.
Context `{Externals}.

Definition VERIFY_TTL : Z := hours 24.
Definition RATE_LIMIT_CONFIG : RateLimiter.Config := getDefaultConfig.

Definition getVerifyKey (email : string) : string := "verify_email:" +:+ email.

Definition sendVerificationEmail (user : User) (token : string) : M unit :=
  EmailService.send
    (mkMail (Str.or_else (email user) (username user))
            "Verificação de E-mail" true
            (VerificationMail (name user) token)).

Definition cleanupAfterVerification (userId : Z) (email ip : string) : M unit :=
  SharedCache.invalidateUser (Some userId) ;;;
  CacheService.delete (getVerifyKey email) ;;;
  RateLimiter.clearAttempts ("verify:" +:+ email) ip.

(** [rnd] is the entropy the call draws if it comes to issue a token. *)
Definition requestEmailVerification (now : Z) (rnd : list Z)
    (user : User) (ip : option string) : M bool :=
  let ip := default "unknown" ip in
  let normalizedEmail := Str.or_else (email user) (username user) in
  rateLimitCheck <- RateLimiter.check now ("verify:" +:+ Str.normalize normalizedEmail)
                                      ip RATE_LIMIT_CONFIG ;;
  if negb (RateLimiter.allowed rateLimitCheck) then ret false
  else
    RateLimiter.recordAttempt now ("verify:" +:+ Str.normalize normalizedEmail)
                              ip RATE_LIMIT_CONFIG ;;;
    let generated := TokenService.generateSecureToken rnd in
    TokenService.storeTokenHash now (getVerifyKey (Str.normalize normalizedEmail))
                                (TokenService.hash generated) VERIFY_TTL ;;;
    sendVerificationEmail user (TokenService.token generated) ;;;
    ret true.

Definition verifyEmail (now : Z) (email token : string) (ip : option string)
  : M bool :=
  let ip := default "unknown" ip in
  let normalizedEmail := Str.normalize email in
  TokenService.validateToken now
    (TokenService.mkTokenValidationParams
       normalizedEmail token (getVerifyKey normalizedEmail)) ;;;
  user <- Db.firstOrFail (Db.email_is normalizedEmail) ;;
  let user := set_emailVerifiedAt (Some now) user in
  Db.save user ;;;
  cleanupAfterVerification (id user) normalizedEmail ip ;;;
  ret true.

End WithExternals.
End EmailVerificationService.

(** ** PasswordService (second module of email_verification_service.ts) *)

Module PasswordService.
Section WithExternals.
Context `{Externals}.

Definition RESET_TTL : Z := minutes 15.
Definition RATE_LIMIT_CONFIG : RateLimiter.Config := getDefaultConfig.

Definition inactive : exn := Exception "Usuário inativo" 403.

Definition getResetKey (email : string) : string := "reset:" +:+ email.

Definition sendResetEmail (user : User) (token : string) : M unit :=
  EmailService.send
    (mkMail (Str.or_else (email user) (username user))
            "Recuperação de senha" true
            (ResetMail (name user) token)).

Definition sendSuccessEmail (now : Z) (user : User) (ip : string) : M unit :=
  EmailService.send
    (mkMail (Str.or_else (email user) (username user))
            "Senha alterada com sucesso" true
            (ResetSuccessMail (name user) ip now)).

Definition sendBlockedNotification (now : Z) (user : User) (ip : string) : M unit :=
  EmailService.send
    (mkMail (Str.or_else (email user) (username user))
            "Tentativas excessivas de recuperação de senha" true
            (ResetBlockedMail (name user) ip now)).

Definition cleanupAfterReset (userId : Z) (email ip : string) : M unit :=
  SharedCache.invalidateUser (Some userId) ;;;
  CacheService.delete (getResetKey email) ;;;
  RateLimiter.clearAttempts ("reset:" +:+ email) ip.

Definition requestPasswordReset (now : Z) (rnd : list Z)
    (email : string) (ip : option string) : M bool :=
  let ip := default "unknown" ip in
  let normalizedEmail := Str.normalize email in
  user <- Db.firstOrFail (Db.email_is normalizedEmail) ;;
  if inactive_or_deleted user then throw inactive
  else
    rateLimitCheck <- RateLimiter.check now ("reset:" +:+ normalizedEmail)
                                        ip RATE_LIMIT_CONFIG ;;
    if negb (RateLimiter.allowed rateLimitCheck) then
      sendBlockedNotification now user ip ;;;
      ret false
    else
      RateLimiter.recordAttempt now ("reset:" +:+ normalizedEmail) ip RATE_LIMIT_CONFIG ;;;
      let generated := TokenService.generateSecureToken rnd in
      TokenService.storeTokenHash now (getResetKey normalizedEmail)
                                  (TokenService.hash generated) RESET_TTL ;;;
      sendResetEmail user (TokenService.token generated) ;;;
      ret true.

Definition resetPassword (now : Z) (email token password : string)
    (ip : option string) : M bool :=
  let ip := default "unknown" ip in
  let normalizedEmail := Str.normalize email in
  TokenService.validateToken now
    (TokenService.mkTokenValidationParams
       normalizedEmail token (getResetKey normalizedEmail)) ;;;
  user <- Db.firstOrFail (Db.email_is normalizedEmail) ;;
  if inactive_or_deleted user then throw inactive
  else
    let user := set_password password user in
    Db.save user ;;;
    cleanupAfterReset (id user) normalizedEmail ip ;;;
    sendSuccessEmail now user ip ;;;
    ret true.

End WithExternals.
End PasswordService.

(** ** AuthService.login (app/services/auth/auth_services.ts) *)

Module AuthService.
Section WithExternals.
Context `{Externals}.

Record LoginParams : Type := mkLoginParams
  { email : string
  ; password : string
  ; ip : option string }.

Record LoginResult : Type := mkLoginResult
  { token : AccessToken
  ; user : User }.

Definition invalid_credentials : exn := Exception "Credenciais inválidas" 401.

Definition account_blocked : exn :=
  Exception ("Conta temporariamente bloqueada devido a múltiplas tentativas de login. "
             +:+ "Verifique seu email.") 403.

Definition too_many_attempts (attemptsRemaining : Z) : exn :=
  Exception ("Muitas tentativas de login. Tente novamente em alguns minutos. "
             +:+ "Tentativas restantes: " +:+ pretty attemptsRemaining) 429.

(** [UserService.isActive(user)], on a user that is there. *)
Definition isActive_user (u : User) : bool :=
  isActive u && negb (default false (isDeleted u)).

Definition updateLoginMetadata (now : Z) (u : User) (ip : string) : M User :=
  let u := set_login (Some now) (Some ip) u in
  Db.save u ;;;
  ret u.

Definition cacheUser (now : Z) (u : User) : M unit :=
  CacheService.set now (userKey (id u)) (VUser (serialize u)) (hours 1).

Definition login (now : Z) (params : LoginParams) : M LoginResult :=
  let ip := default "unknown" (ip params) in
  if negb (Str.nonempty (email params)) || negb (Str.nonempty (password params))
  then throw invalid_credentials
  else
    loginCheck <- LoginProtectionService.checkLoginAttempt
                    now (Str.normalize (email params)) ip ;;
    if negb (LoginProtectionService.allowed loginCheck) then
      if LoginProtectionService.isBlocked loginCheck
      then throw account_blocked
      else throw (too_many_attempts (LoginProtectionService.attemptsRemaining loginCheck))
    else
      user <- Db.first (fun u => Db.email_is (email params) u
                                 || Db.username_is (email params) u) ;;
      match user with
      | None =>
          LoginProtectionService.recordLoginAttempt now
            (LoginProtectionService.mkLoginAttemptParams
               (Str.normalize (email params)) ip false None None) ;;;
          throw invalid_credentials
      | Some user =>
          if negb (isActive_user user) then
            LoginProtectionService.recordLoginAttempt now
              (LoginProtectionService.mkLoginAttemptParams
                 (Str.normalize (email params)) ip false None None) ;;;
            throw invalid_credentials
          else
            authUser <- (fun w => (verifyCredentials (users w) (email params)
                                                     (password params), w)) ;;
            match authUser with
            | None =>
                LoginProtectionService.recordLoginAttempt now
                  (LoginProtectionService.mkLoginAttemptParams
                     (Str.normalize (email params)) ip false
                     (Some (user_name user)) (user_email user)) ;;;
                throw invalid_credentials
            | Some authUser =>
                LoginProtectionService.recordLoginAttempt now
                  (LoginProtectionService.mkLoginAttemptParams
                     (Str.normalize (email params)) ip true None None) ;;;
                token <- TokenService.createAccessToken now authUser ;;
                authUser <- updateLoginMetadata now authUser ip ;;
                cacheUser now authUser ;;;
                ret (mkLoginResult token (serialize authUser))
            end
      end.

End WithExternals.
End AuthService.

(** ** AppKeyService (app/services/app_key_service.ts) *)

Module AppKeyService.

(** models/app_key.ts, as the service reads it. *)
Record AppKey : Type := mkAppKey
  { keyId : Z
  ; keyValue : string          (* the column [value] *)
  ; keyIsActive : bool
  ; expiresAt : option Z
  ; permission : list string }.

Definition MAX_ATTEMPTS : Z := 5.
Definition RATE_LIMIT_WINDOW : Z := 60.   (* seconds *)
Definition BLOCK_DURATION : Z := 900.     (* seconds *)

Definition isExpired (now : Z) (expiresAt : option Z) : bool :=
  match expiresAt with
  | None => false
  | Some e => e <? now
  end.

(** The [try] block computes both digests and compares them; the [catch]
    logs the error and answers false. *)
Definition safeCompare (expected provided : string) : result bool :=
  let expectedHash := Sha256.digest expected in
  let providedHash := Sha256.digest provided in
  match Crypto.timingSafeEqual expectedHash providedHash with
  | Ok b => Ok b
  | Throw _ => Ok false
  end.

Fixpoint findValidKey (now : Z) (keys : list AppKey) (providedKey : string)
  : result (option AppKey) :=
  match keys with
  | [] => Ok None
  | key :: rest =>
      if isExpired now (expiresAt key) then findValidKey now rest providedKey
      else
        match safeCompare (keyValue key) providedKey with
        | Ok true => Ok (Some key)
        | Ok false => findValidKey now rest providedKey
        | Throw e => Throw e
        end
  end.

Definition rateKey (ip key : string) : string :=
  "rate_limit:" +:+ ip +:+ ":" +:+ key.

Definition isKeyBlocked (now : Z) (keyId : Z) : M bool :=
  let blockKey := "key_blocked:" +:+ pretty keyId in
  blockedUntil <- CacheService.get now blockKey ;;
  match blockedUntil with
  | Some (VNum b) =>
      if b =? 0 then ret false
      else if b <? now then CacheService.delete blockKey ;;; ret false
      else ret true
  | Some v => ret (truthy v)     (* [Date.now() > v] is false on a non-number *)
  | None => ret false
  end.

Definition checkRateLimit (now : Z) (ip key : string) : M bool :=
  let rateKey := rateKey ip key in
  data <- CacheService.get now rateKey ;;
  match data with
  | None => ret false
  | Some (VRate d) =>
      let expired := seconds RATE_LIMIT_WINDOW <? now - firstAttempt d in
      if expired then CacheService.delete rateKey ;;; ret false
      else ret true
  | Some v => ret (truthy v)     (* [v.firstAttempt] is undefined: never expired *)
  end.

(** An entry under the rate key that is not a RateLimitData record is
    written by no service; the model reads it as a missing one. *)
Definition incrementRateLimit (now : Z) (ip key : string) : M unit :=
  let rateKey := rateKey ip key in
  data <- CacheService.get now rateKey ;;
  match data with
  | Some (VRate d) =>
      let attempts := attempts d + 1 in
      let shouldBlock := MAX_ATTEMPTS <=? attempts in
      CacheService.set now rateKey
        (VRate (mkRateLimitData attempts (firstAttempt d)
                  (if shouldBlock then Some (now + seconds BLOCK_DURATION) else None)))
        (if shouldBlock then minutes 15 else minutes 1)
  | _ =>
      CacheService.set now rateKey (VRate (mkRateLimitData 1 now None)) (minutes 1)
  end.

Definition handleFailedAttempt (now : Z) (key ip : string) : M unit :=
  incrementRateLimit now ip key.

End AppKeyService.

(** ** A sample instance of the externals, for the worked examples *)

Module Sample.

(** The lower-casing built-in on the Basic Latin and Latin-1 letters, the
    text of the samples: A to Z, and U+00C0 to U+00DE but U+00D7 (the bytes
    C3 80 to C3 9E but C3 97), each 32 below its lower-case letter. *)
Definition lower (c : ascii) : ascii :=
  let n := N_of_ascii c in
  if ((65 <=? n) && (n <=? 90))%N then ascii_of_N (n + 32) else c.

Definition lower_latin1 (c : ascii) : ascii :=
  let n := N_of_ascii c in
  if ((128 <=? n) && (n <=? 158) && negb (n =? 151))%N
  then ascii_of_N (n + 32) else c.

Fixpoint toLowerCase (s : string) : string :=
  match s with
  | EmptyString => EmptyString
  | String a r =>
      if (N_of_ascii a =? 195)%N then
        match r with
        | EmptyString => s
        | String b r' => String a (String (lower_latin1 b) (toLowerCase r'))
        end
      else String (lower a) (toLowerCase r)
  end.

Definition builtins : Builtins := mkBuiltins toLowerCase.

(** [User.verifyCredentials] as the withAuthFinder mixin of @adonisjs/auth
    (configured with [uids: ['email']]; not among the sources) behaves: it
    returns the user whose e-mail address is [uid] when the password is
    verified, and throws E_INVALID_CREDENTIALS in every other case - a
    missing argument, no such user, a wrong password.  It never answers a
    falsy value.  The sample rows keep their passwords in clear, so that
    verifying the hash is comparing the strings. *)
Definition verifyCredentials (us : list User) (uid pwd : string)
  : result (option User) :=
  if negb (Str.nonempty uid) || negb (Str.nonempty pwd)
  then Throw E_INVALID_CREDENTIALS
  else
    match find (Db.email_is uid) us with
    | Some u =>
        if (password u =? pwd)%string then Ok (Some u)
        else Throw E_INVALID_CREDENTIALS
    | None => Throw E_INVALID_CREDENTIALS
    end.

Definition externals : Externals :=
  mkExternals builtins
              (fun i => "user:" +:+ pretty i) "users:list"
              (RateLimiter.mkConfig 5 (minutes 15) (minutes 30))
              verifyCredentials.

Definition alice : User :=
  mkUser 1 (Some "alice@x.com") "Alice" "alice" true (Some false) "s3cret!!"
         None None None.

(** A user without an e-mail address: mails go to the user name. *)
Definition bob : User :=
  mkUser 2 None "Bob" "bob" true (Some false) "hunter22" None None None.

Definition empty : world := mkWorld ∅ [alice; bob] [] [].

(** Sixteen bytes, as [randomBytes(16)] could return them. *)
Definition entropy : list Z :=
  [1; 2; 3; 4; 5; 6; 7; 8; 9; 10; 11; 12; 13; 14; 15; 255].

(** Two failed logins on alice from one address, then five from another:
    the account is blocked, and the record of the first address is still
    there when its window has run out. *)
Definition blocked_alice : world :=
  LoginProtectionService.failed_logins "alice" "2.2.2.2" None None
    [100; 200; 300; 400; 500]
    (LoginProtectionService.failed_logins "alice" "1.1.1.1" None None
       [0; 50] empty).

(** The world after [n] requests, one per millisecond from instant 0. *)
Fixpoint verification_requests (n : nat) (w : world) : world :=
  match n with
  | O => w
  | S n' =>
      after (@EmailVerificationService.requestEmailVerification externals
               (Z.of_nat n') entropy alice None)
            (verification_requests n' w)
  end.

Fixpoint reset_requests (n : nat) (w : world) : world :=
  match n with
  | O => w
  | S n' =>
      after (@PasswordService.requestPasswordReset externals
               (Z.of_nat n') entropy "alice@x.com" None)
            (reset_requests n' w)
  end.

(** The world after [n] failed uses of an API key from one address, one per
    second from instant 0. *)
Fixpoint key_failures (n : nat) (w : world) : world :=
  match n with
  | O => w
  | S n' =>
      after (AppKeyService.handleFailedAttempt (1000 * Z.of_nat n')
               "k-live-01" "1.2.3.4")
            (key_failures n' w)
  end.

(** The world after alice asked for a verification mail at instant 0. *)
Definition pending : world :=
  after (@EmailVerificationService.requestEmailVerification externals
           0 entropy alice None) empty.


(** The token that request mailed to her. *)
Definition mailed : string :=
  TokenService.token (TokenService.generateSecureToken entropy).

End Sample.

(** ** The rest of the services *)

(** [try { m } catch { throw e }]: whatever [m] throws is replaced by [e]. *)
Definition catch_as {A : Type} (m : M A) (e : exn) : M A :=
  fun w =>
    match m w with
    | (Ok a, w') => (Ok a, w')
    | (Throw _, w') => (Throw e, w')
    end.

(** The users table by primary key (lucid). *)
Module UserTable.

Definition id_is (i : Z) (u : User) : bool := id u =? i.

(** [User.findOrFail(id)] *)
Definition findOrFail (i : Z) : M User := Db.firstOrFail (id_is i).

(** [user.delete()] *)
Definition delete (u : User) : M unit :=
  modify (fun w =>
    with_users (filter (fun v => negb (id v =? id u)) (users w)) w).

End UserTable.

(** TokenService.revokeAllTokens (app/services/auth/token_service.ts) and
    AuthService.logout, which is that call. *)
Module TokenRevocation.
Section WithExternals.
Context `{Externals}.

Definition revoke_failure : exn := Exception "Falha ao revogar tokens" 500.

Definition revokeAllTokens (user : User) : M bool :=
  catch_as
    (TokenService.revokeAllAccessTokens user ;;;
     SharedCache.invalidateUser (Some (id user)) ;;;
     ret true)
    revoke_failure.

Definition logout (user : User) : M bool := revokeAllTokens user.

End WithExternals.
End TokenRevocation.

(** ** UserService (app/services/user/user_service.ts) *)

Module UserService.
Section WithExternals.
Context `{Externals}.



Definition not_found : exn := Exception "Usuário não encontrado" 404.
Definition inactive : exn := Exception "Usuário inativo" 403.

(** What the call answers is the cached value when there is a truthy one,
    and the row otherwise: a JavaScript value in both cases. *)
Definition findById (now : Z) (i : Z) : M value :=
  let cacheKey := userKey i in
  cached <- CacheService.get now cacheKey ;;
  match cached with
  | Some v =>
      if truthy v then ret v
      else
        user <- UserTable.findOrFail i ;;
        CacheService.set now cacheKey (VUser (serialize user)) (hours 1) ;;;
        ret (VUser user)
  | None =>
      user <- UserTable.findOrFail i ;;
      CacheService.set now cacheKey (VUser (serialize user)) (hours 1) ;;;
      ret (VUser user)
  end.

(** [isActive(user)], on the value [findById] answered: a value without the
    columns is not active. *)
Definition isActive (v : value) : M bool :=
  if negb (truthy v) then throw not_found
  else
    ret match v with
        | VUser u => user_isActive u && negb (default false (isDeleted u))
        | _ => false
        end.

Definition getMe (now : Z) (user : User) : M value :=
  auth <- findById now (id user) ;;
  active <- isActive auth ;;
  if negb active then throw inactive else ret auth.

Definition invalidateUserCache (i : Z) : M unit :=
  SharedCache.invalidateUser (Some i).


Definition delete (user : User) : M bool :=
  invalidateUserCache (id user) ;;;
  UserTable.delete user ;;;
  ret true.

End WithExternals.
End UserService.

(** ** BlacklistService (app/services/security/blacklist_service.ts) *)

Module BlacklistService.

(** models/auth_deleted.ts, the columns the service writes. *)
Record AuthDeleted : Type := mkAuthDeleted
  { userId : string
  ; userEmail : string }.

(** A call on the auth_deleteds table: its outcome and the table after. *)
Definition T (A : Type) : Type := list AuthDeleted -> result A * list AuthDeleted.

Definition check_failure : exn := Exception "Falha ao verificar lista negra" 500.
Definition add_failure : exn :=
  Exception "Falha ao adicionar usuário à lista negra" 500.

Definition hashValue (v : string) : string := Sha256.digest_hex v.

(** The query finds a row or not; it does not fail, so the [catch] is not
    reached. *)
Definition isBlacklisted (input_email : string) : T bool :=
  fun table =>
    let emailHash := hashValue input_email in
    let record := find (fun r => (userEmail r =? emailHash)%string) table in
    (Ok match record with Some _ => true | None => false end, table).

(** The body of the [try]: the two guards, then the insert. *)
Definition addToBlacklist_body (user : option User) : T unit :=
  fun table =>
    match user with
    | None => (Throw (Exception "Usuário não encontrado" 404), table)
    | Some u =>
        if default false (isDeleted u)
        then (Throw (Exception "Usuário já está na lista negra" 400), table)
        else
          let emailHash := hashValue (Str.or_else (email u) (username u)) in
          (Ok tt, (table ++ [mkAuthDeleted (pretty (id u)) emailHash])%list)
    end.

(** The [catch] answers everything the body throws by the one 500. *)
Definition addToBlacklist (user : option User) : T unit :=
  fun table =>
    match addToBlacklist_body user table with
    | (Ok a, table') => (Ok a, table')
    | (Throw _, table') => (Throw add_failure, table')
    end.

End BlacklistService.

(** ** UserAnonymizationService (user_anonymization_service.ts) *)

Module UserAnonymizationService.
Section WithExternals.
Context `{Externals}.

(** The world together with the auth_deleteds table. *)
Record store : Type := mkStore
  { st_world : world
  ; st_authDeleteds : list BlacklistService.AuthDeleted }.

(** The row after [user.merge({...})].  The columns role, settings and
    deletedAt, which the merge also sets, are not columns of the User
    record. *)
Definition anonymized (randomPassword : string) (user : User) : User :=
  mkUser (id user)
         (Some ("deleted_" +:+ pretty (id user) +:+ "@internal.system"))
         "User Deleted"
         ("deleted_user_" +:+ pretty (id user))
         false (Some true) randomPassword None None None.

(** [randomPassword] is what generateRandomPassword returned. *)
Definition anonymize (randomPassword : string) (user : User)
  : store -> result bool * store :=
  fun s =>
    let user := anonymized randomPassword user in
    match (Db.save user ;;; TokenRevocation.revokeAllTokens user) (st_world s) with
    | (Throw e, w1) => (Throw e, mkStore w1 (st_authDeleteds s))
    | (Ok _, w1) =>
        match BlacklistService.addToBlacklist (Some user) (st_authDeleteds s) with
        | (Throw e, t1) => (Throw e, mkStore w1 t1)
        | (Ok _, t1) =>
            match SharedCache.invalidateUser (Some (id user)) w1 with
            | (Throw e, w2) => (Throw e, mkStore w2 t1)
            | (Ok _, w2) => (Ok true, mkStore w2 t1)
            end
        end
    end.

End WithExternals.
End UserAnonymizationService.

(** The instants [ts] follow [last] in order, and all lie before [bound]. *)
Fixpoint in_order_before (last bound : Z) (ts : list Z) : Prop :=
  match ts with
  | [] => True
  | t :: rest => last <= t /\ t < bound /\ in_order_before t bound rest
  end.

(** Each of the instants [ts] comes at or after the one before it ([last]
    for the first) and less than [gap] after it. *)
Fixpoint each_within (last gap : Z) (ts : list Z) : Prop :=
  match ts with
  | [] => True
  | t :: rest => last <= t /\ t < last + gap /\ each_within t gap rest
  end.

(** ** AppKeyService, the remaining attempt handlers *)

Module AppKeyAttempts.

(** [handleSuccessfulAttempt(key)] *)
Definition handleSuccessfulAttempt (key : string) : M unit :=
  CacheService.delete ("failed_attempts:" +:+ key).

(** The cache entry [incrementRateLimit] writes at [now] over what it read. *)
Definition rate_entry (now : Z) (read : option value) : value * Z :=
  match read with
  | Some (VRate d) =>
      (VRate (mkRateLimitData (attempts d + 1) (firstAttempt d)
                (if AppKeyService.MAX_ATTEMPTS <=? attempts d + 1
                 then Some (now + seconds AppKeyService.BLOCK_DURATION) else None)),
       now + (if AppKeyService.MAX_ATTEMPTS <=? attempts d + 1
              then minutes 15 else minutes 1))
  | _ => (VRate (mkRateLimitData 1 now None), now + minutes 1)
  end.

(** The entry after the [k]-th failure of a run, made at [last]. *)
Definition rate_record (k first last : Z) : value * Z :=
  (VRate (mkRateLimitData k first
            (if AppKeyService.MAX_ATTEMPTS <=? k
             then Some (last + seconds AppKeyService.BLOCK_DURATION) else None)),
   last + (if AppKeyService.MAX_ATTEMPTS <=? k then minutes 15 else minutes 1)).

(** The world after failed uses of a key from one address at the instants
    [ts], in that order. *)
Definition failed_uses (key ip : string) (ts : list Z) (w : world) : world :=
  fold_left (fun w t => after (AppKeyService.handleFailedAttempt t key ip) w) ts w.

End AppKeyAttempts.

(** ** Further sample worlds *)

Module Scenario.

(** An account, and the same account once deactivated. *)
Definition carol : User :=
  mkUser 3 (Some "carol@x.com") "Carol" "carol" true (Some false) "pa55word"
         None None None.

Definition carol_deactivated : User :=
  mkUser 3 (Some "carol@x.com") "Carol" "carol" false (Some false) "pa55word"
         None None None.

Definition staff : world := mkWorld ∅ [Sample.alice; Sample.bob; carol] [] [].

(** Carol asks for a password reset at instant 0; then her account is
    deactivated. *)
Definition carol_reset_pending : world :=
  after (Db.save carol_deactivated)
    (after (@PasswordService.requestPasswordReset Sample.externals
              0 Sample.entropy "carol@x.com" None) staff).

(** Alice's address as a form may send it: capitals, and no-break spaces
    (U+00A0, the bytes C2 A0) around it. *)
Definition nbsp : string :=
  String (ascii_of_N 194) (String (ascii_of_N 160) EmptyString).

Definition padded_address : string := nbsp +:+ " Alice@X.com " +:+ nbsp.

(** A user without an e-mail address, whose user name is one. *)
Definition dora : User :=
  mkUser 4 None "Dora" "dora@x.com" true (Some false) "qwerty12" None None None.

Definition members : world := mkWorld ∅ [Sample.alice; dora] [] [].

(** dora asks for a verification mail at instant 0. *)
Definition dora_pending : world :=
  after (@EmailVerificationService.requestEmailVerification Sample.externals
           0 Sample.entropy dora None) members.

(** Sixteen other bytes. *)
Definition entropy2 : list Z :=
  [16; 32; 48; 64; 80; 96; 112; 128; 144; 160; 176; 192; 208; 224; 240; 0].

(** Alice asks for a second verification mail, one second after the first. *)
Definition second_request : world :=
  after (@EmailVerificationService.requestEmailVerification Sample.externals
           1000 entropy2 Sample.alice None) Sample.pending.

(** Five failed logins on alice's address from one address. *)
Definition five_failures : world :=
  LoginProtectionService.failed_logins "alice@x.com" "1.2.3.4"
    (Some "Alice") (Some "alice@x.com") [10; 20; 30; 40; 50] Sample.empty.

(** Alice signs in with the right password. *)
Definition alice_login : AuthService.LoginParams :=
  AuthService.mkLoginParams "alice@x.com" "s3cret!!" (Some "9.9.9.9").

(** Alice's address with a wrong password, [n] times, one per second. *)
Fixpoint wrong_passwords (n : nat) (w : world) : world :=
  match n with
  | O => w
  | S n' =>
      after (@AuthService.login Sample.externals (1000 * Z.of_nat n')
               (AuthService.mkLoginParams "alice@x.com" "wrong-pass"
                  (Some "1.2.3.4")))
            (wrong_passwords n' w)
  end.


End Scenario.

(* ================================================================== *)
(** * Part II: properties                                              *)
(* ================================================================== *)

(** [trim] strips the white space of ECMAScript, the no-break space and the
    ideographic space as well as the blank and the line feed, at both ends
    and only there. *)
Example trim_strips_the_unicode_spaces :
  Str.trim Scenario.padded_address = "Alice@X.com" /\
  Str.trim (string_of_list_ascii
              (map ascii_of_N [227; 128; 128; 10; 97; 32; 98; 9; 239; 187; 191; 13]%N))
  = "a b" /\
  Str.trim "  " = "" /\
  Str.trim "é" = "é".
Proof. repeat split; vm_compute; reflexivity. Qed.

Example normalize_sample :
  @Str.normalize Sample.builtins Scenario.padded_address = "alice@x.com" /\
  @Str.normalize Sample.builtins " ÉLODIE@X.COM" = "élodie@x.com".
Proof. split; vm_compute; reflexivity. Qed.

Example sha256_abc :
  Sha256.digest_hex "abc"
  = "ba7816bf8f01cfea414140de5dae2223b00361a396177a9cb410ff61f20015ad".
Proof. vm_compute. reflexivity. Qed.

Example sha256_empty :
  Sha256.digest_hex ""
  = "e3b0c44298fc1c149afbf4c8996fb92427ae41e4649b934ca495991b7852b855".
Proof. vm_compute. reflexivity. Qed.

Example sha256_two_blocks :
  Sha256.digest_hex "abcdbcdecdefdefgefghfghighijhijkijkljklmklmnlmnomnopnopq"
  = "248d6a61d20638b8e5c026930c3e6039a33ce45964ff2167f6ecedd419db06c1".
Proof. vm_compute. reflexivity. Qed.

(** ** Digests and buffers *)

#[global] Arguments Sha256.digest : simpl never.
#[global] Arguments Sha256.digest_hex : simpl never.
#[global] Arguments Sha256.hex : simpl never.
#[global] Arguments Crypto.buffer_from : simpl never.
#[global] Arguments Crypto.timingSafeEqual : simpl never.
#[global] Arguments Str.normalize : simpl never.
#[global] Arguments pretty : simpl never.

Lemma digest_length (s : string) : length (Sha256.digest s) = 32%nat.
Proof.
  unfold Sha256.digest.
  generalize (Sha256.hash_words (Sha256.bytes_of_string s)); intros r.
  reflexivity.
Qed.

Lemma digest_hex_nonempty (s : string) : Str.nonempty (Sha256.digest_hex s) = true.
Proof.
  unfold Sha256.digest_hex, Sha256.digest.
  generalize (Sha256.hash_words (Sha256.bytes_of_string s)); intros r.
  reflexivity.
Qed.

Lemma digest_hex_length (s : string) : String.length (Sha256.digest_hex s) = 64%nat.
Proof.
  unfold Sha256.digest_hex, Sha256.digest.
  generalize (Sha256.hash_words (Sha256.bytes_of_string s)); intros r.
  reflexivity.
Qed.

Lemma buffer_from_length (s : string) :
  length (Crypto.buffer_from s) = String.length s.
Proof.
  unfold Crypto.buffer_from, Sha256.bytes_of_string. rewrite length_map.
  induction s as [|c s IH]; simpl; congruence.
Qed.

Lemma bytes_eqb_eq (a b : list Z) : Crypto.bytes_eqb a b = true <-> a = b.
Proof.
  revert b; induction a as [|x a IH]; intros [|y b]; simpl; split;
    try congruence; try discriminate.
  - intros Hxy. apply andb_true_iff in Hxy as [Hx Hab].
    apply Z.eqb_eq in Hx. apply IH in Hab. congruence.
  - intros [= -> ->]. rewrite Z.eqb_refl. simpl. now apply IH.
Qed.

Lemma timingSafeEqual_true (a b : list Z) :
  Crypto.timingSafeEqual a b = Ok true <-> a = b.
Proof.
  unfold Crypto.timingSafeEqual. split.
  - destruct (length a =? length b)%nat; [|discriminate].
    intros [= Heq]. now apply bytes_eqb_eq.
  - intros ->. rewrite Nat.eqb_refl. f_equal. now apply bytes_eqb_eq.
Qed.

Lemma bytes_of_string_inj (s t : string) :
  Sha256.bytes_of_string s = Sha256.bytes_of_string t -> s = t.
Proof.
  unfold Sha256.bytes_of_string.
  revert t; induction s as [|c s IH]; intros [|d t]; simpl; try discriminate; auto.
  intros [= Hc Hst]. f_equal; [|now apply IH].
  apply N2Z.inj in Hc.
  rewrite <- (ascii_N_embedding c), <- (ascii_N_embedding d). now rewrite Hc.
Qed.

(** ** The cache *)

Lemma live_insert_eq now (c : gmap string (value * Z)) k v e :
  CacheService.live now (<[k := (v, e)]> c) k = if now <? e then Some v else None.
Proof. unfold CacheService.live. now rewrite lookup_insert_eq. Qed.

Lemma live_insert_ne now (c : gmap string (value * Z)) k k' x :
  k <> k' -> CacheService.live now (<[k := x]> c) k' = CacheService.live now c k'.
Proof. intros Hne. unfold CacheService.live. now rewrite lookup_insert_ne. Qed.

Lemma live_delete_eq now (c : gmap string (value * Z)) k :
  CacheService.live now (base.delete k c) k = None.
Proof. unfold CacheService.live. now rewrite lookup_delete_eq. Qed.

Lemma live_delete_ne now (c : gmap string (value * Z)) k k' :
  k <> k' -> CacheService.live now (base.delete k c) k' = CacheService.live now c k'.
Proof. intros Hne. unfold CacheService.live. now rewrite lookup_delete_ne. Qed.

Lemma live_lookup now (c c' : gmap string (value * Z)) k :
  c' !! k = c !! k -> CacheService.live now c' k = CacheService.live now c k.
Proof. unfold CacheService.live. now intros ->. Qed.


(** ** TokenService.validateToken *)

(** A validation writes nothing. *)
Lemma validateToken_after now params w :
  after (TokenService.validateToken now params) w = w.
Proof.
  unfold after, TokenService.validateToken, bind, CacheService.get, lift, throw, ret.
  cbn.
  destruct (CacheService.live now (cache w) (TokenService.cacheKey params)) as [v|];
    [|reflexivity].
  destruct (truthy v); [|reflexivity]. cbn.
  destruct v; try reflexivity.
  destruct (Crypto.timingSafeEqual _ _) as [[|]|]; reflexivity.
Qed.

(** It answers true exactly when the live entry is the hex digest of the
    candidate. *)
Lemma validateToken_true now params w :
  outcome (TokenService.validateToken now params) w = Ok true
  <-> CacheService.live now (cache w) (TokenService.cacheKey params)
      = Some (VStr (Sha256.digest_hex (TokenService.candidate params))).
Proof.
  unfold outcome, TokenService.validateToken, bind, CacheService.get, lift, throw, ret.
  cbn. split.
  - destruct (CacheService.live now (cache w) (TokenService.cacheKey params)) as [v|];
      [|discriminate].
    destruct (truthy v); [|discriminate]. cbn.
    destruct v as [stored| | |]; try discriminate.
    destruct (Crypto.timingSafeEqual _ _) as [[|]|] eqn:Heq; try discriminate.
    intros _. apply timingSafeEqual_true in Heq.
    apply bytes_of_string_inj in Heq. now subst.
  - intros ->. cbn. rewrite digest_hex_nonempty. cbn.
    assert (Heq : Crypto.timingSafeEqual
              (Crypto.buffer_from (Sha256.digest_hex (TokenService.candidate params)))
              (Crypto.buffer_from (Sha256.digest_hex (TokenService.candidate params)))
            = Ok true) by now apply timingSafeEqual_true.
    now rewrite Heq.
Qed.

(** It never answers false: a rejected token is an exception. *)
Lemma validateToken_not_false now params w :
  outcome (TokenService.validateToken now params) w <> Ok false.
Proof.
  unfold outcome, TokenService.validateToken, bind, CacheService.get, lift, throw, ret.
  cbn.
  destruct (CacheService.live now (cache w) (TokenService.cacheKey params)) as [v|];
    [|discriminate].
  destruct (truthy v); [|discriminate]. cbn.
  destruct v; try discriminate.
  destruct (Crypto.timingSafeEqual _ _) as [[|]|]; discriminate.
Qed.

Lemma validateToken_absent now params w :
  CacheService.live now (cache w) (TokenService.cacheKey params) = None ->
  outcome (TokenService.validateToken now params) w
  = Throw TokenService.invalid_or_expired.
Proof.
  unfold outcome, TokenService.validateToken, bind, CacheService.get.
  cbn. now intros ->.
Qed.

(** A stored string of the length of a digest that is not the digest of the
    candidate is answered by the same exception as a missing one. *)
Lemma validateToken_mismatch now params w stored :
  CacheService.live now (cache w) (TokenService.cacheKey params) = Some (VStr stored) ->
  String.length stored = 64%nat ->
  stored <> Sha256.digest_hex (TokenService.candidate params) ->
  outcome (TokenService.validateToken now params) w
  = Throw TokenService.invalid_or_expired.
Proof.
  intros Hlive Hlen Hne.
  unfold outcome, TokenService.validateToken, bind, CacheService.get, lift, throw, ret.
  cbn. rewrite Hlive. cbn.
  destruct stored as [|c stored]; [discriminate|]. cbn.
  destruct (Crypto.timingSafeEqual _ _) as [[|]|] eqn:Heq; try reflexivity.
  - apply timingSafeEqual_true, bytes_of_string_inj in Heq. contradiction.
  - exfalso. unfold Crypto.timingSafeEqual in Heq.
    assert (Hl : (length (Crypto.buffer_from (String c stored))
                  =? length (Crypto.buffer_from
                               (Sha256.digest_hex (TokenService.candidate params))))%nat
                 = true).
    { apply Nat.eqb_eq. now rewrite !buffer_from_length, Hlen, digest_hex_length. }
    rewrite Hl in Heq. discriminate.
Qed.

Lemma run_eq {A : Type} (m : M A) (w : world) : m w = (outcome m w, after m w).
Proof. unfold outcome, after. now destruct (m w). Qed.

(** ** C1 *)

(** C1. A token pair produced by generateSecureToken whose hash was stored by
    storeTokenHash under a key is accepted by a later validateToken call with
    that key and the generated plaintext, in any later world in which the
    entry under the key is still the stored one and at any instant before the
    TTL has run out: the call returns true (and writes nothing). *)
Theorem generated_token_validates
    (rnd : list Z) (key identifier : string) (ttl t0 t1 : Z) (w w' : world) :
  cache w' !! key
  = cache (after (TokenService.storeTokenHash t0 key
                    (TokenService.hash (TokenService.generateSecureToken rnd)) ttl) w)
    !! key ->
  t1 < t0 + ttl ->
  TokenService.validateToken t1
    (TokenService.mkTokenValidationParams identifier
       (TokenService.token (TokenService.generateSecureToken rnd)) key) w'
  = (Ok true, w').
Proof.
  intros Hkept Httl.
  rewrite run_eq, validateToken_after. f_equal.
  apply validateToken_true. cbn.
  rewrite (live_lookup _ _ _ _ Hkept). cbn.
  rewrite live_insert_eq.
  apply Z.ltb_lt in Httl. now rewrite Httl.
Qed.

Lemma generated_token_validates_witness :
  1000 < 0 + hours 24 /\
  TokenService.validateToken 1000
    (TokenService.mkTokenValidationParams "alice@x.com" Sample.mailed
       "verify_email:alice@x.com") Sample.pending
  = (Ok true, Sample.pending).
Proof.
  split; [reflexivity|].
  apply (generated_token_validates Sample.entropy "verify_email:alice@x.com"
           "alice@x.com" (hours 24) 0 1000 Sample.empty Sample.pending).
  - vm_compute. reflexivity.
  - reflexivity.
Defined.

(** ** C3 *)

(** C3, as the code has it.  validateToken never returns false: whatever the
    cache holds and whatever the candidate is, a rejected input is an
    exception.  When the entry is absent (expired or never issued) the
    exception is the 400 "Token inválido ou expirado"; the same exception
    answers a stored digest-length string that is not the digest of the
    candidate; in every case where the live entry is not the digest of the
    candidate the call throws.  A validation writes nothing. *)
Theorem validateToken_fails_closed (now : Z)
    (params : TokenService.TokenValidationParams) (w : world) :
  outcome (TokenService.validateToken now params) w <> Ok false /\
  (CacheService.live now (cache w) (TokenService.cacheKey params) = None ->
   outcome (TokenService.validateToken now params) w
   = Throw TokenService.invalid_or_expired) /\
  (forall stored,
     CacheService.live now (cache w) (TokenService.cacheKey params)
     = Some (VStr stored) ->
     String.length stored = 64%nat ->
     stored <> Sha256.digest_hex (TokenService.candidate params) ->
     outcome (TokenService.validateToken now params) w
     = Throw TokenService.invalid_or_expired) /\
  (CacheService.live now (cache w) (TokenService.cacheKey params)
   <> Some (VStr (Sha256.digest_hex (TokenService.candidate params))) ->
   exists e, outcome (TokenService.validateToken now params) w = Throw e) /\
  after (TokenService.validateToken now params) w = w.
Proof.
  repeat split.
  - apply validateToken_not_false.
  - apply validateToken_absent.
  - intros stored. apply validateToken_mismatch.
  - intros Hne.
    destruct (outcome (TokenService.validateToken now params) w) as [[|]|e] eqn:Hr.
    + apply validateToken_true in Hr. contradiction.
    + now apply validateToken_not_false in Hr.
    + now exists e.
  - apply validateToken_after.
Qed.

Lemma validateToken_fails_closed_witness :
  outcome (TokenService.validateToken 1000
             (TokenService.mkTokenValidationParams "bob@x.com" Sample.mailed
                "verify_email:bob@x.com")) Sample.pending
  = Throw TokenService.invalid_or_expired.
Proof.
  apply (validateToken_fails_closed 1000
           (TokenService.mkTokenValidationParams "bob@x.com" Sample.mailed
              "verify_email:bob@x.com") Sample.pending).
  vm_compute. reflexivity.
Defined.

(** A malformed candidate is answered by an exception, not by false. *)
Lemma validateToken_malformed_raises :
  outcome (TokenService.validateToken 1000
             (TokenService.mkTokenValidationParams "alice@x.com" "not a token"
                "verify_email:alice@x.com")) Sample.pending
  = Throw (Exception "Token inválido ou expirado" 400)
  /\ outcome (TokenService.validateToken 1000
                (TokenService.mkTokenValidationParams "alice@x.com" "not a token"
                   "verify_email:alice@x.com")) Sample.pending
     <> Ok false.
Proof.
  assert (H : outcome (TokenService.validateToken 1000
                 (TokenService.mkTokenValidationParams "alice@x.com" "not a token"
                    "verify_email:alice@x.com")) Sample.pending
              = Throw (Exception "Token inválido ou expirado" 400))
    by (vm_compute; reflexivity).
  split; [exact H|]. rewrite H. discriminate.
Qed.

(** A stored value that is not of the length of a digest escapes as the
    RangeError of timingSafeEqual. *)
Example validateToken_short_stored_value :
  outcome (TokenService.validateToken 1000
             (TokenService.mkTokenValidationParams "alice@x.com" Sample.mailed "k"))
          (mkWorld {[ "k" := (VStr "abc", 5000) ]} [] [] [])
  = Throw RangeError.
Proof. vm_compute. reflexivity. Qed.

(** ** AppKeyService.safeCompare *)

(** The comparison of two digests never reaches the [catch]. *)
Lemma safeCompare_run (expected provided : string) :
  AppKeyService.safeCompare expected provided
  = Ok (Crypto.bytes_eqb (Sha256.digest expected) (Sha256.digest provided)).
Proof.
  unfold AppKeyService.safeCompare, Crypto.timingSafeEqual.
  now rewrite !digest_length.
Qed.

(** The scan of the keys returns, whatever the keys and the secret. *)
Lemma findValidKey_total (now : Z) (keys : list AppKeyService.AppKey)
    (providedKey : string) :
  exists found, AppKeyService.findValidKey now keys providedKey = Ok found.
Proof.
  induction keys as [|key rest IH]; cbn; [eauto|].
  destruct (AppKeyService.isExpired now (AppKeyService.expiresAt key)); [exact IH|].
  rewrite safeCompare_run.
  destruct (Crypto.bytes_eqb _ _); eauto.
Qed.

(** A key it returns is one of the keys, is not expired, and has the digest
    of the secret presented. *)
Lemma findValidKey_sound (now : Z) (keys : list AppKeyService.AppKey)
    (providedKey : string) (key : AppKeyService.AppKey) :
  AppKeyService.findValidKey now keys providedKey = Ok (Some key) ->
  In key keys /\
  AppKeyService.isExpired now (AppKeyService.expiresAt key) = false /\
  Sha256.digest (AppKeyService.keyValue key) = Sha256.digest providedKey.
Proof.
  induction keys as [|k rest IH]; cbn; [discriminate|].
  destruct (AppKeyService.isExpired now (AppKeyService.expiresAt k)) eqn:Hexp.
  - intros Hfound. destruct (IH Hfound) as (Hin & Hrest).
    split; [now right | exact Hrest].
  - rewrite safeCompare_run.
    destruct (Crypto.bytes_eqb _ _) eqn:Heq.
    + intros [= <-]. apply bytes_eqb_eq in Heq. repeat split; auto.
    + intros Hfound. destruct (IH Hfound) as (Hin & Hrest).
      split; [now right | exact Hrest].
Qed.

(** ** C10 *)

(** C10. safeCompare is total and fails closed: on every pair of strings it
    returns a boolean and raises nothing, and the boolean is true exactly
    when the SHA-256 digests of the two strings are the same bytes; equal
    strings in particular compare true. *)
Theorem safeCompare_total_and_exact (expected provided : string) :
  exists b : bool,
    AppKeyService.safeCompare expected provided = Ok b /\
    (b = true <-> Sha256.digest expected = Sha256.digest provided) /\
    (expected = provided -> b = true).
Proof.
  exists (Crypto.bytes_eqb (Sha256.digest expected) (Sha256.digest provided)).
  split; [apply safeCompare_run|]. split.
  - apply bytes_eqb_eq.
  - intros ->. now apply bytes_eqb_eq.
Qed.

Lemma safeCompare_total_and_exact_witness :
  AppKeyService.safeCompare "k-live-01" "k-live-01" = Ok true.
Proof.
  destruct (safeCompare_total_and_exact "k-live-01" "k-live-01")
    as (b & Hrun & _ & Heq).
  rewrite Hrun. f_equal. now apply Heq.
Defined.

Example safeCompare_different :
  AppKeyService.safeCompare "k-live-01" "k-live-02" = Ok false.
Proof. vm_compute. reflexivity. Qed.

(** ** Keys *)

#[global] Arguments String.append : simpl never.
#[global] Arguments RateLimiter.attemptsKey : simpl never.
#[global] Arguments RateLimiter.windowKey : simpl never.
#[global] Arguments RateLimiter.blockedKey : simpl never.
#[global] Arguments LoginProtectionService.getAccountBlockKey : simpl never.

Ltac key_neq :=
  let H := fresh "Hkeys" in
  intros H;
  unfold RateLimiter.attemptsKey, RateLimiter.windowKey, RateLimiter.blockedKey,
    LoginProtectionService.getAccountBlockKey, AppKeyService.rateKey in H;
  cbv [String.append] in H; discriminate H.

Lemma attempts_window_neq i p i' p' :
  RateLimiter.attemptsKey i p <> RateLimiter.windowKey i' p'.
Proof. key_neq. Qed.

Lemma attempts_blocked_neq i p i' p' :
  RateLimiter.attemptsKey i p <> RateLimiter.blockedKey i' p'.
Proof. key_neq. Qed.

Lemma window_blocked_neq i p i' p' :
  RateLimiter.windowKey i p <> RateLimiter.blockedKey i' p'.
Proof. key_neq. Qed.

Lemma account_attempts_neq a i p :
  LoginProtectionService.getAccountBlockKey a <> RateLimiter.attemptsKey i p.
Proof. key_neq. Qed.

Lemma account_window_neq a i p :
  LoginProtectionService.getAccountBlockKey a <> RateLimiter.windowKey i p.
Proof. key_neq. Qed.

Lemma account_blocked_neq a i p :
  LoginProtectionService.getAccountBlockKey a <> RateLimiter.blockedKey i p.
Proof. key_neq. Qed.

Create HintDb keys.
#[global] Hint Resolve attempts_window_neq attempts_blocked_neq window_blocked_neq
  account_attempts_neq account_window_neq account_blocked_neq : keys.
#[global] Hint Extern 1 (_ <> _) => apply not_eq_sym : keys.

(** The entry getFailedAttempts reads is the limiter's counter for the login
    scope. *)
Lemma failed_attempts_key identifier ip :
  "ratelimit:attempts:login:" +:+ identifier +:+ ":" +:+ ip
  = RateLimiter.attemptsKey ("login:" +:+ identifier) ip.
Proof. reflexivity. Qed.

(** ** RateLimiter *)

Lemma clearAttempts_cache identifier ip w :
  cache (after (RateLimiter.clearAttempts identifier ip) w)
  = base.delete (RateLimiter.blockedKey identifier ip)
      (base.delete (RateLimiter.windowKey identifier ip)
         (base.delete (RateLimiter.attemptsKey identifier ip) (cache w))).
Proof. reflexivity. Qed.

Lemma clearAttempts_outcome identifier ip w :
  outcome (RateLimiter.clearAttempts identifier ip) w = Ok tt.
Proof. reflexivity. Qed.

Lemma clearAttempts_rest identifier ip w :
  users (after (RateLimiter.clearAttempts identifier ip) w) = users w /\
  accessTokens (after (RateLimiter.clearAttempts identifier ip) w) = accessTokens w /\
  outbox (after (RateLimiter.clearAttempts identifier ip) w) = outbox w.
Proof. repeat split. Qed.

Lemma clearAttempts_frame identifier ip w k :
  ~ RateLimiter.limiter_key identifier ip k ->
  cache (after (RateLimiter.clearAttempts identifier ip) w) !! k = cache w !! k.
Proof.
  intros Hk. rewrite clearAttempts_cache.
  rewrite !lookup_delete_ne; [reflexivity| | |];
    intros Heq; subst k; apply Hk; unfold RateLimiter.limiter_key; auto.
Qed.

Lemma clearAttempts_gone identifier ip w k :
  RateLimiter.limiter_key identifier ip k ->
  cache (after (RateLimiter.clearAttempts identifier ip) w) !! k = None.
Proof.
  rewrite clearAttempts_cache. intros [-> | [-> | ->]].
  - rewrite !lookup_delete_ne by auto with keys. apply lookup_delete_eq.
  - rewrite lookup_delete_ne by auto with keys. apply lookup_delete_eq.
  - apply lookup_delete_eq.
Qed.

(** A check either leaves the world as it is or clears the record whose
    window has run out. *)
Lemma check_after now identifier ip config w :
  after (RateLimiter.check now identifier ip config) w = w \/
  (after (RateLimiter.check now identifier ip config) w
   = after (RateLimiter.clearAttempts identifier ip) w /\
   RateLimiter.blocked now (cache w) identifier ip = None /\
   exists a start,
     RateLimiter.state now (cache w) identifier ip = Some (a, start) /\
     RateLimiter.windowMs config < now - start).
Proof.
  unfold after, RateLimiter.check.
  destruct (RateLimiter.blocked now (cache w) identifier ip) as [b|]; [now left|].
  destruct (RateLimiter.state now (cache w) identifier ip) as [[a start]|];
    [|now left].
  destruct (RateLimiter.windowMs config <? now - start) eqn:Hexp; [|now left].
  right. repeat split. exists a, start. split; [reflexivity|]. now apply Z.ltb_lt.
Qed.

Lemma check_frame now identifier ip config w k :
  ~ RateLimiter.limiter_key identifier ip k ->
  cache (after (RateLimiter.check now identifier ip config) w) !! k = cache w !! k.
Proof.
  intros Hk.
  destruct (check_after now identifier ip config w) as [-> | [-> _]];
    [reflexivity|]. now apply clearAttempts_frame.
Qed.

Lemma check_rest now identifier ip config w :
  users (after (RateLimiter.check now identifier ip config) w) = users w /\
  accessTokens (after (RateLimiter.check now identifier ip config) w) = accessTokens w /\
  outbox (after (RateLimiter.check now identifier ip config) w) = outbox w.
Proof.
  destruct (check_after now identifier ip config w) as [-> | [-> _]];
    repeat split.
Qed.

(** A check never throws. *)
Lemma check_outcome now identifier ip config w :
  exists r, outcome (RateLimiter.check now identifier ip config) w = Ok r.
Proof.
  unfold outcome, RateLimiter.check.
  destruct (RateLimiter.blocked now (cache w) identifier ip) as [b|]; [eauto|].
  destruct (RateLimiter.state now (cache w) identifier ip) as [[a start]|];
    [|eauto].
  destruct (RateLimiter.windowMs config <? now - start); eauto.
Qed.

Lemma account_key_not_limiter a identifier ip :
  ~ RateLimiter.limiter_key identifier ip
      (LoginProtectionService.getAccountBlockKey a).
Proof.
  intros [H | [H | H]];
    [eapply account_attempts_neq | eapply account_window_neq
     | eapply account_blocked_neq]; exact H.
Qed.

(** ** C7 *)

(** C7. For every identifier and address, recordLoginAttempt with
    success=true returns normally, deletes the limiter's entries (counter,
    window, block) of the login scope of that identifier at that address and
    changes nothing else: every other cache entry is as before, in particular
    the account-block entry of the identifier, so that isAccountBlocked
    answers after the call what it answered before it, at every instant. *)
Theorem successful_login_keeps_account_block
    (now : Z) (identifier ip : string) (userName userEmail : option string)
    (w : world) :
  outcome (LoginProtectionService.recordLoginAttempt now
             (LoginProtectionService.mkLoginAttemptParams
                identifier ip true userName userEmail)) w = Ok tt /\
  (forall k, RateLimiter.limiter_key ("login:" +:+ identifier) ip k ->
     cache (after (LoginProtectionService.recordLoginAttempt now
                     (LoginProtectionService.mkLoginAttemptParams
                        identifier ip true userName userEmail)) w) !! k = None) /\
  (forall k, ~ RateLimiter.limiter_key ("login:" +:+ identifier) ip k ->
     cache (after (LoginProtectionService.recordLoginAttempt now
                     (LoginProtectionService.mkLoginAttemptParams
                        identifier ip true userName userEmail)) w) !! k
     = cache w !! k) /\
  (forall a,
     cache (after (LoginProtectionService.recordLoginAttempt now
                     (LoginProtectionService.mkLoginAttemptParams
                        identifier ip true userName userEmail)) w)
       !! LoginProtectionService.getAccountBlockKey a
     = cache w !! LoginProtectionService.getAccountBlockKey a) /\
  (forall t a,
     outcome (LoginProtectionService.isAccountBlocked t a)
       (after (LoginProtectionService.recordLoginAttempt now
                 (LoginProtectionService.mkLoginAttemptParams
                    identifier ip true userName userEmail)) w)
     = outcome (LoginProtectionService.isAccountBlocked t a) w) /\
  users (after (LoginProtectionService.recordLoginAttempt now
                  (LoginProtectionService.mkLoginAttemptParams
                     identifier ip true userName userEmail)) w) = users w /\
  outbox (after (LoginProtectionService.recordLoginAttempt now
                   (LoginProtectionService.mkLoginAttemptParams
                      identifier ip true userName userEmail)) w) = outbox w.
Proof.
  change (LoginProtectionService.recordLoginAttempt now
            (LoginProtectionService.mkLoginAttemptParams
               identifier ip true userName userEmail))
    with (RateLimiter.clearAttempts ("login:" +:+ identifier) ip).
  split; [apply clearAttempts_outcome|].
  split; [intros k; apply clearAttempts_gone|].
  split; [intros k; apply clearAttempts_frame|].
  assert (Hacc : forall a,
            cache (after (RateLimiter.clearAttempts ("login:" +:+ identifier) ip) w)
              !! LoginProtectionService.getAccountBlockKey a
            = cache w !! LoginProtectionService.getAccountBlockKey a).
  { intros a. apply clearAttempts_frame, account_key_not_limiter. }
  split; [exact Hacc|].
  split; [|split; reflexivity].
  intros t a.
  unfold outcome, LoginProtectionService.isAccountBlocked, bind, CacheService.get, ret.
  cbn. now rewrite (live_lookup _ _ _ _ (Hacc a)).
Qed.

(** ** RateLimiter.recordAttempt *)

Lemma recordAttempt_run now identifier ip config w :
  RateLimiter.recordAttempt now identifier ip config w
  = (Ok tt, after (RateLimiter.recordAttempt now identifier ip config) w).
Proof.
  unfold after, RateLimiter.recordAttempt.
  destruct (match RateLimiter.state now (cache w) identifier ip with
            | Some (a, start) =>
                if RateLimiter.windowMs config <? now - start
                then (1, now) else (a + 1, start)
            | None => (1, now)
            end) as [a start].
  destruct (RateLimiter.maxAttempts config <=? a); reflexivity.
Qed.

Lemma recordAttempt_rest now identifier ip config w :
  users (after (RateLimiter.recordAttempt now identifier ip config) w) = users w /\
  accessTokens (after (RateLimiter.recordAttempt now identifier ip config) w)
  = accessTokens w /\
  outbox (after (RateLimiter.recordAttempt now identifier ip config) w) = outbox w.
Proof.
  unfold after, RateLimiter.recordAttempt.
  destruct (match RateLimiter.state now (cache w) identifier ip with
            | Some (a, start) =>
                if RateLimiter.windowMs config <? now - start
                then (1, now) else (a + 1, start)
            | None => (1, now)
            end) as [a start].
  destruct (RateLimiter.maxAttempts config <=? a); repeat split.
Qed.

(** The cache after an attempt that brings the counter to [k], in a window
    that started at [start]. *)
Lemma recordAttempt_cache now identifier ip config w k start :
  match RateLimiter.state now (cache w) identifier ip with
  | Some (a, start0) =>
      if RateLimiter.windowMs config <? now - start0
      then (1, now) else (a + 1, start0)
  | None => (1, now)
  end = (k, start) ->
  RateLimiter.counting config
    (cache (after (RateLimiter.recordAttempt now identifier ip config) w))
    identifier ip k start now /\
  forall key, ~ RateLimiter.limiter_key identifier ip key ->
    cache (after (RateLimiter.recordAttempt now identifier ip config) w) !! key
    = cache w !! key.
Proof.
  intros Hk. unfold after, RateLimiter.recordAttempt. rewrite Hk.
  unfold RateLimiter.counting, RateLimiter.ttl_after.
  destruct (RateLimiter.maxAttempts config <=? k); cbn; repeat split.
  - rewrite !lookup_insert_ne by auto with keys. apply lookup_insert_eq.
  - rewrite lookup_insert_ne by auto with keys. apply lookup_insert_eq.
  - intros key Hkey. rewrite !lookup_insert_ne; [reflexivity| | |];
      intros Heq; subst key; apply Hkey; unfold RateLimiter.limiter_key; auto.
  - rewrite lookup_insert_ne by auto with keys. apply lookup_insert_eq.
  - apply lookup_insert_eq.
  - intros key Hkey. rewrite !lookup_insert_ne; [reflexivity| |];
      intros Heq; subst key; apply Hkey; unfold RateLimiter.limiter_key; auto.
Qed.

Lemma recordAttempt_frame now identifier ip config w key :
  ~ RateLimiter.limiter_key identifier ip key ->
  cache (after (RateLimiter.recordAttempt now identifier ip config) w) !! key
  = cache w !! key.
Proof.
  destruct (match RateLimiter.state now (cache w) identifier ip with
            | Some (a, start0) =>
                if RateLimiter.windowMs config <? now - start0
                then (1, now) else (a + 1, start0)
            | None => (1, now)
            end) as [k start] eqn:Hk.
  now apply (recordAttempt_cache _ _ _ _ _ _ _ Hk).
Qed.

(** The first attempt of a window. *)
Lemma recordAttempt_fresh now identifier ip config w :
  RateLimiter.fresh now config (cache w) identifier ip ->
  RateLimiter.counting config
    (cache (after (RateLimiter.recordAttempt now identifier ip config) w))
    identifier ip 1 now now.
Proof.
  intros Hfresh. apply recordAttempt_cache.
  unfold RateLimiter.fresh in Hfresh.
  destruct (RateLimiter.state now (cache w) identifier ip) as [[a start]|];
    [|reflexivity].
  apply Z.ltb_lt in Hfresh. now rewrite Hfresh.
Qed.

(** What a read finds while a window is counting. *)
Lemma counting_state config c identifier ip k start last now :
  RateLimiter.counting config c identifier ip k start last ->
  now < last + RateLimiter.ttl_after config k ->
  RateLimiter.state now c identifier ip = Some (k, start).
Proof.
  intros [Ha Hw] Hlive. apply Z.ltb_lt in Hlive.
  unfold RateLimiter.state, CacheService.live. now rewrite Ha, Hw, Hlive.
Qed.

(** A further attempt in a running window. *)
Lemma recordAttempt_next now identifier ip config w k start last :
  RateLimiter.counting config (cache w) identifier ip k start last ->
  now < last + RateLimiter.ttl_after config k ->
  now - start <= RateLimiter.windowMs config ->
  RateLimiter.counting config
    (cache (after (RateLimiter.recordAttempt now identifier ip config) w))
    identifier ip (k + 1) start now.
Proof.
  intros Hc Hlive Hwin. apply recordAttempt_cache.
  rewrite (counting_state _ _ _ _ _ _ _ _ Hc Hlive).
  apply Z.ltb_ge in Hwin. now rewrite Hwin.
Qed.

(** ** LoginProtectionService *)

#[global] Arguments LoginProtectionService.EXTENDED_BLOCK_TIME_MS : simpl never.
#[global] Arguments LoginProtectionService.RATE_LIMIT_CONFIG : simpl never.
#[global] Arguments LoginProtectionService.reaches_max : simpl never.
#[global] Arguments CacheService.live : simpl never.

(** A failed attempt is the limiter's record of it, followed by the account
    block when the counter read back has reached the maximum. *)
Lemma recordLoginAttempt_failure_run now identifier ip userName userEmail w :
  LoginProtectionService.recordLoginAttempt now
    (LoginProtectionService.mkLoginAttemptParams
       identifier ip false userName userEmail) w
  = if LoginProtectionService.reaches_max
         (default (VNum 0)
            (CacheService.live now
               (cache (after (RateLimiter.recordAttempt now ("login:" +:+ identifier) ip
                                LoginProtectionService.RATE_LIMIT_CONFIG) w))
               (RateLimiter.attemptsKey ("login:" +:+ identifier) ip)))
    then
      match userEmail, userName with
      | Some e, Some n =>
          if Str.nonempty e && Str.nonempty n
          then LoginProtectionService.sendAccountBlockedEmail now n e ip
          else ret tt
      | _, _ => ret tt
      end (after (LoginProtectionService.blockAccount now identifier)
             (after (RateLimiter.recordAttempt now ("login:" +:+ identifier) ip
                       LoginProtectionService.RATE_LIMIT_CONFIG) w))
    else (Ok tt,
          after (RateLimiter.recordAttempt now ("login:" +:+ identifier) ip
                   LoginProtectionService.RATE_LIMIT_CONFIG) w).
Proof.
  unfold LoginProtectionService.recordLoginAttempt.
  cbn [LoginProtectionService.success LoginProtectionService.identifier
       LoginProtectionService.ip LoginProtectionService.userName
       LoginProtectionService.userEmail].
  unfold bind at 1. rewrite recordAttempt_run.
  unfold LoginProtectionService.getFailedAttempts.
  unfold bind at 1. unfold bind at 1. unfold CacheService.get, ret at 1.
  rewrite failed_attempts_key.
  destruct (LoginProtectionService.reaches_max _); reflexivity.
Qed.

Lemma recordLoginAttempt_failure now identifier ip userName userEmail w :
  outcome (LoginProtectionService.recordLoginAttempt now
             (LoginProtectionService.mkLoginAttemptParams
                identifier ip false userName userEmail)) w = Ok tt /\
  users (after (LoginProtectionService.recordLoginAttempt now
                  (LoginProtectionService.mkLoginAttemptParams
                     identifier ip false userName userEmail)) w) = users w /\
  cache (after (LoginProtectionService.recordLoginAttempt now
                  (LoginProtectionService.mkLoginAttemptParams
                     identifier ip false userName userEmail)) w)
  = if LoginProtectionService.reaches_max
         (default (VNum 0)
            (CacheService.live now
               (cache (after (RateLimiter.recordAttempt now ("login:" +:+ identifier) ip
                                LoginProtectionService.RATE_LIMIT_CONFIG) w))
               (RateLimiter.attemptsKey ("login:" +:+ identifier) ip)))
    then <[LoginProtectionService.getAccountBlockKey identifier
           := (VNum (now + LoginProtectionService.EXTENDED_BLOCK_TIME_MS),
               now + LoginProtectionService.EXTENDED_BLOCK_TIME_MS)]>
           (cache (after (RateLimiter.recordAttempt now ("login:" +:+ identifier) ip
                            LoginProtectionService.RATE_LIMIT_CONFIG) w))
    else cache (after (RateLimiter.recordAttempt now ("login:" +:+ identifier) ip
                         LoginProtectionService.RATE_LIMIT_CONFIG) w).
Proof.
  pose proof (recordAttempt_rest now ("login:" +:+ identifier) ip
                LoginProtectionService.RATE_LIMIT_CONFIG w) as (Hu & _ & _).
  pose proof (recordLoginAttempt_failure_run now identifier ip userName userEmail w)
    as Hrun.
  unfold outcome, after in *. rewrite Hrun. clear Hrun.
  destruct (LoginProtectionService.reaches_max _); [|now repeat split].
  destruct userEmail as [e|], userName as [n|];
    try destruct (Str.nonempty e && Str.nonempty n); now repeat split.
Qed.

(** The run of a check, from what the limiter answers. *)
Lemma checkLoginAttempt_run now identifier ip w r :
  outcome (RateLimiter.check now ("login:" +:+ identifier) ip
             LoginProtectionService.RATE_LIMIT_CONFIG) w = Ok r ->
  LoginProtectionService.checkLoginAttempt now identifier ip w
  = (Ok match CacheService.live now
                (cache (after (RateLimiter.check now ("login:" +:+ identifier) ip
                                 LoginProtectionService.RATE_LIMIT_CONFIG) w))
                (LoginProtectionService.getAccountBlockKey identifier) with
        | Some (VNum b) =>
            if now <? b
            then LoginProtectionService.mkLoginProtectionResult
                   false 0 (if truthy (VNum b) then Some b else None) true
            else LoginProtectionService.mkLoginProtectionResult
                   (RateLimiter.allowed r) (RateLimiter.attemptsRemaining r)
                   (RateLimiter.blockedUntil r) false
        | _ => LoginProtectionService.mkLoginProtectionResult
                 (RateLimiter.allowed r) (RateLimiter.attemptsRemaining r)
                 (RateLimiter.blockedUntil r) false
        end,
     after (RateLimiter.check now ("login:" +:+ identifier) ip
              LoginProtectionService.RATE_LIMIT_CONFIG) w).
Proof.
  intros Hr.
  unfold LoginProtectionService.checkLoginAttempt.
  unfold bind at 1. rewrite run_eq, Hr.
  unfold LoginProtectionService.isAccountBlocked, bind, CacheService.get, ret.
  cbv beta iota.
  destruct (CacheService.live now _ _) as [[| b | |]|] eqn:Hlive;
    rewrite ?Hlive; try reflexivity.
  destruct (now <? b); rewrite ?Hlive; reflexivity.
Qed.

(** While the account-block entry is live and ahead of the clock, a check
    answers blocked, with the stored instant; the world it leaves is the one
    the limiter's own check leaves. *)
Lemma checkLoginAttempt_when_blocked now identifier ip w b :
  b <> 0 ->
  CacheService.live now (cache w)
    (LoginProtectionService.getAccountBlockKey identifier) = Some (VNum b) ->
  now < b ->
  outcome (LoginProtectionService.checkLoginAttempt now identifier ip) w
  = Ok (LoginProtectionService.mkLoginProtectionResult false 0 (Some b) true) /\
  after (LoginProtectionService.checkLoginAttempt now identifier ip) w
  = after (RateLimiter.check now ("login:" +:+ identifier) ip
             LoginProtectionService.RATE_LIMIT_CONFIG) w.
Proof.
  intros Hb Hlive Hlt.
  destruct (check_outcome now ("login:" +:+ identifier) ip
              LoginProtectionService.RATE_LIMIT_CONFIG w) as [r Hr].
  assert (Hlive' :
            CacheService.live now
              (cache (after (RateLimiter.check now ("login:" +:+ identifier) ip
                               LoginProtectionService.RATE_LIMIT_CONFIG) w))
              (LoginProtectionService.getAccountBlockKey identifier)
            = Some (VNum b)).
  { rewrite <- Hlive. apply live_lookup, check_frame, account_key_not_limiter. }
  unfold outcome at 1, after at 1.
  rewrite (checkLoginAttempt_run _ _ _ _ _ Hr), Hlive'.
  apply Z.ltb_lt in Hlt. rewrite Hlt.
  apply Z.eqb_neq in Hb. cbn. rewrite Hb. now split.
Qed.

Lemma ttl_below k :
  k < LoginProtectionService.MAX_ATTEMPTS ->
  RateLimiter.ttl_after LoginProtectionService.RATE_LIMIT_CONFIG k
  = LoginProtectionService.WINDOW_MS.
Proof.
  intros Hk. unfold RateLimiter.ttl_after, LoginProtectionService.RATE_LIMIT_CONFIG.
  cbn. apply Z.leb_gt in Hk. now rewrite Hk.
Qed.

Lemma ttl_reached k :
  LoginProtectionService.MAX_ATTEMPTS <= k ->
  RateLimiter.ttl_after LoginProtectionService.RATE_LIMIT_CONFIG k
  = LoginProtectionService.BLOCK_TIME_MS.
Proof.
  intros Hk. unfold RateLimiter.ttl_after, LoginProtectionService.RATE_LIMIT_CONFIG.
  cbn. apply Z.leb_le in Hk. now rewrite Hk.
Qed.

Lemma ttl_positive k :
  0 < RateLimiter.ttl_after LoginProtectionService.RATE_LIMIT_CONFIG k.
Proof.
  destruct (Z.lt_ge_cases k LoginProtectionService.MAX_ATTEMPTS) as [Hk | Hk].
  - rewrite (ttl_below _ Hk). reflexivity.
  - rewrite (ttl_reached _ Hk). reflexivity.
Qed.

Lemma counting_insert_account config c identifier ip k start last a x :
  RateLimiter.counting config c identifier ip k start last ->
  RateLimiter.counting config
    (<[LoginProtectionService.getAccountBlockKey a := x]> c)
    identifier ip k start last.
Proof.
  intros [Ha Hw]. unfold RateLimiter.counting.
  rewrite !lookup_insert_ne by auto with keys. now split.
Qed.

(** A failed login whose attempt brings the counter to [k]: below the
    maximum nothing else is written; from the maximum on, the account block
    is set, two hours ahead. *)
Lemma failed_login_step now identifier ip userName userEmail w k start :
  RateLimiter.counting LoginProtectionService.RATE_LIMIT_CONFIG
    (cache (after (RateLimiter.recordAttempt now ("login:" +:+ identifier) ip
                     LoginProtectionService.RATE_LIMIT_CONFIG) w))
    ("login:" +:+ identifier) ip k start now ->
  RateLimiter.counting LoginProtectionService.RATE_LIMIT_CONFIG
    (cache (after (LoginProtectionService.recordLoginAttempt now
                     (LoginProtectionService.mkLoginAttemptParams
                        identifier ip false userName userEmail)) w))
    ("login:" +:+ identifier) ip k start now /\
  (k < LoginProtectionService.MAX_ATTEMPTS ->
   forall a,
     cache (after (LoginProtectionService.recordLoginAttempt now
                     (LoginProtectionService.mkLoginAttemptParams
                        identifier ip false userName userEmail)) w)
       !! LoginProtectionService.getAccountBlockKey a
     = cache w !! LoginProtectionService.getAccountBlockKey a) /\
  (LoginProtectionService.MAX_ATTEMPTS <= k ->
   cache (after (LoginProtectionService.recordLoginAttempt now
                   (LoginProtectionService.mkLoginAttemptParams
                      identifier ip false userName userEmail)) w)
     !! LoginProtectionService.getAccountBlockKey identifier
   = Some (VNum (now + LoginProtectionService.EXTENDED_BLOCK_TIME_MS),
           now + LoginProtectionService.EXTENDED_BLOCK_TIME_MS)).
Proof.
  intros Hc.
  destruct (recordLoginAttempt_failure now identifier ip userName userEmail w)
    as (_ & _ & Hcache).
  rewrite Hcache. clear Hcache.
  assert (Hread :
            CacheService.live now
              (cache (after (RateLimiter.recordAttempt now ("login:" +:+ identifier) ip
                               LoginProtectionService.RATE_LIMIT_CONFIG) w))
              (RateLimiter.attemptsKey ("login:" +:+ identifier) ip)
            = Some (VNum k)).
  { destruct Hc as [Ha _]. unfold CacheService.live. rewrite Ha.
    pose proof (ttl_positive k) as Hpos.
    assert (Hlt : (now <? now + RateLimiter.ttl_after
                                  LoginProtectionService.RATE_LIMIT_CONFIG k) = true)
      by (apply Z.ltb_lt; lia).
    now rewrite Hlt. }
  rewrite Hread. change (default (VNum 0) (Some (VNum k))) with (VNum k).
  unfold LoginProtectionService.reaches_max.
  destruct (LoginProtectionService.MAX_ATTEMPTS <=? k) eqn:Hmax.
  - apply Z.leb_le in Hmax. split; [now apply counting_insert_account|].
    split; [lia|]. intros _. apply lookup_insert_eq.
  - apply Z.leb_gt in Hmax. split; [exact Hc|]. split; [|lia].
    intros _ a. apply recordAttempt_frame, account_key_not_limiter.
Qed.

Lemma failed_login_first now identifier ip userName userEmail w :
  RateLimiter.fresh now LoginProtectionService.RATE_LIMIT_CONFIG (cache w)
    ("login:" +:+ identifier) ip ->
  RateLimiter.counting LoginProtectionService.RATE_LIMIT_CONFIG
    (cache (after (LoginProtectionService.recordLoginAttempt now
                     (LoginProtectionService.mkLoginAttemptParams
                        identifier ip false userName userEmail)) w))
    ("login:" +:+ identifier) ip 1 now now /\
  forall a,
    cache (after (LoginProtectionService.recordLoginAttempt now
                    (LoginProtectionService.mkLoginAttemptParams
                       identifier ip false userName userEmail)) w)
      !! LoginProtectionService.getAccountBlockKey a
    = cache w !! LoginProtectionService.getAccountBlockKey a.
Proof.
  intros Hfresh. apply recordAttempt_fresh in Hfresh.
  apply (failed_login_step now identifier ip userName userEmail) in Hfresh
    as (Hc & Hframe & _).
  split; [exact Hc|]. now apply Hframe.
Qed.

Lemma failed_login_next now identifier ip userName userEmail w k start last :
  RateLimiter.counting LoginProtectionService.RATE_LIMIT_CONFIG (cache w)
    ("login:" +:+ identifier) ip k start last ->
  start <= last -> last <= now -> now < start + LoginProtectionService.WINDOW_MS ->
  RateLimiter.counting LoginProtectionService.RATE_LIMIT_CONFIG
    (cache (after (LoginProtectionService.recordLoginAttempt now
                     (LoginProtectionService.mkLoginAttemptParams
                        identifier ip false userName userEmail)) w))
    ("login:" +:+ identifier) ip (k + 1) start now /\
  (k + 1 < LoginProtectionService.MAX_ATTEMPTS ->
   forall a,
     cache (after (LoginProtectionService.recordLoginAttempt now
                     (LoginProtectionService.mkLoginAttemptParams
                        identifier ip false userName userEmail)) w)
       !! LoginProtectionService.getAccountBlockKey a
     = cache w !! LoginProtectionService.getAccountBlockKey a) /\
  (LoginProtectionService.MAX_ATTEMPTS <= k + 1 ->
   cache (after (LoginProtectionService.recordLoginAttempt now
                   (LoginProtectionService.mkLoginAttemptParams
                      identifier ip false userName userEmail)) w)
     !! LoginProtectionService.getAccountBlockKey identifier
   = Some (VNum (now + LoginProtectionService.EXTENDED_BLOCK_TIME_MS),
           now + LoginProtectionService.EXTENDED_BLOCK_TIME_MS)).
Proof.
  intros Hc Hsl Hln Hwin.
  apply failed_login_step, (recordAttempt_next _ _ _ _ _ _ _ _ Hc).
  - destruct (Z.lt_ge_cases k LoginProtectionService.MAX_ATTEMPTS) as [Hk | Hk].
    + rewrite (ttl_below _ Hk). lia.
    + rewrite (ttl_reached _ Hk).
      unfold LoginProtectionService.WINDOW_MS in Hwin.
      unfold LoginProtectionService.BLOCK_TIME_MS. lia.
  - change (RateLimiter.windowMs LoginProtectionService.RATE_LIMIT_CONFIG)
      with LoginProtectionService.WINDOW_MS. lia.
Qed.

(** A check leaves the account-block entries as they are. *)
Lemma checkLoginAttempt_keeps_account_block now identifier ip w a :
  cache (after (LoginProtectionService.checkLoginAttempt now identifier ip) w)
    !! LoginProtectionService.getAccountBlockKey a
  = cache w !! LoginProtectionService.getAccountBlockKey a.
Proof.
  destruct (check_outcome now ("login:" +:+ identifier) ip
              LoginProtectionService.RATE_LIMIT_CONFIG w) as [r Hr].
  unfold after at 1. rewrite (checkLoginAttempt_run _ _ _ _ _ Hr).
  apply check_frame, account_key_not_limiter.
Qed.

(** ** C6 *)

(** C6. Five failed recordLoginAttempt calls for one identifier and one
    address, made in order within the 15-minute window and starting from a
    state in which no window is running, set the account block of the
    identifier to the instant of the fifth call plus the extended duration,
    which is two hours, four times the 30-minute short block.  From then on,
    and as long as that block entry stands and its instant is not reached,
    every checkLoginAttempt for the identifier answers allowed=false and
    isBlocked=true with that blockedUntil, from whatever address. *)
Theorem five_failures_block_the_account
    (identifier ip : string) (userName userEmail : option string)
    (t1 t2 t3 t4 t5 : Z) (w0 : world) :
  RateLimiter.fresh t1 LoginProtectionService.RATE_LIMIT_CONFIG (cache w0)
    ("login:" +:+ identifier) ip ->
  0 <= t1 -> t1 <= t2 -> t2 <= t3 -> t3 <= t4 -> t4 <= t5 ->
  t5 < t1 + LoginProtectionService.WINDOW_MS ->
  cache (LoginProtectionService.failed_logins identifier ip userName userEmail
           [t1; t2; t3; t4; t5] w0)
    !! LoginProtectionService.getAccountBlockKey identifier
  = Some (VNum (t5 + LoginProtectionService.EXTENDED_BLOCK_TIME_MS),
          t5 + LoginProtectionService.EXTENDED_BLOCK_TIME_MS) /\
  LoginProtectionService.EXTENDED_BLOCK_TIME_MS = hours 2 /\
  LoginProtectionService.EXTENDED_BLOCK_TIME_MS
  = 4 * LoginProtectionService.BLOCK_TIME_MS /\
  LoginProtectionService.BLOCK_TIME_MS = minutes 30 /\
  forall (w' : world) (ip' : string) (t : Z),
    cache w' !! LoginProtectionService.getAccountBlockKey identifier
    = cache (LoginProtectionService.failed_logins identifier ip userName userEmail
               [t1; t2; t3; t4; t5] w0)
        !! LoginProtectionService.getAccountBlockKey identifier ->
    t < t5 + LoginProtectionService.EXTENDED_BLOCK_TIME_MS ->
    outcome (LoginProtectionService.checkLoginAttempt t identifier ip') w'
    = Ok (LoginProtectionService.mkLoginProtectionResult
            false 0 (Some (t5 + LoginProtectionService.EXTENDED_BLOCK_TIME_MS)) true).
Proof.
  intros Hfresh H0 H12 H23 H34 H45 Hwin.
  assert (Hblock :
            cache (LoginProtectionService.failed_logins identifier ip userName
                     userEmail [t1; t2; t3; t4; t5] w0)
              !! LoginProtectionService.getAccountBlockKey identifier
            = Some (VNum (t5 + LoginProtectionService.EXTENDED_BLOCK_TIME_MS),
                    t5 + LoginProtectionService.EXTENDED_BLOCK_TIME_MS)).
  { unfold LoginProtectionService.failed_logins. cbn [fold_left].
    destruct (failed_login_first t1 identifier ip userName userEmail w0 Hfresh)
      as [C1 _].
    apply (failed_login_next t2 identifier ip userName userEmail) in C1
      as (C2 & _ & _); [|lia..].
    apply (failed_login_next t3 identifier ip userName userEmail) in C2
      as (C3 & _ & _); [|lia..].
    apply (failed_login_next t4 identifier ip userName userEmail) in C3
      as (C4 & _ & _); [|lia..].
    apply (failed_login_next t5 identifier ip userName userEmail) in C4
      as (_ & _ & Hset); [|lia..].
    apply Hset. reflexivity. }
  split; [exact Hblock|]. repeat split.
  intros w' ip' t Hsame Ht.
  apply checkLoginAttempt_when_blocked.
  - unfold LoginProtectionService.EXTENDED_BLOCK_TIME_MS. lia.
  - unfold CacheService.live. rewrite Hsame, Hblock.
    apply Z.ltb_lt in Ht. now rewrite Ht.
  - exact Ht.
Qed.

Lemma five_failures_block_the_account_witness :
  outcome (LoginProtectionService.checkLoginAttempt 60 "alice" "9.9.9.9")
    (LoginProtectionService.failed_logins "alice" "1.2.3.4" None None
       [10; 20; 30; 40; 50] Sample.empty)
  = Ok (LoginProtectionService.mkLoginProtectionResult false 0 (Some 7200050) true).
Proof.
  apply (five_failures_block_the_account "alice" "1.2.3.4" None None
           10 20 30 40 50 Sample.empty);
    try (vm_compute; reflexivity); try (vm_compute; exact I);
    try (vm_compute; discriminate).
Defined.

(** ** C8 *)

(** C8, as the code has it.  Whenever an account-block entry of the
    identifier is live and its instant is ahead of the clock, checkLoginAttempt
    returns allowed=false, attemptsRemaining=0, isBlocked=true and the stored
    blockedUntil, whatever the limiter holds and answers for the identifier
    and address.  The limiter is consulted all the same, and first: the world
    the call leaves is the one RateLimiter.check leaves. *)
Theorem active_account_block_answers_blocked
    (now : Z) (identifier ip : string) (w : world) (b : Z) :
  0 <= now ->
  CacheService.live now (cache w)
    (LoginProtectionService.getAccountBlockKey identifier) = Some (VNum b) ->
  now < b ->
  outcome (LoginProtectionService.checkLoginAttempt now identifier ip) w
  = Ok (LoginProtectionService.mkLoginProtectionResult false 0 (Some b) true) /\
  after (LoginProtectionService.checkLoginAttempt now identifier ip) w
  = after (RateLimiter.check now ("login:" +:+ identifier) ip
             LoginProtectionService.RATE_LIMIT_CONFIG) w.
Proof.
  intros Hnow Hlive Hlt. apply checkLoginAttempt_when_blocked; [lia | exact Hlive | exact Hlt].
Qed.

Lemma active_account_block_answers_blocked_witness :
  outcome (LoginProtectionService.checkLoginAttempt 900010 "alice" "1.1.1.1")
    Sample.blocked_alice
  = Ok (LoginProtectionService.mkLoginProtectionResult false 0 (Some 7200500) true).
Proof.
  apply (active_account_block_answers_blocked 900010 "alice" "1.1.1.1"
           Sample.blocked_alice 7200500).
  - vm_compute. discriminate.
  - vm_compute. reflexivity.
  - reflexivity.
Defined.

(** The account of alice is blocked, and the check still runs the limiter:
    the record of the first address, whose window has run out, is there
    before the call and gone after it. *)
Lemma checkLoginAttempt_consults_the_limiter :
  outcome (LoginProtectionService.isAccountBlocked 900010 "alice")
    Sample.blocked_alice = Ok true /\
  cache Sample.blocked_alice !! RateLimiter.attemptsKey "login:alice" "1.1.1.1"
  = Some (VNum 2, 900050) /\
  cache (after (LoginProtectionService.checkLoginAttempt 900010 "alice" "1.1.1.1")
           Sample.blocked_alice)
    !! RateLimiter.attemptsKey "login:alice" "1.1.1.1"
  = None /\
  after (LoginProtectionService.checkLoginAttempt 900010 "alice" "1.1.1.1")
    Sample.blocked_alice
  <> Sample.blocked_alice.
Proof.
  assert (Hbefore :
            cache Sample.blocked_alice
              !! RateLimiter.attemptsKey "login:alice" "1.1.1.1"
            = Some (VNum 2, 900050)) by (vm_compute; reflexivity).
  assert (Hafter :
            cache (after (LoginProtectionService.checkLoginAttempt
                            900010 "alice" "1.1.1.1") Sample.blocked_alice)
              !! RateLimiter.attemptsKey "login:alice" "1.1.1.1"
            = None) by (vm_compute; reflexivity).
  split; [vm_compute; reflexivity|].
  split; [exact Hbefore|]. split; [exact Hafter|].
  intros Heq.
  pose proof (eq_trans (eq_sym Hafter)
                (eq_trans
                   (f_equal (fun w => cache w
                                      !! RateLimiter.attemptsKey "login:alice" "1.1.1.1")
                            Heq)
                   Hbefore)) as Habsurd.
  discriminate Habsurd.
Qed.

(** ** Token requests under throttling *)

#[global] Arguments Str.or_else : simpl never.

Lemma verify_key_not_limiter e identifier ip :
  ~ RateLimiter.limiter_key identifier ip (EmailVerificationService.getVerifyKey e).
Proof.
  unfold EmailVerificationService.getVerifyKey.
  intros [Hk | [Hk | Hk]]; revert Hk; key_neq.
Qed.

Lemma reset_key_not_limiter e identifier ip :
  ~ RateLimiter.limiter_key identifier ip (PasswordService.getResetKey e).
Proof.
  unfold PasswordService.getResetKey.
  intros [Hk | [Hk | Hk]]; revert Hk; key_neq.
Qed.

Section Throttling.
Context `{Externals}.

(** A throttled verification request is the limiter's check and nothing
    more. *)
Lemma requestEmailVerification_throttled now rnd user ip w r :
  outcome (RateLimiter.check now
             ("verify:" +:+ Str.normalize (Str.or_else (email user) (username user)))
             (default "unknown" ip) EmailVerificationService.RATE_LIMIT_CONFIG) w
  = Ok r ->
  RateLimiter.allowed r = false ->
  EmailVerificationService.requestEmailVerification now rnd user ip w
  = (Ok false,
     after (RateLimiter.check now
              ("verify:" +:+ Str.normalize (Str.or_else (email user) (username user)))
              (default "unknown" ip) EmailVerificationService.RATE_LIMIT_CONFIG) w).
Proof.
  intros Hr Hdenied.
  unfold EmailVerificationService.requestEmailVerification.
  unfold bind at 1. rewrite run_eq, Hr, Hdenied. reflexivity.
Qed.

(** A throttled reset request is the lookup of the user, the limiter's check
    and the notification to the user. *)
Lemma requestPasswordReset_throttled now rnd email ip w u r :
  find (Db.email_is (Str.normalize email)) (users w) = Some u ->
  inactive_or_deleted u = false ->
  outcome (RateLimiter.check now ("reset:" +:+ Str.normalize email)
             (default "unknown" ip) PasswordService.RATE_LIMIT_CONFIG) w = Ok r ->
  RateLimiter.allowed r = false ->
  PasswordService.requestPasswordReset now rnd email ip w
  = (Ok false,
     after (PasswordService.sendBlockedNotification now u (default "unknown" ip))
       (after (RateLimiter.check now ("reset:" +:+ Str.normalize email)
                 (default "unknown" ip) PasswordService.RATE_LIMIT_CONFIG) w)).
Proof.
  intros Hu Hactive Hr Hdenied.
  unfold PasswordService.requestPasswordReset.
  unfold bind at 1. unfold Db.firstOrFail, Db.first, bind at 1. rewrite Hu.
  unfold ret at 1. rewrite Hactive.
  unfold bind at 1. rewrite run_eq, Hr, Hdenied. reflexivity.
Qed.

(** C9, as the code has it.  When the rate-limit check does not allow the
    request, a token request returns false and issues no token: the call
    does not depend on the entropy at hand, and the entry that holds the
    digest of the pending token is left as it was.  The verification request
    sends nothing.  The password-reset request (made for an existing, active
    account) sends one mail, the notice of excessive attempts, which carries
    no token. *)
Theorem throttled_request_issues_no_token
    (now : Z) (rnd : list Z) (ip : option string) (w : world) :
  (forall (user : User) (r : RateLimiter.CheckResult),
     outcome (RateLimiter.check now
                ("verify:" +:+ Str.normalize (Str.or_else (email user) (username user)))
                (default "unknown" ip) EmailVerificationService.RATE_LIMIT_CONFIG) w
     = Ok r ->
     RateLimiter.allowed r = false ->
     outcome (EmailVerificationService.requestEmailVerification now rnd user ip) w
     = Ok false /\
     (forall rnd',
        EmailVerificationService.requestEmailVerification now rnd' user ip w
        = EmailVerificationService.requestEmailVerification now rnd user ip w) /\
     (forall e,
        cache (after (EmailVerificationService.requestEmailVerification
                        now rnd user ip) w)
          !! EmailVerificationService.getVerifyKey e
        = cache w !! EmailVerificationService.getVerifyKey e) /\
     outbox (after (EmailVerificationService.requestEmailVerification
                      now rnd user ip) w)
     = outbox w) /\
  (forall (email : string) (u : User) (r : RateLimiter.CheckResult),
     find (Db.email_is (Str.normalize email)) (users w) = Some u ->
     inactive_or_deleted u = false ->
     outcome (RateLimiter.check now ("reset:" +:+ Str.normalize email)
                (default "unknown" ip) PasswordService.RATE_LIMIT_CONFIG) w = Ok r ->
     RateLimiter.allowed r = false ->
     outcome (PasswordService.requestPasswordReset now rnd email ip) w = Ok false /\
     (forall rnd',
        PasswordService.requestPasswordReset now rnd' email ip w
        = PasswordService.requestPasswordReset now rnd email ip w) /\
     (forall e,
        cache (after (PasswordService.requestPasswordReset now rnd email ip) w)
          !! PasswordService.getResetKey e
        = cache w !! PasswordService.getResetKey e) /\
     outbox (after (PasswordService.requestPasswordReset now rnd email ip) w)
     = (outbox w ++
        [mkMail (Str.or_else (user_email u) (username u))
                "Tentativas excessivas de recuperação de senha" true
                (ResetBlockedMail (user_name u) (default "unknown" ip) now)])%list).
Proof.
  split.
  - intros user r Hr Hdenied.
    pose proof (requestEmailVerification_throttled now rnd user ip w r Hr Hdenied)
      as Hrun.
    assert (Hafter :
              after (EmailVerificationService.requestEmailVerification
                       now rnd user ip) w
              = after (RateLimiter.check now
                         ("verify:" +:+ Str.normalize
                                          (Str.or_else (email user) (username user)))
                         (default "unknown" ip)
                         EmailVerificationService.RATE_LIMIT_CONFIG) w)
      by (unfold after at 1; now rewrite Hrun).
    split; [unfold outcome; now rewrite Hrun|]. split.
    { intros rnd'.
      now rewrite (requestEmailVerification_throttled now rnd' user ip w r Hr Hdenied). }
    rewrite Hafter. split.
    { intros e. apply check_frame, verify_key_not_limiter. }
    apply check_rest.
  - intros email u r Hu Hactive Hr Hdenied.
    pose proof (requestPasswordReset_throttled now rnd email ip w u r
                  Hu Hactive Hr Hdenied) as Hrun.
    assert (Hafter :
              after (PasswordService.requestPasswordReset now rnd email ip) w
              = after (PasswordService.sendBlockedNotification
                         now u (default "unknown" ip))
                  (after (RateLimiter.check now ("reset:" +:+ Str.normalize email)
                            (default "unknown" ip)
                            PasswordService.RATE_LIMIT_CONFIG) w))
      by (unfold after at 1; now rewrite Hrun).
    split; [unfold outcome; now rewrite Hrun|]. split.
    { intros rnd'.
      now rewrite (requestPasswordReset_throttled now rnd' email ip w u r
                     Hu Hactive Hr Hdenied). }
    rewrite Hafter. split.
    { intros e. cbn. apply check_frame, reset_key_not_limiter. }
    cbn. f_equal. apply check_rest.
Qed.

End Throttling.

Lemma throttled_request_issues_no_token_witness :
  outcome (@EmailVerificationService.requestEmailVerification Sample.externals
             10 Sample.entropy Sample.alice None)
    (Sample.verification_requests 5 Sample.empty)
  = Ok false /\
  outcome (@PasswordService.requestPasswordReset Sample.externals
             10 Sample.entropy "alice@x.com" None)
    (Sample.reset_requests 5 Sample.empty)
  = Ok false.
Proof.
  split.
  - apply (proj1 (@throttled_request_issues_no_token Sample.externals
                    10 Sample.entropy None
                    (Sample.verification_requests 5 Sample.empty))
             Sample.alice
             (RateLimiter.mkCheckResult false 0 (Some 1800004)));
      vm_compute; reflexivity.
  - apply (proj2 (@throttled_request_issues_no_token Sample.externals
                    10 Sample.entropy None
                    (Sample.reset_requests 5 Sample.empty))
             "alice@x.com" Sample.alice
             (RateLimiter.mkCheckResult false 0 (Some 1800004)));
      vm_compute; reflexivity.
Defined.

(** A throttled password-reset request does send a notification. *)
Lemma throttled_reset_request_sends_a_mail :
  outcome (RateLimiter.check 10 "reset:alice@x.com" "unknown"
             (@PasswordService.RATE_LIMIT_CONFIG Sample.externals))
    (Sample.reset_requests 5 Sample.empty)
  = Ok (RateLimiter.mkCheckResult false 0 (Some 1800004)) /\
  outcome (@PasswordService.requestPasswordReset Sample.externals
             10 Sample.entropy "alice@x.com" None)
    (Sample.reset_requests 5 Sample.empty)
  = Ok false /\
  outbox (after (@PasswordService.requestPasswordReset Sample.externals
                   10 Sample.entropy "alice@x.com" None)
            (Sample.reset_requests 5 Sample.empty))
  = (outbox (Sample.reset_requests 5 Sample.empty) ++
     [mkMail "alice@x.com" "Tentativas excessivas de recuperação de senha" true
             (ResetBlockedMail "Alice" "unknown" 10)])%list /\
  outbox (after (@PasswordService.requestPasswordReset Sample.externals
                   10 Sample.entropy "alice@x.com" None)
            (Sample.reset_requests 5 Sample.empty))
  <> outbox (Sample.reset_requests 5 Sample.empty).
Proof.
  split; [vm_compute; reflexivity|].
  split; [vm_compute; reflexivity|].
  split; [vm_compute; reflexivity|].
  vm_compute. discriminate.
Qed.

(** ** What the limiter counts *)

Lemma counted_agree now config (c c' : gmap string (value * Z)) identifier ip :
  c' !! RateLimiter.attemptsKey identifier ip = c !! RateLimiter.attemptsKey identifier ip ->
  c' !! RateLimiter.windowKey identifier ip = c !! RateLimiter.windowKey identifier ip ->
  RateLimiter.counted now config c' identifier ip
  = RateLimiter.counted now config c identifier ip.
Proof.
  intros Ha Hw. unfold RateLimiter.counted, RateLimiter.state.
  now rewrite (live_lookup _ _ _ _ Ha), (live_lookup _ _ _ _ Hw).
Qed.

Lemma check_counted now identifier ip config w :
  RateLimiter.counted now config
    (cache (after (RateLimiter.check now identifier ip config) w)) identifier ip
  = RateLimiter.counted now config (cache w) identifier ip.
Proof.
  destruct (check_after now identifier ip config w)
    as [-> | (-> & _ & a & start & Hstate & Hexp)]; [reflexivity|].
  unfold RateLimiter.counted at 2. rewrite Hstate.
  apply Z.ltb_lt in Hexp. rewrite Hexp.
  unfold RateLimiter.counted, RateLimiter.state, CacheService.live.
  rewrite (clearAttempts_gone identifier ip w (RateLimiter.attemptsKey identifier ip));
    [reflexivity|]. unfold RateLimiter.limiter_key. auto.
Qed.

(** An attempt adds one to what the limiter counts. *)
Lemma recordAttempt_counted now identifier ip config w :
  0 < RateLimiter.windowMs config -> 0 < RateLimiter.blockTimeMs config ->
  RateLimiter.counted now config
    (cache (after (RateLimiter.recordAttempt now identifier ip config) w))
    identifier ip
  = RateLimiter.counted now config (cache w) identifier ip + 1.
Proof.
  intros Hwin Hblock.
  destruct (match RateLimiter.state now (cache w) identifier ip with
            | Some (a, start0) =>
                if RateLimiter.windowMs config <? now - start0
                then (1, now) else (a + 1, start0)
            | None => (1, now)
            end) as [k start] eqn:Hk.
  destruct (recordAttempt_cache _ _ _ _ _ _ _ Hk) as [Hc _].
  assert (Hstate :
            RateLimiter.state now
              (cache (after (RateLimiter.recordAttempt now identifier ip config) w))
              identifier ip = Some (k, start)).
  { apply (counting_state _ _ _ _ _ _ _ _ Hc).
    unfold RateLimiter.ttl_after.
    destruct (RateLimiter.maxAttempts config <=? k); lia. }
  unfold RateLimiter.counted. rewrite Hstate.
  assert (Hzero : (RateLimiter.windowMs config <? now - now) = false)
    by (apply Z.ltb_ge; lia).
  destruct (RateLimiter.state now (cache w) identifier ip) as [[a start0]|].
  - destruct (RateLimiter.windowMs config <? now - start0) eqn:Hexp;
      injection Hk as <- <-; [now rewrite Hzero | now rewrite Hexp].
  - injection Hk as <- <-. now rewrite Hzero.
Qed.

(** A failed login attempt adds one to what the limiter counts for the login
    scope of the identifier at the address. *)
Lemma recordLoginAttempt_counted now identifier ip userName userEmail w :
  RateLimiter.counted now LoginProtectionService.RATE_LIMIT_CONFIG
    (cache (after (LoginProtectionService.recordLoginAttempt now
                     (LoginProtectionService.mkLoginAttemptParams
                        identifier ip false userName userEmail)) w))
    ("login:" +:+ identifier) ip
  = RateLimiter.counted now LoginProtectionService.RATE_LIMIT_CONFIG (cache w)
      ("login:" +:+ identifier) ip + 1.
Proof.
  rewrite <- (recordAttempt_counted now ("login:" +:+ identifier) ip
                LoginProtectionService.RATE_LIMIT_CONFIG w)
    by reflexivity.
  destruct (recordLoginAttempt_failure now identifier ip userName userEmail w)
    as (_ & _ & ->).
  destruct (LoginProtectionService.reaches_max _); [|reflexivity].
  apply counted_agree; apply lookup_insert_ne; auto with keys.
Qed.

(** ** C4 *)

Section Login.
Context `{Externals}.

(** The run of a login that gets past the protection check and whose user
    row is missing or inactive, or whose credentials are answered by a falsy
    value: the failed attempt is recorded, then the error is thrown. *)
Lemma login_failure_run now params w r :
  Str.nonempty (AuthService.email params) = true ->
  Str.nonempty (AuthService.password params) = true ->
  outcome (LoginProtectionService.checkLoginAttempt now
             (Str.normalize (AuthService.email params))
             (default "unknown" (AuthService.ip params))) w = Ok r ->
  LoginProtectionService.allowed r = true ->
  match find (fun u => Db.email_is (AuthService.email params) u
                       || Db.username_is (AuthService.email params) u) (users w) with
  | None => True
  | Some u =>
      AuthService.isActive_user u = false \/
      verifyCredentials (users w) (AuthService.email params)
        (AuthService.password params) = Ok None
  end ->
  exists userName userEmail,
    AuthService.login now params w
    = (Throw AuthService.invalid_credentials,
       after (LoginProtectionService.recordLoginAttempt now
                (LoginProtectionService.mkLoginAttemptParams
                   (Str.normalize (AuthService.email params))
                   (default "unknown" (AuthService.ip params))
                   false userName userEmail))
         (after (LoginProtectionService.checkLoginAttempt now
                   (Str.normalize (AuthService.email params))
                   (default "unknown" (AuthService.ip params))) w)).
Proof.
  intros Hemail Hpassword Hr Hallowed Hcase.
  assert (Husers :
            users (after (LoginProtectionService.checkLoginAttempt now
                            (Str.normalize (AuthService.email params))
                            (default "unknown" (AuthService.ip params))) w)
            = users w).
  { destruct (check_outcome now
                ("login:" +:+ Str.normalize (AuthService.email params))
                (default "unknown" (AuthService.ip params))
                LoginProtectionService.RATE_LIMIT_CONFIG w) as [r0 Hr0].
    unfold after at 1. rewrite (checkLoginAttempt_run _ _ _ _ _ Hr0).
    apply check_rest. }
  assert (Hrecord : forall userName userEmail w1,
            LoginProtectionService.recordLoginAttempt now
              (LoginProtectionService.mkLoginAttemptParams
                 (Str.normalize (AuthService.email params))
                 (default "unknown" (AuthService.ip params))
                 false userName userEmail) w1
            = (Ok tt,
               after (LoginProtectionService.recordLoginAttempt now
                        (LoginProtectionService.mkLoginAttemptParams
                           (Str.normalize (AuthService.email params))
                           (default "unknown" (AuthService.ip params))
                           false userName userEmail)) w1)).
  { intros userName userEmail w1. rewrite run_eq at 1.
    now destruct (recordLoginAttempt_failure now
                    (Str.normalize (AuthService.email params))
                    (default "unknown" (AuthService.ip params))
                    userName userEmail w1) as [-> _]. }
  unfold AuthService.login. rewrite Hemail, Hpassword. cbn [negb orb].
  unfold bind at 1. rewrite run_eq, Hr, Hallowed. cbn [negb].
  unfold bind at 1. unfold Db.first at 1. rewrite Husers.
  destruct (find _ (users w)) as [u|].
  - destruct Hcase as [Hinactive | Hfalsy].
    + rewrite Hinactive. cbn [negb]. exists None, None.
      unfold bind at 1. now rewrite Hrecord.
    + destruct (AuthService.isActive_user u); cbn [negb].
      * exists (Some (user_name u)), (user_email u).
        unfold bind at 1. rewrite Husers, Hfalsy.
        unfold bind at 1. now rewrite Hrecord.
      * exists None, None. unfold bind at 1. now rewrite Hrecord.
  - exists None, None. unfold bind at 1. now rewrite Hrecord.
Qed.

(** The failures login does record.  A login call with credentials present
    that the protection check lets through and that fails because no user
    row matches, because the account is inactive or deleted, or because the
    credentials check answers a falsy value, throws the 401 "Credenciais
    inválidas" error after a rate-limiter attempt has been recorded for the
    login scope of the normalized identifier: in the world the call leaves,
    the limiter counts one attempt more than in the world the call found. *)
Theorem failed_login_records_an_attempt
    (now : Z) (params : AuthService.LoginParams) (w : world)
    (r : LoginProtectionService.LoginProtectionResult) :
  Str.nonempty (AuthService.email params) = true ->
  Str.nonempty (AuthService.password params) = true ->
  outcome (LoginProtectionService.checkLoginAttempt now
             (Str.normalize (AuthService.email params))
             (default "unknown" (AuthService.ip params))) w = Ok r ->
  LoginProtectionService.allowed r = true ->
  match find (fun u => Db.email_is (AuthService.email params) u
                       || Db.username_is (AuthService.email params) u) (users w) with
  | None => True
  | Some u =>
      AuthService.isActive_user u = false \/
      verifyCredentials (users w) (AuthService.email params)
        (AuthService.password params) = Ok None
  end ->
  outcome (AuthService.login now params) w
  = Throw (Exception "Credenciais inválidas" 401) /\
  RateLimiter.counted now LoginProtectionService.RATE_LIMIT_CONFIG
    (cache (after (AuthService.login now params) w))
    ("login:" +:+ Str.normalize (AuthService.email params))
    (default "unknown" (AuthService.ip params))
  = RateLimiter.counted now LoginProtectionService.RATE_LIMIT_CONFIG (cache w)
      ("login:" +:+ Str.normalize (AuthService.email params))
      (default "unknown" (AuthService.ip params)) + 1.
Proof using Type.
  intros Hemail Hpassword Hr Hallowed Hcase.
  destruct (login_failure_run now params w r Hemail Hpassword Hr Hallowed Hcase)
    as (userName & userEmail & Hrun).
  unfold outcome at 1, after at 1. rewrite Hrun. cbn [fst snd].
  split; [reflexivity|].
  rewrite recordLoginAttempt_counted.
  f_equal.
  destruct (check_outcome now
              ("login:" +:+ Str.normalize (AuthService.email params))
              (default "unknown" (AuthService.ip params))
              LoginProtectionService.RATE_LIMIT_CONFIG w) as [r0 Hr0].
  unfold after at 1. rewrite (checkLoginAttempt_run _ _ _ _ _ Hr0).
  apply check_counted.
Qed.

(** When the credentials check throws instead, its exception is what the
    caller gets. *)
Lemma login_credentials_exception now params w r u e :
  Str.nonempty (AuthService.email params) = true ->
  Str.nonempty (AuthService.password params) = true ->
  outcome (LoginProtectionService.checkLoginAttempt now
             (Str.normalize (AuthService.email params))
             (default "unknown" (AuthService.ip params))) w = Ok r ->
  LoginProtectionService.allowed r = true ->
  find (fun u => Db.email_is (AuthService.email params) u
                 || Db.username_is (AuthService.email params) u) (users w)
  = Some u ->
  AuthService.isActive_user u = true ->
  verifyCredentials (users w) (AuthService.email params)
    (AuthService.password params) = Throw e ->
  AuthService.login now params w
  = (Throw e,
     after (LoginProtectionService.checkLoginAttempt now
              (Str.normalize (AuthService.email params))
              (default "unknown" (AuthService.ip params))) w).
Proof.
  intros Hemail Hpassword Hr Hallowed Hfind Hactive Hthrow.
  assert (Husers :
            users (after (LoginProtectionService.checkLoginAttempt now
                            (Str.normalize (AuthService.email params))
                            (default "unknown" (AuthService.ip params))) w)
            = users w).
  { destruct (check_outcome now
                ("login:" +:+ Str.normalize (AuthService.email params))
                (default "unknown" (AuthService.ip params))
                LoginProtectionService.RATE_LIMIT_CONFIG w) as [r0 Hr0].
    unfold after at 1. rewrite (checkLoginAttempt_run _ _ _ _ _ Hr0).
    apply check_rest. }
  unfold AuthService.login. rewrite Hemail, Hpassword. cbn [negb orb].
  unfold bind at 1. rewrite run_eq, Hr, Hallowed. cbn [negb].
  unfold bind at 1. unfold Db.first at 1. rewrite Husers, Hfind, Hactive.
  cbn [negb]. unfold bind at 1. now rewrite Husers, Hthrow.
Qed.

End Login.

(** An unknown address, run: the attempt is counted, then the 401 thrown. *)
Lemma failed_login_records_an_attempt_witness :
  outcome (@AuthService.login Sample.externals 1000
             (AuthService.mkLoginParams "nobody@x.com" "wrong-pass" (Some "1.2.3.4")))
    Sample.empty
  = Throw (Exception "Credenciais inválidas" 401) /\
  RateLimiter.counted 1000 LoginProtectionService.RATE_LIMIT_CONFIG
    (cache (after (@AuthService.login Sample.externals 1000
                     (AuthService.mkLoginParams "nobody@x.com" "wrong-pass"
                        (Some "1.2.3.4")))
              Sample.empty))
    "login:nobody@x.com" "1.2.3.4"
  = RateLimiter.counted 1000 LoginProtectionService.RATE_LIMIT_CONFIG
      (cache Sample.empty) "login:nobody@x.com" "1.2.3.4"
    + 1.
Proof.
  apply (@failed_login_records_an_attempt Sample.externals 1000
           (AuthService.mkLoginParams "nobody@x.com" "wrong-pass" (Some "1.2.3.4"))
           Sample.empty
           (LoginProtectionService.mkLoginProtectionResult true 5 None false)).
  - reflexivity.
  - reflexivity.
  - vm_compute. reflexivity.
  - reflexivity.
  - vm_compute. exact I.
Defined.

(** C4, on the code.  [User.verifyCredentials] is the method of the
    withAuthFinder mixin, which answers a wrong password by throwing
    E_INVALID_CREDENTIALS and never by a falsy value.  login does not catch
    it: for the active user alice and a wrong password the call ends in that
    exception, not in the 401 "Credenciais inválidas", and leaves the world
    as it found it - the branch that records the attempt with the user's name
    and address is not reached, and getFailedAttempts still reads 0.  Ten
    such calls in a row leave the limiter with all five attempts remaining
    and the account open.  The failure for an unknown address, by contrast,
    is counted. *)
Lemma wrong_password_records_no_attempt :
  @verifyCredentials Sample.externals (users Sample.empty) "alice@x.com" "wrong-pass"
  = Throw E_INVALID_CREDENTIALS /\
  @AuthService.login Sample.externals 1000
    (AuthService.mkLoginParams "alice@x.com" "wrong-pass" (Some "1.2.3.4"))
    Sample.empty
  = (Throw E_INVALID_CREDENTIALS, Sample.empty) /\
  outcome (LoginProtectionService.getFailedAttempts 1000 "alice@x.com" "1.2.3.4")
    (after (@AuthService.login Sample.externals 1000
              (AuthService.mkLoginParams "alice@x.com" "wrong-pass" (Some "1.2.3.4")))
       Sample.empty)
  = Ok (VNum 0) /\
  outcome (LoginProtectionService.checkLoginAttempt 10000 "alice@x.com" "1.2.3.4")
    (Scenario.wrong_passwords 10 Sample.empty)
  = Ok (LoginProtectionService.mkLoginProtectionResult true 5 None false) /\
  outcome (@AuthService.login Sample.externals 10000 Scenario.alice_login)
    (Scenario.wrong_passwords 10 Sample.empty)
  = Ok (AuthService.mkLoginResult
          (mkAccessToken 1 "access_token" ["*"] 86400 10000)
          (mkUser 1 (Some "alice@x.com") "Alice" "alice" true (Some false) ""
                  None (Some 10000) (Some "9.9.9.9"))) /\
  outcome (@AuthService.login Sample.externals 1000
             (AuthService.mkLoginParams "nobody@x.com" "wrong-pass" (Some "1.2.3.4")))
    Sample.empty
  = Throw (Exception "Credenciais inválidas" 401) /\
  outcome (LoginProtectionService.getFailedAttempts 1000 "nobody@x.com" "1.2.3.4")
    (after (@AuthService.login Sample.externals 1000
              (AuthService.mkLoginParams "nobody@x.com" "wrong-pass" (Some "1.2.3.4")))
       Sample.empty)
  = Ok (VNum 1).
Proof.
  split; [vm_compute; reflexivity|].
  split; [vm_compute; reflexivity|].
  split; [vm_compute; reflexivity|].
  split; [vm_compute; reflexivity|].
  split; [vm_compute; reflexivity|].
  split; vm_compute; reflexivity.
Qed.

(** ** Completing a token flow *)

(** Saving a row that still satisfies the query makes it the answer. *)
Lemma find_after_save (p : User -> bool) (u u' : User) (us : list User) :
  find p us = Some u -> id u' = id u -> p u' = true ->
  find p (map (fun v => if id v =? id u' then u' else v) us) = Some u'.
Proof.
  intros Hfind Hid Hp. induction us as [|v us IH]; [discriminate|].
  cbn in *. destruct (p v) eqn:Hv.
  - injection Hfind as ->. rewrite Hid, Z.eqb_refl. now rewrite Hp.
  - destruct (id v =? id u'); [now rewrite Hp|]. rewrite Hv. now apply IH.
Qed.

Section TokenFlows.
Context `{Externals}.

Lemma verifyEmail_run now email token ip w u :
  CacheService.live now (cache w)
    (EmailVerificationService.getVerifyKey (Str.normalize email))
  = Some (VStr (Sha256.digest_hex token)) ->
  find (Db.email_is (Str.normalize email)) (users w) = Some u ->
  EmailVerificationService.verifyEmail now email token ip w
  = (Ok true,
     after (EmailVerificationService.cleanupAfterVerification
              (id u) (Str.normalize email) (default "unknown" ip))
       (after (Db.save (set_emailVerifiedAt (Some now) u)) w)).
Proof.
  intros Hlive Hfind.
  unfold EmailVerificationService.verifyEmail.
  unfold bind at 1. rewrite run_eq, validateToken_after.
  rewrite (proj2 (validateToken_true now _ w)) by exact Hlive.
  unfold Db.firstOrFail, Db.first, bind at 1. unfold bind at 1. rewrite Hfind.
  reflexivity.
Qed.

Lemma resetPassword_run now email token password ip w u :
  CacheService.live now (cache w) (PasswordService.getResetKey (Str.normalize email))
  = Some (VStr (Sha256.digest_hex token)) ->
  find (Db.email_is (Str.normalize email)) (users w) = Some u ->
  inactive_or_deleted u = false ->
  PasswordService.resetPassword now email token password ip w
  = (Ok true,
     after (PasswordService.sendSuccessEmail now (set_password password u)
              (default "unknown" ip))
       (after (PasswordService.cleanupAfterReset
                 (id u) (Str.normalize email) (default "unknown" ip))
          (after (Db.save (set_password password u)) w))).
Proof.
  intros Hlive Hfind Hactive.
  unfold PasswordService.resetPassword.
  unfold bind at 1. rewrite run_eq, validateToken_after.
  rewrite (proj2 (validateToken_true now _ w)) by exact Hlive.
  unfold Db.firstOrFail, Db.first, bind at 1. unfold bind at 1. rewrite Hfind.
  unfold ret at 1. rewrite Hactive. reflexivity.
Qed.





End TokenFlows.

(** ** C2 *)

Section CompleteOnce.
Context `{Externals}.


End CompleteOnce.


(** C2, on the code.  dora has no e-mail address; her user name is one.
    requestEmailVerification serves her through its fall-back to the user
    name: it returns true, stores the digest under verify_email:dora@x.com
    and mails the token to dora@x.com.  The token is pending and valid:
    validateToken accepts it.  verifyEmail, however, looks the row up by the
    e-mail column only: it finds none and throws the row-not-found error
    before it writes or deletes anything.  So the flow completes at no call,
    the first as little as the second, and the token stays pending. *)
Lemma pending_token_without_address_never_completes :
  outcome (@EmailVerificationService.requestEmailVerification Sample.externals
             0 Sample.entropy Scenario.dora None) Scenario.members
  = Ok true /\
  outbox Scenario.dora_pending
  = [mkMail "dora@x.com" "Verificação de E-mail" true
            (VerificationMail "Dora" Sample.mailed)] /\
  cache Scenario.dora_pending !! "verify_email:dora@x.com"
  = Some (VStr (Sha256.digest_hex Sample.mailed), 86400000) /\
  outcome (TokenService.validateToken 1000
             (TokenService.mkTokenValidationParams "dora@x.com" Sample.mailed
                "verify_email:dora@x.com")) Scenario.dora_pending
  = Ok true /\
  @EmailVerificationService.verifyEmail Sample.externals
    1000 "dora@x.com" Sample.mailed None Scenario.dora_pending
  = (Throw E_ROW_NOT_FOUND, Scenario.dora_pending) /\
  @EmailVerificationService.verifyEmail Sample.externals
    2000 "dora@x.com" Sample.mailed None Scenario.dora_pending
  = (Throw E_ROW_NOT_FOUND, Scenario.dora_pending).
Proof.
  split; [vm_compute; reflexivity|].
  split; [vm_compute; reflexivity|].
  split; [vm_compute; reflexivity|].
  split; [vm_compute; reflexivity|].
  split; vm_compute; reflexivity.
Qed.

(** The two calls, run. *)
Example verifyEmail_twice :
  let first := @EmailVerificationService.verifyEmail Sample.externals
                 1000 "alice@x.com" Sample.mailed None in
  outcome first Sample.pending = Ok true /\
  outcome first (after first Sample.pending)
  = Throw (Exception "Token inválido ou expirado" 400).
Proof. split; vm_compute; reflexivity. Qed.

(** A user without an e-mail address gets the token under the user name, and
    no row is found by that name as an address: the flow never completes. *)
Example verifyEmail_without_address :
  let w := after (@EmailVerificationService.requestEmailVerification
                    Sample.externals 0 Sample.entropy Sample.bob None)
             Sample.empty in
  outcome (@EmailVerificationService.verifyEmail Sample.externals
             1000 "bob" Sample.mailed None) w
  = Throw E_ROW_NOT_FOUND.
Proof. vm_compute. reflexivity. Qed.

(** ** C5 *)

(** What checkRateLimit answers depends on the record only through the start
    of its window: neither the attempts nor the block are read. *)
Lemma checkRateLimit_ignores_attempts_and_block
    (now : Z) (ip key : string) (w : world) (d d' : RateLimitData) (e : Z) :
  firstAttempt d = firstAttempt d' ->
  outcome (AppKeyService.checkRateLimit now ip key)
    (with_cache (<[AppKeyService.rateKey ip key := (VRate d, e)]> (cache w)) w)
  = outcome (AppKeyService.checkRateLimit now ip key)
      (with_cache (<[AppKeyService.rateKey ip key := (VRate d', e)]> (cache w)) w).
Proof.
  intros Hfirst.
  unfold outcome, AppKeyService.checkRateLimit, bind, CacheService.get.
  cbn [fst snd cache with_cache]. rewrite !live_insert_eq.
  destruct (now <? e); [|reflexivity]. rewrite Hfirst.
  destruct (seconds AppKeyService.RATE_LIMIT_WINDOW <? now - firstAttempt d');
    reflexivity.
Qed.

(** C5, on the code.  Five failed uses of a key from one address, one per
    second from instant 0, leave a record with attempts = 5 and a block set
    until 904000.  At 61000 the block is unexpired, and checkRateLimit finds
    the 60-second window run out: it deletes the record, block included, and
    answers false, which is what it answers when there is no record at all.
    At 30000, within the window, it answers true for that blocked record and
    true as well for the record of a single failed use. *)
Lemma checkRateLimit_drops_an_unexpired_block :
  cache (Sample.key_failures 5 Sample.empty)
    !! AppKeyService.rateKey "1.2.3.4" "k-live-01"
  = Some (VRate (mkRateLimitData 5 0 (Some 904000)), 904000) /\
  outcome (AppKeyService.checkRateLimit 61000 "1.2.3.4" "k-live-01")
    (Sample.key_failures 5 Sample.empty) = Ok false /\
  cache (after (AppKeyService.checkRateLimit 61000 "1.2.3.4" "k-live-01")
           (Sample.key_failures 5 Sample.empty))
    !! AppKeyService.rateKey "1.2.3.4" "k-live-01" = None /\
  outcome (AppKeyService.checkRateLimit 61000 "1.2.3.4" "k-live-01")
    Sample.empty = Ok false /\
  outcome (AppKeyService.checkRateLimit 30000 "1.2.3.4" "k-live-01")
    (Sample.key_failures 5 Sample.empty) = Ok true /\
  cache (Sample.key_failures 1 Sample.empty)
    !! AppKeyService.rateKey "1.2.3.4" "k-live-01"
  = Some (VRate (mkRateLimitData 1 0 None), 60000) /\
  outcome (AppKeyService.checkRateLimit 30000 "1.2.3.4" "k-live-01")
    (Sample.key_failures 1 Sample.empty) = Ok true.
Proof.
  split; [vm_compute; reflexivity|].
  split; [vm_compute; reflexivity|].
  split; [vm_compute; reflexivity|].
  split; [vm_compute; reflexivity|].
  split; [vm_compute; reflexivity|].
  split; vm_compute; reflexivity.
Qed.

(* ================================================================== *)
(** * Part III: further properties of the services                     *)
(* ================================================================== *)

(** ** Tokens *)

Lemma hex_length (bs : list Z) :
  String.length (Sha256.hex bs) = (2 * length bs)%nat.
Proof.
  unfold Sha256.hex. induction bs as [|b bs IH]; [reflexivity|].
  cbn [flat_map app string_of_list_ascii String.length length] in *.
  rewrite IH. lia.
Qed.

Lemma hex_digit_of_nat_inj (a b : nat) :
  (a < 16)%nat -> (b < 16)%nat ->
  Sha256.hex_digit (Z.of_nat a) = Sha256.hex_digit (Z.of_nat b) -> a = b.
Proof.
  intros Ha Hb.
  do 16 (destruct a as [|a];
         [do 16 (destruct b as [|b];
                 [vm_compute; intros E; solve [reflexivity | discriminate E]|]);
          lia|]).
  lia.
Qed.

Lemma hex_digit_inj (m n : Z) :
  0 <= m < 16 -> 0 <= n < 16 ->
  Sha256.hex_digit m = Sha256.hex_digit n -> m = n.
Proof.
  intros Hm Hn Heq.
  rewrite <- (Z2Nat.id m), <- (Z2Nat.id n) in * by lia.
  f_equal. apply hex_digit_of_nat_inj; [lia | lia | exact Heq].
Qed.

(** A byte is given back by its two hexadecimal digits. *)
Lemma byte_of_digits (x y : Z) :
  0 <= x < 256 -> 0 <= y < 256 ->
  Sha256.hex_digit (Z.shiftr x 4) = Sha256.hex_digit (Z.shiftr y 4) ->
  Sha256.hex_digit (Z.land x 0xF) = Sha256.hex_digit (Z.land y 0xF) ->
  x = y.
Proof.
  intros Hx Hy Hhi Hlo.
  rewrite !Z.shiftr_div_pow2 in Hhi by lia.
  change 0xF with (Z.ones 4) in Hlo. rewrite !Z.land_ones in Hlo by lia.
  change (2 ^ 4) with 16 in *.
  apply hex_digit_inj in Hhi;
    [|split; [apply Z.div_pos; lia | apply Z.div_lt_upper_bound; lia]..].
  apply hex_digit_inj in Hlo; [|apply Z.mod_pos_bound; lia..].
  rewrite (Z.div_mod x 16), (Z.div_mod y 16) by lia. now rewrite Hhi, Hlo.
Qed.

Lemma hex_inj (a b : list Z) :
  Forall (fun x => 0 <= x < 256) a -> Forall (fun x => 0 <= x < 256) b ->
  Sha256.hex a = Sha256.hex b -> a = b.
Proof.
  unfold Sha256.hex. intros Ha. revert b.
  induction Ha as [|x a Hx Ha IH]; intros b Hb Heq.
  - destruct b as [|y b]; [reflexivity | discriminate Heq].
  - destruct Hb as [|y b Hy Hb]; [discriminate Heq|].
    cbn [flat_map app string_of_list_ascii] in Heq.
    injection Heq as Hhi Hlo Hrest.
    f_equal; [now apply byte_of_digits | now apply IH].
Qed.

(** The characters of the hexadecimal writing, by position. *)
Lemma hex_get (bs : list Z) (i : nat) (b : Z) :
  nth_error bs i = Some b ->
  String.get (2 * i) (Sha256.hex bs) = Some (Sha256.hex_digit (Z.shiftr b 4)) /\
  String.get (2 * i + 1) (Sha256.hex bs) = Some (Sha256.hex_digit (Z.land b 0xF)).
Proof.
  unfold Sha256.hex. revert i. induction bs as [|x bs IH]; intros i Hi.
  - destruct i; discriminate Hi.
  - destruct i as [|i].
    + injection Hi as ->. split; reflexivity.
    + cbn [nth_error] in Hi. destruct (IH i Hi) as [Hhi Hlo].
      replace (2 * S i)%nat with (S (S (2 * i))) by lia.
      replace (S (S (2 * i)) + 1)%nat with (S (S (2 * i + 1))) by lia.
      cbn [flat_map app string_of_list_ascii String.get]. now split.
Qed.

Lemma hex_digit_get (n : Z) :
  0 <= n < 16 ->
  Some (Sha256.hex_digit n) = String.get (Z.to_nat n) "0123456789abcdef".
Proof.
  intros Hn. unfold Sha256.hex_digit.
  assert (Hk : (Z.to_nat n < 16)%nat) by lia.
  generalize dependent (Z.to_nat n). intros k Hk.
  do 16 (destruct k as [|k]; [reflexivity|]). lia.
Qed.

(** X1. The token generateSecureToken hands out is the lower-case
    hexadecimal writing of the entropy: two characters per byte (32 for the
    16 bytes drawn), the character of the high four bits before that of the
    low four, each taken from 0123456789abcdef; distinct entropies give
    distinct tokens; the hash beside it is the 64-character SHA-256 digest
    of that token. *)
Theorem generated_token_format (rnd rnd' : list Z) :
  Forall (fun x => 0 <= x < 256) rnd ->
  Forall (fun x => 0 <= x < 256) rnd' ->
  length rnd = 16%nat ->
  String.length (TokenService.token (TokenService.generateSecureToken rnd)) = 32%nat /\
  (forall (i : nat) (b : Z),
     nth_error rnd i = Some b ->
     String.get (2 * i) (TokenService.token (TokenService.generateSecureToken rnd))
     = String.get (Z.to_nat (b / 16)) "0123456789abcdef" /\
     String.get (2 * i + 1) (TokenService.token (TokenService.generateSecureToken rnd))
     = String.get (Z.to_nat (b mod 16)) "0123456789abcdef") /\
  String.length (TokenService.hash (TokenService.generateSecureToken rnd)) = 64%nat /\
  TokenService.hash (TokenService.generateSecureToken rnd)
  = Sha256.digest_hex (TokenService.token (TokenService.generateSecureToken rnd)) /\
  (TokenService.token (TokenService.generateSecureToken rnd)
   = TokenService.token (TokenService.generateSecureToken rnd') ->
   rnd = rnd').
Proof.
  intros Hrnd Hrnd' Hlen. cbn [TokenService.generateSecureToken TokenService.token
                               TokenService.hash].
  split; [rewrite hex_length, Hlen; reflexivity|].
  split.
  { intros i b Hi.
    assert (Hb : 0 <= b < 256).
    { apply (proj1 (List.Forall_forall _ rnd) Hrnd b).
      eapply nth_error_In. exact Hi. }
    destruct (hex_get rnd i b Hi) as [-> ->].
    rewrite Z.shiftr_div_pow2 by lia.
    change 0xF with (Z.ones 4). rewrite Z.land_ones by lia.
    change (2 ^ 4) with 16.
    split; apply hex_digit_get.
    - split; [apply Z.div_pos; lia | apply Z.div_lt_upper_bound; lia].
    - apply Z.mod_pos_bound. lia. }
  split; [apply digest_hex_length|].
  split; [reflexivity|]. now apply hex_inj.
Qed.

(** The sample entropy ends in the bytes 10, 15 and 255: they are written 0a,
    0f and ff. *)
Lemma generated_token_format_witness :
  String.length (TokenService.token (TokenService.generateSecureToken Sample.entropy))
  = 32%nat /\
  (String.get 18 (TokenService.token (TokenService.generateSecureToken Sample.entropy))
   = Some "0"%char /\
   String.get 19 (TokenService.token (TokenService.generateSecureToken Sample.entropy))
   = Some "a"%char) /\
  (String.get 30 (TokenService.token (TokenService.generateSecureToken Sample.entropy))
   = Some "f"%char /\
   String.get 31 (TokenService.token (TokenService.generateSecureToken Sample.entropy))
   = Some "f"%char).
Proof.
  pose proof (generated_token_format Sample.entropy Sample.entropy
                ltac:(repeat constructor; lia) ltac:(repeat constructor; lia)
                eq_refl) as (Hlen & Hget & _).
  exact (conj Hlen (conj (Hget 9%nat 10 eq_refl) (Hget 15%nat 255 eq_refl))).
Defined.

(** ** Access tokens *)

Lemma filter_others_of_others (i : Z) (ts : list AccessToken) :
  filter (fun t => negb (tokenableId t =? i))
         (filter (fun t => negb (tokenableId t =? i)) ts)
  = filter (fun t => negb (tokenableId t =? i)) ts.
Proof.
  induction ts as [|t ts IH]; [reflexivity|].
  rewrite (filter_cons _ t ts).
  destruct (decide (negb (tokenableId t =? i))) as [Ht | Ht]; [|exact IH].
  rewrite (filter_cons _ t (filter _ ts)).
  destruct (decide (negb (tokenableId t =? i))); [now rewrite IH | contradiction].
Qed.

Lemma filter_own_of_others (i : Z) (ts : list AccessToken) :
  filter (fun t => tokenableId t =? i)
         (filter (fun t => negb (tokenableId t =? i)) ts)
  = [].
Proof.
  induction ts as [|t ts IH]; [reflexivity|].
  rewrite (filter_cons _ t ts).
  destruct (decide (negb (tokenableId t =? i))) as [Ht | Ht]; [|exact IH].
  rewrite (filter_cons _ t (filter _ ts)).
  destruct (decide (tokenableId t =? i)) as [Hown | Hown]; [|exact IH].
  destruct (tokenableId t =? i); [contradiction Ht | contradiction Hown].
Qed.

(** The access tokens after createAccessToken: one for the user, the others'
    as they were. *)
Lemma createAccessToken_tokens (now : Z) (user : User) (w : world) :
  filter (fun t => tokenableId t =? id user)
         (accessTokens (after (TokenService.createAccessToken now user) w))
  = [mkAccessToken (id user) "access_token" ["*"] 86400 now] /\
  filter (fun t => negb (tokenableId t =? id user))
         (accessTokens (after (TokenService.createAccessToken now user) w))
  = filter (fun t => negb (tokenableId t =? id user)) (accessTokens w).
Proof.
  cbn [after TokenService.createAccessToken TokenService.revokeAllAccessTokens
       bind modify ret snd fst accessTokens with_accessTokens cache users].
  rewrite !filter_app, filter_own_of_others, filter_others_of_others.
  rewrite !(filter_cons _ _ []), !filter_nil.
  cbn [tokenableId]. rewrite Z.eqb_refl. cbn.
  destruct (decide True) as [_ | Hn]; [|now destruct Hn].
  destruct (decide False) as [Hf | _]; [now destruct Hf|].
  rewrite app_nil_r. now split.
Qed.

(** X2. createAccessToken returns a token named access_token for the user,
    with every ability and a lifetime of 86400 seconds.  After the call it
    is the only access token of that user: those the user had are revoked;
    the tokens of every other user are as they were. *)
Theorem createAccessToken_single_session (now : Z) (user : User) (w : world) :
  outcome (TokenService.createAccessToken now user) w
  = Ok (mkAccessToken (id user) "access_token" ["*"] 86400 now) /\
  filter (fun t => tokenableId t =? id user)
         (accessTokens (after (TokenService.createAccessToken now user) w))
  = [mkAccessToken (id user) "access_token" ["*"] 86400 now] /\
  filter (fun t => negb (tokenableId t =? id user))
         (accessTokens (after (TokenService.createAccessToken now user) w))
  = filter (fun t => negb (tokenableId t =? id user)) (accessTokens w) /\
  cache (after (TokenService.createAccessToken now user) w) = cache w /\
  users (after (TokenService.createAccessToken now user) w) = users w.
Proof.
  split; [reflexivity|].
  cbn [after TokenService.createAccessToken TokenService.revokeAllAccessTokens
       bind modify ret snd fst accessTokens with_accessTokens cache users].
  rewrite !filter_app, filter_own_of_others, filter_others_of_others.
  rewrite !(filter_cons _ _ []), !filter_nil.
  cbn [tokenableId]. rewrite Z.eqb_refl. cbn.
  destruct (decide True) as [_ | Hn]; [|now destruct Hn].
  destruct (decide False) as [Hf | _]; [now destruct Hf|].
  rewrite app_nil_r. repeat split.
Qed.

Section Logout.
Context `{Externals}.

(** X3. revokeAllTokens (and AuthService.logout, which is that call)
    returns true, leaves the user without any access token and with no entry
    in the user cache, nor in the list cache; the access tokens of the other
    users and the users table are untouched. *)
Theorem logout_revokes_the_user_only (user : User) (w : world) :
  outcome (TokenRevocation.logout user) w = Ok true /\
  filter (fun t => tokenableId t =? id user)
         (accessTokens (after (TokenRevocation.logout user) w)) = [] /\
  filter (fun t => negb (tokenableId t =? id user))
         (accessTokens (after (TokenRevocation.logout user) w))
  = filter (fun t => negb (tokenableId t =? id user)) (accessTokens w) /\
  cache (after (TokenRevocation.logout user) w) !! userKey (id user) = None /\
  cache (after (TokenRevocation.logout user) w) !! listKey = None /\
  users (after (TokenRevocation.logout user) w) = users w.
Proof using Type.
  split; [reflexivity|].
  cbn [after TokenRevocation.logout TokenRevocation.revokeAllTokens catch_as
       TokenService.revokeAllAccessTokens SharedCache.invalidateUser
       CacheService.delete bind modify ret snd fst accessTokens
       with_accessTokens with_cache cache users].
  split; [apply filter_own_of_others|].
  split; [apply filter_others_of_others|].
  split; [|split; [apply lookup_delete_eq | reflexivity]].
  apply lookup_delete_None. right. apply lookup_delete_eq.
Qed.

End Logout.

(** ** Token requests that are let through *)

#[global] Arguments TokenService.generateSecureToken : simpl never.
#[global] Arguments EmailVerificationService.getVerifyKey : simpl never.
#[global] Arguments PasswordService.getResetKey : simpl never.
#[global] Arguments hours : simpl never.
#[global] Arguments minutes : simpl never.

Section Requests.
Context `{Externals}.

Lemma requestEmailVerification_allowed now rnd user ip w r :
  outcome (RateLimiter.check now
             ("verify:" +:+ Str.normalize (Str.or_else (email user) (username user)))
             (default "unknown" ip) EmailVerificationService.RATE_LIMIT_CONFIG) w
  = Ok r ->
  RateLimiter.allowed r = true ->
  EmailVerificationService.requestEmailVerification now rnd user ip w
  = (Ok true,
     after (EmailVerificationService.sendVerificationEmail user
              (TokenService.token (TokenService.generateSecureToken rnd)))
       (after (TokenService.storeTokenHash now
                 (EmailVerificationService.getVerifyKey
                    (Str.normalize (Str.or_else (email user) (username user))))
                 (TokenService.hash (TokenService.generateSecureToken rnd))
                 EmailVerificationService.VERIFY_TTL)
          (after (RateLimiter.recordAttempt now
                    ("verify:" +:+ Str.normalize
                                     (Str.or_else (email user) (username user)))
                    (default "unknown" ip)
                    EmailVerificationService.RATE_LIMIT_CONFIG)
             (after (RateLimiter.check now
                       ("verify:" +:+ Str.normalize
                                        (Str.or_else (email user) (username user)))
                       (default "unknown" ip)
                       EmailVerificationService.RATE_LIMIT_CONFIG) w)))).
Proof.
  intros Hr Hallowed.
  unfold EmailVerificationService.requestEmailVerification.
  unfold bind at 1. rewrite run_eq, Hr, Hallowed. cbn [negb].
  unfold bind at 1. rewrite recordAttempt_run. reflexivity.
Qed.

Lemma requestPasswordReset_allowed now rnd email ip w u r :
  find (Db.email_is (Str.normalize email)) (users w) = Some u ->
  inactive_or_deleted u = false ->
  outcome (RateLimiter.check now ("reset:" +:+ Str.normalize email)
             (default "unknown" ip) PasswordService.RATE_LIMIT_CONFIG) w = Ok r ->
  RateLimiter.allowed r = true ->
  PasswordService.requestPasswordReset now rnd email ip w
  = (Ok true,
     after (PasswordService.sendResetEmail u
              (TokenService.token (TokenService.generateSecureToken rnd)))
       (after (TokenService.storeTokenHash now
                 (PasswordService.getResetKey (Str.normalize email))
                 (TokenService.hash (TokenService.generateSecureToken rnd))
                 PasswordService.RESET_TTL)
          (after (RateLimiter.recordAttempt now ("reset:" +:+ Str.normalize email)
                    (default "unknown" ip) PasswordService.RATE_LIMIT_CONFIG)
             (after (RateLimiter.check now ("reset:" +:+ Str.normalize email)
                       (default "unknown" ip) PasswordService.RATE_LIMIT_CONFIG)
                w)))).
Proof.
  intros Hu Hactive Hr Hallowed.
  unfold PasswordService.requestPasswordReset.
  unfold bind at 1. unfold Db.firstOrFail, Db.first, bind at 1. rewrite Hu.
  unfold ret at 1. rewrite Hactive.
  unfold bind at 1. rewrite run_eq, Hr, Hallowed. cbn [negb].
  unfold bind at 1. rewrite recordAttempt_run. reflexivity.
Qed.

(** X4. A verification request that the limiter lets through returns true,
    stores under verify_email:<normalized address> the SHA-256 digest of the
    token, to expire 24 hours later, and hands the mailer one mail, to the
    user's address (the user name when there is none), that carries the
    plaintext whose digest was stored.  The users table is not touched. *)
Theorem allowed_verification_request
    (now : Z) (rnd : list Z) (user : User) (ip : option string) (w : world)
    (r : RateLimiter.CheckResult) :
  outcome (RateLimiter.check now
             ("verify:" +:+ Str.normalize (Str.or_else (email user) (username user)))
             (default "unknown" ip) EmailVerificationService.RATE_LIMIT_CONFIG) w
  = Ok r ->
  RateLimiter.allowed r = true ->
  outcome (EmailVerificationService.requestEmailVerification now rnd user ip) w
  = Ok true /\
  cache (after (EmailVerificationService.requestEmailVerification now rnd user ip) w)
    !! EmailVerificationService.getVerifyKey
         (Str.normalize (Str.or_else (email user) (username user)))
  = Some (VStr (Sha256.digest_hex (Sha256.hex rnd)), now + hours 24) /\
  outbox (after (EmailVerificationService.requestEmailVerification now rnd user ip) w)
  = (outbox w ++
     [mkMail (Str.or_else (email user) (username user)) "Verificação de E-mail" true
             (VerificationMail (name user) (Sha256.hex rnd))])%list /\
  users (after (EmailVerificationService.requestEmailVerification now rnd user ip) w)
  = users w.
Proof using Type.
  intros Hr Hallowed.
  pose proof (requestEmailVerification_allowed now rnd user ip w r Hr Hallowed)
    as Hrun.
  unfold outcome, after at 1 2 3. rewrite Hrun. cbn [fst snd].
  split; [reflexivity|].
  split; [apply lookup_insert_eq|].
  cbn [after EmailVerificationService.sendVerificationEmail EmailService.send
       TokenService.storeTokenHash CacheService.set modify snd outbox users
       with_outbox with_cache].
  destruct (recordAttempt_rest now
              ("verify:" +:+ Str.normalize (Str.or_else (email user) (username user)))
              (default "unknown" ip) EmailVerificationService.RATE_LIMIT_CONFIG
              (RateLimiter.check now
                 ("verify:" +:+ Str.normalize
                                  (Str.or_else (email user) (username user)))
                 (default "unknown" ip)
                 EmailVerificationService.RATE_LIMIT_CONFIG w).2)
    as (Hu1 & _ & Ho1).
  destruct (check_rest now
              ("verify:" +:+ Str.normalize (Str.or_else (email user) (username user)))
              (default "unknown" ip) EmailVerificationService.RATE_LIMIT_CONFIG w)
    as (Hu0 & _ & Ho0).
  unfold after in *. rewrite Ho1, Ho0, Hu1, Hu0. now split.
Qed.

End Requests.

(** ** Confirmations *)

Section Confirmations.
Context `{Externals}.

Lemma verifyEmail_not_live now email token ip w :
  CacheService.live now (cache w)
    (EmailVerificationService.getVerifyKey (Str.normalize email)) = None ->
  EmailVerificationService.verifyEmail now email token ip w
  = (Throw (Exception "Token inválido ou expirado" 400), w).
Proof.
  intros Hnone.
  unfold EmailVerificationService.verifyEmail.
  unfold bind at 1. rewrite run_eq, validateToken_after.
  now rewrite validateToken_absent.
Qed.

Lemma resetPassword_not_live now email token password ip w :
  CacheService.live now (cache w)
    (PasswordService.getResetKey (Str.normalize email)) = None ->
  PasswordService.resetPassword now email token password ip w
  = (Throw (Exception "Token inválido ou expirado" 400), w).
Proof.
  intros Hnone.
  unfold PasswordService.resetPassword.
  unfold bind at 1. rewrite run_eq, validateToken_after.
  now rewrite validateToken_absent.
Qed.

(** The live entry under the key of the flow, after a request that was let
    through. *)
Lemma live_after_verification_request now rnd user ip w r t :
  outcome (RateLimiter.check now
             ("verify:" +:+ Str.normalize (Str.or_else (email user) (username user)))
             (default "unknown" ip) EmailVerificationService.RATE_LIMIT_CONFIG) w
  = Ok r ->
  RateLimiter.allowed r = true ->
  CacheService.live t
    (cache (after (EmailVerificationService.requestEmailVerification
                     now rnd user ip) w))
    (EmailVerificationService.getVerifyKey
       (Str.normalize (Str.or_else (email user) (username user))))
  = if t <? now + hours 24
    then Some (VStr (Sha256.digest_hex (Sha256.hex rnd))) else None.
Proof.
  intros Hr Hallowed.
  unfold after at 1.
  rewrite (requestEmailVerification_allowed now rnd user ip w r Hr Hallowed).
  cbn [snd]. apply live_insert_eq.
Qed.

Lemma live_after_reset_request now rnd email ip w u r t :
  find (Db.email_is (Str.normalize email)) (users w) = Some u ->
  inactive_or_deleted u = false ->
  outcome (RateLimiter.check now ("reset:" +:+ Str.normalize email)
             (default "unknown" ip) PasswordService.RATE_LIMIT_CONFIG) w = Ok r ->
  RateLimiter.allowed r = true ->
  CacheService.live t
    (cache (after (PasswordService.requestPasswordReset now rnd email ip) w))
    (PasswordService.getResetKey (Str.normalize email))
  = if t <? now + minutes 15
    then Some (VStr (Sha256.digest_hex (Sha256.hex rnd))) else None.
Proof.
  intros Hu Hactive Hr Hallowed.
  unfold after at 1.
  rewrite (requestPasswordReset_allowed now rnd email ip w u r
             Hu Hactive Hr Hallowed).
  cbn [snd]. apply live_insert_eq.
Qed.

Lemma users_after_verification_request now rnd user ip w r :
  outcome (RateLimiter.check now
             ("verify:" +:+ Str.normalize (Str.or_else (email user) (username user)))
             (default "unknown" ip) EmailVerificationService.RATE_LIMIT_CONFIG) w
  = Ok r ->
  RateLimiter.allowed r = true ->
  users (after (EmailVerificationService.requestEmailVerification now rnd user ip) w)
  = users w.
Proof.
  intros Hr Hallowed. unfold after at 1.
  rewrite (requestEmailVerification_allowed now rnd user ip w r Hr Hallowed).
  cbn [snd after EmailVerificationService.sendVerificationEmail EmailService.send
       TokenService.storeTokenHash CacheService.set modify users
       with_outbox with_cache].
  destruct (recordAttempt_rest now
              ("verify:" +:+ Str.normalize (Str.or_else (email user) (username user)))
              (default "unknown" ip) EmailVerificationService.RATE_LIMIT_CONFIG
              (RateLimiter.check now
                 ("verify:" +:+ Str.normalize
                                  (Str.or_else (email user) (username user)))
                 (default "unknown" ip)
                 EmailVerificationService.RATE_LIMIT_CONFIG w).2)
    as (Hu1 & _ & _).
  destruct (check_rest now
              ("verify:" +:+ Str.normalize (Str.or_else (email user) (username user)))
              (default "unknown" ip) EmailVerificationService.RATE_LIMIT_CONFIG w)
    as (Hu0 & _ & _).
  unfold after in *. now rewrite Hu1, Hu0.
Qed.

Lemma users_after_reset_request now rnd email ip w u r :
  find (Db.email_is (Str.normalize email)) (users w) = Some u ->
  inactive_or_deleted u = false ->
  outcome (RateLimiter.check now ("reset:" +:+ Str.normalize email)
             (default "unknown" ip) PasswordService.RATE_LIMIT_CONFIG) w = Ok r ->
  RateLimiter.allowed r = true ->
  users (after (PasswordService.requestPasswordReset now rnd email ip) w) = users w.
Proof.
  intros Hu Hactive Hr Hallowed. unfold after at 1.
  rewrite (requestPasswordReset_allowed now rnd email ip w u r
             Hu Hactive Hr Hallowed).
  cbn [snd after PasswordService.sendResetEmail EmailService.send
       TokenService.storeTokenHash CacheService.set modify users
       with_outbox with_cache].
  destruct (recordAttempt_rest now ("reset:" +:+ Str.normalize email)
              (default "unknown" ip) PasswordService.RATE_LIMIT_CONFIG
              (RateLimiter.check now ("reset:" +:+ Str.normalize email)
                 (default "unknown" ip) PasswordService.RATE_LIMIT_CONFIG w).2)
    as (Hu1 & _ & _).
  destruct (check_rest now ("reset:" +:+ Str.normalize email)
              (default "unknown" ip) PasswordService.RATE_LIMIT_CONFIG w)
    as (Hu0 & _ & _).
  unfold after in *. now rewrite Hu1, Hu0.
Qed.

(** X5. Request, then confirm: the token mailed by a verification request
    that was let through completes verifyEmail for any writing of the
    address that normalizes (trim, lower case) to the one the request used,
    at every instant before the 24 hours are over, provided the users table
    has a row with that address; from the end of the 24 hours on, the same
    call is answered by the 400 exception and changes nothing. *)
Theorem verification_request_then_confirm
    (now t : Z) (rnd : list Z) (user u : User) (ip ip' : option string)
    (address : string) (w : world) (r : RateLimiter.CheckResult) :
  outcome (RateLimiter.check now
             ("verify:" +:+ Str.normalize (Str.or_else (email user) (username user)))
             (default "unknown" ip) EmailVerificationService.RATE_LIMIT_CONFIG) w
  = Ok r ->
  RateLimiter.allowed r = true ->
  Str.normalize address = Str.normalize (Str.or_else (email user) (username user)) ->
  find (Db.email_is (Str.normalize address)) (users w) = Some u ->
  (t < now + hours 24 ->
   outcome (EmailVerificationService.verifyEmail t address (Sha256.hex rnd) ip')
     (after (EmailVerificationService.requestEmailVerification now rnd user ip) w)
   = Ok true) /\
  (now + hours 24 <= t ->
   EmailVerificationService.verifyEmail t address (Sha256.hex rnd) ip'
     (after (EmailVerificationService.requestEmailVerification now rnd user ip) w)
   = (Throw (Exception "Token inválido ou expirado" 400),
      after (EmailVerificationService.requestEmailVerification now rnd user ip) w)).
Proof using Type.
  intros Hr Hallowed Hsame Hfind.
  pose proof (live_after_verification_request now rnd user ip w r t Hr Hallowed)
    as Hlive.
  rewrite <- Hsame in Hlive. split; intros Ht.
  - apply Z.ltb_lt in Ht. rewrite Ht in Hlive.
    unfold outcome.
    rewrite (verifyEmail_run t address (Sha256.hex rnd) ip' _ u Hlive);
      [reflexivity|].
    now rewrite (users_after_verification_request now rnd user ip w r Hr Hallowed).
  - apply Z.ltb_ge in Ht. rewrite Ht in Hlive.
    now apply verifyEmail_not_live.
Qed.

(** X6. Request, then reset: the token mailed by a password-reset request
    that was let through completes resetPassword at every instant before
    the 15 minutes are over (the account being found and active); from the
    end of the 15 minutes on, the same call is answered by the 400 exception
    and changes nothing: the password stays. *)
Theorem reset_request_then_confirm
    (now t : Z) (rnd : list Z) (u : User) (ip ip' : option string)
    (email address password : string) (w : world) (r : RateLimiter.CheckResult) :
  find (Db.email_is (Str.normalize email)) (users w) = Some u ->
  inactive_or_deleted u = false ->
  outcome (RateLimiter.check now ("reset:" +:+ Str.normalize email)
             (default "unknown" ip) PasswordService.RATE_LIMIT_CONFIG) w = Ok r ->
  RateLimiter.allowed r = true ->
  Str.normalize address = Str.normalize email ->
  (t < now + minutes 15 ->
   outcome (PasswordService.resetPassword t address (Sha256.hex rnd) password ip')
     (after (PasswordService.requestPasswordReset now rnd email ip) w)
   = Ok true) /\
  (now + minutes 15 <= t ->
   PasswordService.resetPassword t address (Sha256.hex rnd) password ip'
     (after (PasswordService.requestPasswordReset now rnd email ip) w)
   = (Throw (Exception "Token inválido ou expirado" 400),
      after (PasswordService.requestPasswordReset now rnd email ip) w)).
Proof using Type.
  intros Hu Hactive Hr Hallowed Hsame.
  pose proof (live_after_reset_request now rnd email ip w u r t
                Hu Hactive Hr Hallowed) as Hlive.
  rewrite <- Hsame in Hlive. split; intros Ht.
  - apply Z.ltb_lt in Ht. rewrite Ht in Hlive.
    unfold outcome.
    rewrite (resetPassword_run t address (Sha256.hex rnd) password ip' _ u Hlive);
      [reflexivity | | exact Hactive].
    rewrite (users_after_reset_request now rnd email ip w u r Hu Hactive Hr Hallowed).
    now rewrite Hsame.
  - apply Z.ltb_ge in Ht. rewrite Ht in Hlive.
    now apply resetPassword_not_live.
Qed.

(** X7. Only the newest token is valid.  Whatever token was pending before,
    after a verification request that was let through every candidate whose
    digest is not that of the token just mailed is refused by verifyEmail
    with the 400 exception, at every instant, and nothing is changed. *)
Theorem newer_request_supersedes
    (now t : Z) (rnd : list Z) (user : User) (ip ip' : option string)
    (address candidate : string) (w : world) (r : RateLimiter.CheckResult) :
  outcome (RateLimiter.check now
             ("verify:" +:+ Str.normalize (Str.or_else (email user) (username user)))
             (default "unknown" ip) EmailVerificationService.RATE_LIMIT_CONFIG) w
  = Ok r ->
  RateLimiter.allowed r = true ->
  Str.normalize address = Str.normalize (Str.or_else (email user) (username user)) ->
  Sha256.digest_hex candidate <> Sha256.digest_hex (Sha256.hex rnd) ->
  EmailVerificationService.verifyEmail t address candidate ip'
    (after (EmailVerificationService.requestEmailVerification now rnd user ip) w)
  = (Throw (Exception "Token inválido ou expirado" 400),
     after (EmailVerificationService.requestEmailVerification now rnd user ip) w).
Proof using Type.
  intros Hr Hallowed Hsame Hother.
  pose proof (live_after_verification_request now rnd user ip w r t Hr Hallowed)
    as Hlive.
  rewrite <- Hsame in Hlive.
  destruct (t <? now + hours 24); [|now apply verifyEmail_not_live].
  unfold EmailVerificationService.verifyEmail.
  unfold bind at 1. rewrite run_eq, validateToken_after.
  rewrite (validateToken_mismatch t _ _ (Sha256.digest_hex (Sha256.hex rnd)));
    [reflexivity | exact Hlive | apply digest_hex_length |].
  cbn [TokenService.candidate]. congruence.
Qed.

(** X8. A confirmation that fails at the validation changes nothing: when
    the live entry of the flow is not the digest of the candidate, verifyEmail
    and resetPassword throw and leave the world exactly as it was.  The
    pending token is not consumed, the row is not touched, and no limiter
    counts the failed try. *)
Theorem failed_confirmation_changes_nothing
    (now : Z) (email candidate password : string) (ip : option string) (w : world) :
  (CacheService.live now (cache w)
     (EmailVerificationService.getVerifyKey (Str.normalize email))
   <> Some (VStr (Sha256.digest_hex candidate)) ->
   exists e,
     EmailVerificationService.verifyEmail now email candidate ip w = (Throw e, w)) /\
  (CacheService.live now (cache w)
     (PasswordService.getResetKey (Str.normalize email))
   <> Some (VStr (Sha256.digest_hex candidate)) ->
   exists e,
     PasswordService.resetPassword now email candidate password ip w = (Throw e, w)).
Proof using Type.
  split; intros Hne.
  - unfold EmailVerificationService.verifyEmail.
    unfold bind at 1. rewrite run_eq, validateToken_after.
    destruct (outcome (TokenService.validateToken now _) w) as [[|]|e] eqn:Hv.
    + apply validateToken_true in Hv. contradiction.
    + now apply validateToken_not_false in Hv.
    + now exists e.
  - unfold PasswordService.resetPassword.
    unfold bind at 1. rewrite run_eq, validateToken_after.
    destruct (outcome (TokenService.validateToken now _) w) as [[|]|e] eqn:Hv.
    + apply validateToken_true in Hv. contradiction.
    + now apply validateToken_not_false in Hv.
    + now exists e.
Qed.

(** X9. A reset for an account that is inactive or deleted is refused even
    with the right token: resetPassword throws the 403 "Usuário inativo",
    the password is not changed and the token stays pending. *)
Theorem reset_refused_for_inactive_account
    (now : Z) (email token password : string) (ip : option string)
    (w : world) (u : User) :
  CacheService.live now (cache w) (PasswordService.getResetKey (Str.normalize email))
  = Some (VStr (Sha256.digest_hex token)) ->
  find (Db.email_is (Str.normalize email)) (users w) = Some u ->
  inactive_or_deleted u = true ->
  PasswordService.resetPassword now email token password ip w
  = (Throw (Exception "Usuário inativo" 403), w).
Proof using Type.
  intros Hlive Hfind Hinactive.
  unfold PasswordService.resetPassword.
  unfold bind at 1. rewrite run_eq, validateToken_after.
  rewrite (proj2 (validateToken_true now _ w)) by exact Hlive.
  unfold Db.firstOrFail, Db.first, bind at 1. unfold bind at 1. rewrite Hfind.
  unfold ret at 1. now rewrite Hinactive.
Qed.

(** X10. A reset request for an address that no row carries throws the
    lucid row-not-found error, and one for an inactive or deleted account the
    403 "Usuário inativo"; both fail before the limiter is consulted, so
    nothing is counted, stored or sent. *)
Theorem reset_request_for_unknown_or_inactive
    (now : Z) (rnd : list Z) (email : string) (ip : option string) (w : world) :
  (find (Db.email_is (Str.normalize email)) (users w) = None ->
   PasswordService.requestPasswordReset now rnd email ip w
   = (Throw E_ROW_NOT_FOUND, w)) /\
  (forall u,
     find (Db.email_is (Str.normalize email)) (users w) = Some u ->
     inactive_or_deleted u = true ->
     PasswordService.requestPasswordReset now rnd email ip w
     = (Throw (Exception "Usuário inativo" 403), w)).
Proof using Type.
  split.
  - intros Hnone. unfold PasswordService.requestPasswordReset.
    unfold bind at 1. unfold Db.firstOrFail, Db.first, bind at 1.
    now rewrite Hnone.
  - intros u Hu Hinactive. unfold PasswordService.requestPasswordReset.
    unfold bind at 1. unfold Db.firstOrFail, Db.first, bind at 1. rewrite Hu.
    unfold ret at 1. now rewrite Hinactive.
Qed.

End Confirmations.

(** ** Login protection over a run of failures *)

Lemma recordLoginAttempt_failure_rest now identifier ip userName userEmail w :
  accessTokens (after (LoginProtectionService.recordLoginAttempt now
                         (LoginProtectionService.mkLoginAttemptParams
                            identifier ip false userName userEmail)) w)
  = accessTokens w /\
  outbox (after (LoginProtectionService.recordLoginAttempt now
                   (LoginProtectionService.mkLoginAttemptParams
                      identifier ip false userName userEmail)) w)
  = if LoginProtectionService.reaches_max
         (default (VNum 0)
            (CacheService.live now
               (cache (after (RateLimiter.recordAttempt now ("login:" +:+ identifier) ip
                                LoginProtectionService.RATE_LIMIT_CONFIG) w))
               (RateLimiter.attemptsKey ("login:" +:+ identifier) ip)))
    then
      match userEmail, userName with
      | Some e, Some n =>
          if Str.nonempty e && Str.nonempty n
          then (outbox w ++
                [mkMail e "Conta temporariamente bloqueada - Tentativas de login suspeitas"
                        true (AccountBlockedMail n ip now 2)])%list
          else outbox w
      | _, _ => outbox w
      end
    else outbox w.
Proof.
  pose proof (recordAttempt_rest now ("login:" +:+ identifier) ip
                LoginProtectionService.RATE_LIMIT_CONFIG w) as (_ & Ht & Ho).
  pose proof (recordLoginAttempt_failure_run now identifier ip userName userEmail w)
    as Hrun.
  unfold after in *. rewrite Hrun. clear Hrun.
  destruct (LoginProtectionService.reaches_max _); [|now split].
  destruct userEmail as [e|], userName as [n|];
    try destruct (Str.nonempty e && Str.nonempty n); cbn; rewrite ?Ht, ?Ho;
    now split.
Qed.

(** What the attempt that brings the counter to [k] leaves in the outbox. *)
Lemma failed_login_step_outbox now identifier ip userName userEmail w k start :
  RateLimiter.counting LoginProtectionService.RATE_LIMIT_CONFIG
    (cache (after (RateLimiter.recordAttempt now ("login:" +:+ identifier) ip
                     LoginProtectionService.RATE_LIMIT_CONFIG) w))
    ("login:" +:+ identifier) ip k start now ->
  outbox (after (LoginProtectionService.recordLoginAttempt now
                   (LoginProtectionService.mkLoginAttemptParams
                      identifier ip false userName userEmail)) w)
  = if LoginProtectionService.MAX_ATTEMPTS <=? k
    then
      match userEmail, userName with
      | Some e, Some n =>
          if Str.nonempty e && Str.nonempty n
          then (outbox w ++
                [mkMail e "Conta temporariamente bloqueada - Tentativas de login suspeitas"
                        true (AccountBlockedMail n ip now 2)])%list
          else outbox w
      | _, _ => outbox w
      end
    else outbox w.
Proof.
  intros Hc.
  destruct (recordLoginAttempt_failure_rest now identifier ip userName userEmail w)
    as [_ ->].
  assert (Hread :
            CacheService.live now
              (cache (after (RateLimiter.recordAttempt now ("login:" +:+ identifier) ip
                               LoginProtectionService.RATE_LIMIT_CONFIG) w))
              (RateLimiter.attemptsKey ("login:" +:+ identifier) ip)
            = Some (VNum k)).
  { destruct Hc as [Ha _]. unfold CacheService.live. rewrite Ha.
    pose proof (ttl_positive k) as Hpos.
    assert (Hlt : (now <? now + RateLimiter.ttl_after
                                  LoginProtectionService.RATE_LIMIT_CONFIG k) = true)
      by (apply Z.ltb_lt; lia).
    now rewrite Hlt. }
  rewrite Hread. reflexivity.
Qed.

Lemma last_cons_default (t d : Z) (ts : list Z) :
  List.last (t :: ts) d = List.last ts t.
Proof.
  revert t d. induction ts as [|z ts IH]; intros t d; [reflexivity|].
  change (List.last (t :: z :: ts) d) with (List.last (z :: ts) d).
  now rewrite (IH z d), (IH z t).
Qed.

(** A run of failed logins in a running window: the counter grows by one
    per failure; as long as it stays below the maximum the account-block
    entries and the outbox are as they were. *)
Lemma failed_logins_chain identifier ip userName userEmail ts :
  forall w k start last,
    RateLimiter.counting LoginProtectionService.RATE_LIMIT_CONFIG (cache w)
      ("login:" +:+ identifier) ip k start last ->
    start <= last ->
    in_order_before last (start + LoginProtectionService.WINDOW_MS) ts ->
    RateLimiter.counting LoginProtectionService.RATE_LIMIT_CONFIG
      (cache (LoginProtectionService.failed_logins identifier ip userName userEmail
                ts w))
      ("login:" +:+ identifier) ip (k + Z.of_nat (length ts)) start
      (List.last ts last) /\
    (k + Z.of_nat (length ts) < LoginProtectionService.MAX_ATTEMPTS ->
     (forall a,
        cache (LoginProtectionService.failed_logins identifier ip userName userEmail
                 ts w)
          !! LoginProtectionService.getAccountBlockKey a
        = cache w !! LoginProtectionService.getAccountBlockKey a) /\
     outbox (LoginProtectionService.failed_logins identifier ip userName userEmail
               ts w)
     = outbox w).
Proof.
  induction ts as [|t ts IH]; intros w k start last Hc Hsl Hord.
  - cbn. rewrite Z.add_0_r. split; [exact Hc|]. now split.
  - destruct Hord as (Hlt & Htw & Hord).
    destruct (failed_login_next t identifier ip userName userEmail w k start last
                Hc Hsl Hlt Htw) as (Hc1 & Hframe & _).
    unfold LoginProtectionService.failed_logins in *. cbn [fold_left].
    destruct (IH _ (k + 1) start t Hc1 ltac:(lia) Hord) as (Hc2 & Hrest).
    replace (k + Z.of_nat (length (t :: ts))) with (k + 1 + Z.of_nat (length ts))
      by (cbn [length]; lia).
    rewrite last_cons_default. split.
    + exact Hc2.
    + intros Hbelow. destruct (Hrest Hbelow) as (Hacc & Hout).
      split.
      * intros a. rewrite Hacc. apply Hframe. lia.
      * rewrite Hout.
        assert (Hc0 : RateLimiter.counting LoginProtectionService.RATE_LIMIT_CONFIG
                        (cache (after (RateLimiter.recordAttempt t
                                         ("login:" +:+ identifier) ip
                                         LoginProtectionService.RATE_LIMIT_CONFIG) w))
                        ("login:" +:+ identifier) ip (k + 1) start t).
        { apply (recordAttempt_next _ _ _ _ _ _ _ _ Hc).
          - destruct (Z.lt_ge_cases k LoginProtectionService.MAX_ATTEMPTS) as [Hk | Hk].
            + rewrite (ttl_below _ Hk). lia.
            + rewrite (ttl_reached _ Hk).
              unfold LoginProtectionService.WINDOW_MS in Htw.
              unfold LoginProtectionService.BLOCK_TIME_MS. lia.
          - change (RateLimiter.windowMs LoginProtectionService.RATE_LIMIT_CONFIG)
              with LoginProtectionService.WINDOW_MS. lia. }
        rewrite (failed_login_step_outbox _ _ _ _ _ _ _ _ Hc0).
        assert (Hno : (LoginProtectionService.MAX_ATTEMPTS <=? k + 1) = false)
          by (apply Z.leb_gt; lia).
        now rewrite Hno.
Qed.

Lemma failed_login_first_outbox now identifier ip userName userEmail w :
  RateLimiter.fresh now LoginProtectionService.RATE_LIMIT_CONFIG (cache w)
    ("login:" +:+ identifier) ip ->
  outbox (after (LoginProtectionService.recordLoginAttempt now
                   (LoginProtectionService.mkLoginAttemptParams
                      identifier ip false userName userEmail)) w)
  = outbox w.
Proof.
  intros Hfresh. apply recordAttempt_fresh in Hfresh.
  now rewrite (failed_login_step_outbox _ _ _ _ _ _ _ _ Hfresh).
Qed.

Lemma in_order_last (last bound : Z) (ts : list Z) :
  in_order_before last bound ts -> last <= List.last ts last.
Proof.
  revert last. induction ts as [|z ts IH]; intros last Hord; [cbn; lia|].
  destruct Hord as (Hz & _ & Hord). rewrite last_cons_default.
  specialize (IH z Hord). lia.
Qed.

(** X11. Fewer than five failed logins never block: after a run of failed
    recordLoginAttempt calls for one identifier and address, started with no
    window running, made in order and within the 15-minute window, and fewer
    than MAX_ATTEMPTS in number, every account-block entry is as it was and
    no mail has been sent; the counter getFailedAttempts reads, up to the end
    of the window, is the number of failures. *)
Theorem fewer_failures_do_not_block
    (identifier ip : string) (userName userEmail : option string)
    (t1 : Z) (rest : list Z) (w0 : world) :
  RateLimiter.fresh t1 LoginProtectionService.RATE_LIMIT_CONFIG (cache w0)
    ("login:" +:+ identifier) ip ->
  in_order_before t1 (t1 + LoginProtectionService.WINDOW_MS) rest ->
  Z.of_nat (length (t1 :: rest)) < LoginProtectionService.MAX_ATTEMPTS ->
  (forall a,
     cache (LoginProtectionService.failed_logins identifier ip userName userEmail
              (t1 :: rest) w0)
       !! LoginProtectionService.getAccountBlockKey a
     = cache w0 !! LoginProtectionService.getAccountBlockKey a) /\
  outbox (LoginProtectionService.failed_logins identifier ip userName userEmail
            (t1 :: rest) w0)
  = outbox w0 /\
  (forall t,
     List.last rest t1 <= t -> t < t1 + LoginProtectionService.WINDOW_MS ->
     outcome (LoginProtectionService.getFailedAttempts t identifier ip)
       (LoginProtectionService.failed_logins identifier ip userName userEmail
          (t1 :: rest) w0)
     = Ok (VNum (Z.of_nat (length (t1 :: rest))))).
Proof.
  intros Hfresh Hord Hlen.
  destruct (failed_login_first t1 identifier ip userName userEmail w0 Hfresh)
    as [Hc1 Hacc1].
  pose proof (failed_login_first_outbox t1 identifier ip userName userEmail w0 Hfresh)
    as Hout1.
  destruct (failed_logins_chain identifier ip userName userEmail rest _ 1 t1 t1
              Hc1 ltac:(lia) Hord) as (Hc & Hrest).
  replace (1 + Z.of_nat (length rest)) with (Z.of_nat (length (t1 :: rest))) in *
    by (cbn [length]; lia).
  destruct (Hrest Hlen) as (Hacc & Hout).
  change (LoginProtectionService.failed_logins identifier ip userName userEmail
            (t1 :: rest) w0)
    with (LoginProtectionService.failed_logins identifier ip userName userEmail rest
            (after (LoginProtectionService.recordLoginAttempt t1
                      (LoginProtectionService.mkLoginAttemptParams
                         identifier ip false userName userEmail)) w0)).
  split; [intros a; now rewrite Hacc, Hacc1|].
  split; [now rewrite Hout, Hout1|].
  intros t Hlast Ht.
  unfold outcome, LoginProtectionService.getFailedAttempts, bind, CacheService.get, ret.
  cbn [fst snd]. rewrite failed_attempts_key.
  destruct Hc as [Ha _]. unfold CacheService.live. rewrite Ha.
  rewrite (ttl_below _ Hlen).
  assert (Hlt : (t <? List.last rest t1 + LoginProtectionService.WINDOW_MS) = true).
  { apply Z.ltb_lt. pose proof (in_order_last _ _ _ Hord). lia. }
  now rewrite Hlt.
Qed.

(** The limiter's own block, set by the attempt that reaches the maximum. *)
Lemma recordAttempt_block now identifier ip config w k start :
  match RateLimiter.state now (cache w) identifier ip with
  | Some (a, start0) =>
      if RateLimiter.windowMs config <? now - start0
      then (1, now) else (a + 1, start0)
  | None => (1, now)
  end = (k, start) ->
  RateLimiter.maxAttempts config <= k ->
  cache (after (RateLimiter.recordAttempt now identifier ip config) w)
    !! RateLimiter.blockedKey identifier ip
  = Some (VNum (now + RateLimiter.blockTimeMs config),
          now + RateLimiter.blockTimeMs config).
Proof.
  intros Hk Hmax. unfold after, RateLimiter.recordAttempt. rewrite Hk.
  apply Z.leb_le in Hmax. rewrite Hmax. cbn. apply lookup_insert_eq.
Qed.

Lemma failed_login_blocks_limiter now identifier ip userName userEmail w k start last :
  RateLimiter.counting LoginProtectionService.RATE_LIMIT_CONFIG (cache w)
    ("login:" +:+ identifier) ip k start last ->
  start <= last -> last <= now -> now < start + LoginProtectionService.WINDOW_MS ->
  LoginProtectionService.MAX_ATTEMPTS <= k + 1 ->
  cache (after (LoginProtectionService.recordLoginAttempt now
                  (LoginProtectionService.mkLoginAttemptParams
                     identifier ip false userName userEmail)) w)
    !! RateLimiter.blockedKey ("login:" +:+ identifier) ip
  = Some (VNum (now + LoginProtectionService.BLOCK_TIME_MS),
          now + LoginProtectionService.BLOCK_TIME_MS).
Proof.
  intros Hc Hsl Hln Hwin Hmax.
  destruct (recordLoginAttempt_failure now identifier ip userName userEmail w)
    as (_ & _ & ->).
  assert (Hb : cache (after (RateLimiter.recordAttempt now ("login:" +:+ identifier) ip
                               LoginProtectionService.RATE_LIMIT_CONFIG) w)
                 !! RateLimiter.blockedKey ("login:" +:+ identifier) ip
               = Some (VNum (now + LoginProtectionService.BLOCK_TIME_MS),
                       now + LoginProtectionService.BLOCK_TIME_MS)).
  { change LoginProtectionService.BLOCK_TIME_MS
      with (RateLimiter.blockTimeMs LoginProtectionService.RATE_LIMIT_CONFIG).
    apply (recordAttempt_block _ _ _ _ _ (k + 1) start); [|exact Hmax].
    rewrite (counting_state _ _ _ _ _ _ _ now Hc).
    - assert (Hin : (RateLimiter.windowMs LoginProtectionService.RATE_LIMIT_CONFIG
                     <? now - start) = false).
      { apply Z.ltb_ge.
        change (RateLimiter.windowMs LoginProtectionService.RATE_LIMIT_CONFIG)
          with LoginProtectionService.WINDOW_MS. lia. }
      now rewrite Hin.
    - destruct (Z.lt_ge_cases k LoginProtectionService.MAX_ATTEMPTS) as [Hk | Hk].
      + rewrite (ttl_below _ Hk). lia.
      + rewrite (ttl_reached _ Hk).
        unfold LoginProtectionService.WINDOW_MS in Hwin.
        unfold LoginProtectionService.BLOCK_TIME_MS. lia. }
  destruct (LoginProtectionService.reaches_max _); [|exact Hb].
  rewrite lookup_insert_ne by auto with keys. exact Hb.
Qed.

(** A check that finds neither a block nor a record answers as for a fresh
    state, and writes nothing. *)
Lemma check_fresh now identifier ip config w :
  RateLimiter.blocked now (cache w) identifier ip = None ->
  RateLimiter.state now (cache w) identifier ip = None ->
  RateLimiter.check now identifier ip config w
  = (Ok (RateLimiter.mkCheckResult (0 <? RateLimiter.maxAttempts config)
           (RateLimiter.maxAttempts config) None), w).
Proof.
  intros Hb Hs. unfold RateLimiter.check. now rewrite Hb, Hs.
Qed.

(** X12. The block lifts by itself.  After the five failed logins that set
    the account block (in order, within the window, from a state with no
    window running), a checkLoginAttempt for the same identifier and address
    made two hours or more after the fifth failure answers allowed=true,
    isBlocked=false, with the full five attempts remaining: by then the
    account block, the limiter's 30-minute block and its counter have all
    expired. *)
Theorem account_block_lifts_after_two_hours
    (identifier ip : string) (userName userEmail : option string)
    (t1 t2 t3 t4 t5 t : Z) (w0 : world) :
  RateLimiter.fresh t1 LoginProtectionService.RATE_LIMIT_CONFIG (cache w0)
    ("login:" +:+ identifier) ip ->
  t1 <= t2 -> t2 <= t3 -> t3 <= t4 -> t4 <= t5 ->
  t5 < t1 + LoginProtectionService.WINDOW_MS ->
  t5 + LoginProtectionService.EXTENDED_BLOCK_TIME_MS <= t ->
  LoginProtectionService.checkLoginAttempt t identifier ip
    (LoginProtectionService.failed_logins identifier ip userName userEmail
       [t1; t2; t3; t4; t5] w0)
  = (Ok (LoginProtectionService.mkLoginProtectionResult true 5 None false),
     LoginProtectionService.failed_logins identifier ip userName userEmail
       [t1; t2; t3; t4; t5] w0).
Proof.
  intros Hfresh H12 H23 H34 H45 Hwin Ht.
  destruct (failed_login_first t1 identifier ip userName userEmail w0 Hfresh)
    as [C1 _].
  destruct (failed_logins_chain identifier ip userName userEmail [t2; t3; t4]
              _ 1 t1 t1 C1 ltac:(lia)) as (C4 & _).
  { cbn. repeat split; lia. }
  cbn [length List.last] in C4. change (1 + Z.of_nat 3) with 4 in C4.
  pose proof (failed_login_next t5 identifier ip userName userEmail _ 4 t1 t4 C4
                ltac:(lia) ltac:(lia) ltac:(lia)) as (C5 & _ & Hacct).
  pose proof (failed_login_blocks_limiter t5 identifier ip userName userEmail _ 4 t1 t4
                C4 ltac:(lia) ltac:(lia) ltac:(lia) ltac:(reflexivity)) as Hblock.
  specialize (Hacct ltac:(reflexivity)).
  change (after (LoginProtectionService.recordLoginAttempt t5
                   (LoginProtectionService.mkLoginAttemptParams
                      identifier ip false userName userEmail))
            (LoginProtectionService.failed_logins identifier ip userName userEmail
               [t2; t3; t4]
               (after (LoginProtectionService.recordLoginAttempt t1
                         (LoginProtectionService.mkLoginAttemptParams
                            identifier ip false userName userEmail)) w0)))
    with (LoginProtectionService.failed_logins identifier ip userName userEmail
            [t1; t2; t3; t4; t5] w0) in *.
  set (w5 := LoginProtectionService.failed_logins identifier ip userName userEmail
               [t1; t2; t3; t4; t5] w0) in *.
  change (4 + 1) with 5 in C5.
  destruct C5 as [Ha Hw].
  rewrite (ttl_reached 5) in Ha, Hw by reflexivity.
  unfold LoginProtectionService.EXTENDED_BLOCK_TIME_MS in Ht.
  assert (Hlate : forall e, e <= t5 + LoginProtectionService.BLOCK_TIME_MS ->
                            (t <? e) = false).
  { intros e He. apply Z.ltb_ge.
    unfold LoginProtectionService.BLOCK_TIME_MS in He. lia. }
  assert (Hcheck :
            RateLimiter.check t ("login:" +:+ identifier) ip
              LoginProtectionService.RATE_LIMIT_CONFIG w5
            = (Ok (RateLimiter.mkCheckResult true 5 None), w5)).
  { apply check_fresh.
    - unfold RateLimiter.blocked, CacheService.live. rewrite Hblock.
      now rewrite (Hlate _ (Z.le_refl _)).
    - unfold RateLimiter.state, CacheService.live. rewrite Ha.
      now rewrite (Hlate _ (Z.le_refl _)). }
  assert (Hout : outcome (RateLimiter.check t ("login:" +:+ identifier) ip
                            LoginProtectionService.RATE_LIMIT_CONFIG) w5
                 = Ok (RateLimiter.mkCheckResult true 5 None))
    by (unfold outcome; now rewrite Hcheck).
  rewrite (checkLoginAttempt_run _ _ _ _ _ Hout).
  unfold after. rewrite Hcheck. cbn [snd].
  unfold CacheService.live. rewrite Hacct.
  assert (Hgone : (t <? t5 + LoginProtectionService.EXTENDED_BLOCK_TIME_MS) = false)
    by (apply Z.ltb_ge; unfold LoginProtectionService.EXTENDED_BLOCK_TIME_MS; lia).
  now rewrite Hgone.
Qed.

(** X13. The notice of the block is mailed once, by the fifth failure, and
    only when both a non-empty user name and a non-empty address were passed
    to recordLoginAttempt: the four failures before it send nothing, and
    AuthService.login passes neither for an unknown or inactive account. *)
Theorem block_mail_on_the_fifth_failure
    (identifier ip : string) (userName userEmail : option string)
    (t1 t2 t3 t4 t5 : Z) (w0 : world) :
  RateLimiter.fresh t1 LoginProtectionService.RATE_LIMIT_CONFIG (cache w0)
    ("login:" +:+ identifier) ip ->
  t1 <= t2 -> t2 <= t3 -> t3 <= t4 -> t4 <= t5 ->
  t5 < t1 + LoginProtectionService.WINDOW_MS ->
  outbox (LoginProtectionService.failed_logins identifier ip userName userEmail
            [t1; t2; t3; t4] w0)
  = outbox w0 /\
  outbox (LoginProtectionService.failed_logins identifier ip userName userEmail
            [t1; t2; t3; t4; t5] w0)
  = match userEmail, userName with
    | Some e, Some n =>
        if Str.nonempty e && Str.nonempty n
        then (outbox w0 ++
              [mkMail e "Conta temporariamente bloqueada - Tentativas de login suspeitas"
                      true (AccountBlockedMail n ip t5 2)])%list
        else outbox w0
    | _, _ => outbox w0
    end.
Proof.
  intros Hfresh H12 H23 H34 H45 Hwin.
  destruct (failed_login_first t1 identifier ip userName userEmail w0 Hfresh)
    as [C1 _].
  pose proof (failed_login_first_outbox t1 identifier ip userName userEmail w0 Hfresh)
    as Hout1.
  destruct (failed_logins_chain identifier ip userName userEmail [t2; t3; t4]
              _ 1 t1 t1 C1 ltac:(lia)) as (C4 & Hrest).
  { cbn. repeat split; lia. }
  cbn [length List.last] in C4, Hrest. change (1 + Z.of_nat 3) with 4 in C4, Hrest.
  destruct (Hrest ltac:(reflexivity)) as (_ & Hout4).
  set (w4 := LoginProtectionService.failed_logins identifier ip userName userEmail
               [t2; t3; t4]
               (after (LoginProtectionService.recordLoginAttempt t1
                         (LoginProtectionService.mkLoginAttemptParams
                            identifier ip false userName userEmail)) w0)) in *.
  assert (Hfour : outbox w4 = outbox w0) by (now rewrite Hout4, Hout1).
  split; [exact Hfour|].
  change (LoginProtectionService.failed_logins identifier ip userName userEmail
            [t1; t2; t3; t4; t5] w0)
    with (after (LoginProtectionService.recordLoginAttempt t5
                   (LoginProtectionService.mkLoginAttemptParams
                      identifier ip false userName userEmail)) w4).
  assert (C5 : RateLimiter.counting LoginProtectionService.RATE_LIMIT_CONFIG
                 (cache (after (RateLimiter.recordAttempt t5
                                  ("login:" +:+ identifier) ip
                                  LoginProtectionService.RATE_LIMIT_CONFIG) w4))
                 ("login:" +:+ identifier) ip (4 + 1) t1 t5).
  { apply (recordAttempt_next _ _ _ _ _ _ _ _ C4).
    - rewrite (ttl_below 4) by reflexivity. lia.
    - change (RateLimiter.windowMs LoginProtectionService.RATE_LIMIT_CONFIG)
        with LoginProtectionService.WINDOW_MS. lia. }
  rewrite (failed_login_step_outbox _ _ _ _ _ _ _ _ C5).
  change (LoginProtectionService.MAX_ATTEMPTS <=? 4 + 1) with true.
  cbv beta iota. now rewrite Hfour.
Qed.

(** ** The failure counter of AppKeyService *)

Lemma handleFailedAttempt_cache now key ip w :
  cache (after (AppKeyService.handleFailedAttempt now key ip) w)
  = <[AppKeyService.rateKey ip key :=
        AppKeyAttempts.rate_entry now (CacheService.live now (cache w) (AppKeyService.rateKey ip key))]>
      (cache w).
Proof.
  unfold after, AppKeyService.handleFailedAttempt, AppKeyService.incrementRateLimit,
    bind, CacheService.get, AppKeyAttempts.rate_entry.
  cbn [fst snd].
  destruct (CacheService.live now (cache w) (AppKeyService.rateKey ip key))
    as [[s | n | d | u] |]; reflexivity.
Qed.

Lemma failed_use_next now key ip w k first last :
  cache w !! AppKeyService.rateKey ip key = Some (AppKeyAttempts.rate_record k first last) ->
  last <= now -> now < last + minutes 1 ->
  cache (after (AppKeyService.handleFailedAttempt now key ip) w)
    !! AppKeyService.rateKey ip key
  = Some (AppKeyAttempts.rate_record (k + 1) first now).
Proof.
  intros Hrec Hle Hlt. rewrite handleFailedAttempt_cache, lookup_insert_eq.
  unfold CacheService.live. rewrite Hrec. unfold AppKeyAttempts.rate_record at 1.
  assert (Hlive : (now <? last + (if AppKeyService.MAX_ATTEMPTS <=? k
                                  then minutes 15 else minutes 1)) = true).
  { apply Z.ltb_lt. unfold minutes in *.
    destruct (AppKeyService.MAX_ATTEMPTS <=? k); lia. }
  rewrite Hlive. reflexivity.
Qed.

Lemma failed_uses_chain key ip ts :
  forall w k first last,
    cache w !! AppKeyService.rateKey ip key = Some (AppKeyAttempts.rate_record k first last) ->
    each_within last (minutes 1) ts ->
    cache (AppKeyAttempts.failed_uses key ip ts w) !! AppKeyService.rateKey ip key
    = Some (AppKeyAttempts.rate_record (k + Z.of_nat (length ts)) first (List.last ts last)).
Proof.
  induction ts as [|t ts IH]; intros w k first last Hrec Hord.
  - cbn. now rewrite Z.add_0_r.
  - destruct Hord as (Hle & Hlt & Hord).
    pose proof (failed_use_next t key ip w k first last Hrec Hle Hlt) as Hnext.
    unfold AppKeyAttempts.failed_uses in *. cbn [fold_left].
    rewrite (IH _ (k + 1) first t Hnext Hord), last_cons_default.
    f_equal. f_equal. cbn [length]. lia.
Qed.

(** The record the failures leave depends on the world they start from only
    through the entry under the rate key. *)
Lemma failed_uses_agree key ip ts :
  forall w w',
    cache w !! AppKeyService.rateKey ip key = cache w' !! AppKeyService.rateKey ip key ->
    cache (AppKeyAttempts.failed_uses key ip ts w) !! AppKeyService.rateKey ip key
    = cache (AppKeyAttempts.failed_uses key ip ts w') !! AppKeyService.rateKey ip key.
Proof.
  induction ts as [|t ts IH]; intros w w' Heq; [exact Heq|].
  unfold AppKeyAttempts.failed_uses in *. cbn [fold_left]. apply IH.
  rewrite !handleFailedAttempt_cache, !lookup_insert_eq.
  unfold CacheService.live. now rewrite Heq.
Qed.

(** X14. The failure counter of an API key slides: in a run of
    handleFailedAttempt calls for one key and address that starts with no
    live record, each failure less than a minute after the one before, the
    record counts every failure and keeps the first one's instant as
    firstAttempt - however long the run has lasted; from the fifth failure
    on it carries blockedUntil = the last failure + 900 s and lives 15
    minutes instead of one. *)
Theorem key_failures_accumulate (key ip : string) (t1 : Z) (rest : list Z) (w0 : world) :
  CacheService.live t1 (cache w0) (AppKeyService.rateKey ip key) = None ->
  each_within t1 (minutes 1) rest ->
  cache (AppKeyAttempts.failed_uses key ip (t1 :: rest) w0)
    !! AppKeyService.rateKey ip key
  = Some (VRate (mkRateLimitData
                   (Z.of_nat (length (t1 :: rest))) t1
                   (if 5 <=? Z.of_nat (length (t1 :: rest))
                    then Some (List.last rest t1 + 900000) else None)),
          List.last rest t1
          + (if 5 <=? Z.of_nat (length (t1 :: rest)) then 900000 else 60000)).
Proof.
  intros Hnone Hord.
  assert (H1 : cache (after (AppKeyService.handleFailedAttempt t1 key ip) w0)
                 !! AppKeyService.rateKey ip key
               = Some (AppKeyAttempts.rate_record 1 t1 t1)).
  { rewrite handleFailedAttempt_cache, lookup_insert_eq, Hnone. reflexivity. }
  change (AppKeyAttempts.failed_uses key ip (t1 :: rest) w0)
    with (AppKeyAttempts.failed_uses key ip rest
            (after (AppKeyService.handleFailedAttempt t1 key ip) w0)).
  rewrite (failed_uses_chain key ip rest _ 1 t1 t1 H1 Hord).
  replace (Z.of_nat (length (t1 :: rest))) with (1 + Z.of_nat (length rest))
    by (cbn [length]; lia).
  unfold AppKeyAttempts.rate_record.
  change AppKeyService.MAX_ATTEMPTS with 5.
  change (seconds AppKeyService.BLOCK_DURATION) with 900000.
  change (minutes 15) with 900000. change (minutes 1) with 60000.
  reflexivity.
Qed.

(** X15. A successful use of a key does not reset its failure counter:
    handleSuccessfulAttempt deletes the entry failed_attempts:<key>, which
    handleFailedAttempt never writes, so the rate record after failures, a
    success and further failures is the one the failures alone leave. *)
Theorem successful_use_keeps_the_failure_count
    (key ip : string) (ts1 ts2 : list Z) (w : world) :
  cache (AppKeyAttempts.failed_uses key ip ts2
           (after (AppKeyAttempts.handleSuccessfulAttempt key)
              (AppKeyAttempts.failed_uses key ip ts1 w)))
    !! AppKeyService.rateKey ip key
  = cache (AppKeyAttempts.failed_uses key ip (ts1 ++ ts2) w)
      !! AppKeyService.rateKey ip key.
Proof.
  unfold AppKeyAttempts.failed_uses at 3. rewrite fold_left_app.
  apply failed_uses_agree.
  unfold after, AppKeyAttempts.handleSuccessfulAttempt, CacheService.delete, modify.
  cbn [fst snd cache with_cache].
  apply lookup_delete_ne. unfold AppKeyService.rateKey. key_neq.
Qed.

(** ** The blacklist and the anonymization of an account *)

Lemma find_snoc {A : Type} (p : A -> bool) (l : list A) (x : A) :
  find p (l ++ [x])%list
  = match find p l with
    | Some y => Some y
    | None => if p x then Some x else None
    end.
Proof.
  induction l as [|y l IH]; [reflexivity|].
  cbn. destruct (p y); [reflexivity | exact IH].
Qed.

(** X16. addToBlacklist and isBlacklisted.  For a user that is not marked
    deleted the call appends one row - the user's id as a string and the
    SHA-256 hex digest of the e-mail address (of the user name when there is
    no address) - and answers normally; from then on isBlacklisted answers
    true for that address, as given, and every address that was blacklisted
    still is.  isBlacklisted itself changes nothing. *)
Theorem addToBlacklist_then_isBlacklisted
    (u : User) (table : list BlacklistService.AuthDeleted) :
  default false (isDeleted u) = false ->
  BlacklistService.addToBlacklist (Some u) table
  = (Ok tt,
     (table ++ [BlacklistService.mkAuthDeleted
                  (pretty (id u))
                  (Sha256.digest_hex (Str.or_else (email u) (username u)))])%list) /\
  BlacklistService.isBlacklisted (Str.or_else (email u) (username u))
    (snd (BlacklistService.addToBlacklist (Some u) table))
  = (Ok true, snd (BlacklistService.addToBlacklist (Some u) table)) /\
  (forall e,
     fst (BlacklistService.isBlacklisted e table) = Ok true ->
     fst (BlacklistService.isBlacklisted e
            (snd (BlacklistService.addToBlacklist (Some u) table)))
     = Ok true).
Proof.
  intros Hlive.
  assert (Hadd : BlacklistService.addToBlacklist (Some u) table
                 = (Ok tt,
                    (table ++ [BlacklistService.mkAuthDeleted
                                 (pretty (id u))
                                 (Sha256.digest_hex
                                    (Str.or_else (email u) (username u)))])%list)).
  { unfold BlacklistService.addToBlacklist, BlacklistService.addToBlacklist_body.
    now rewrite Hlive. }
  split; [exact Hadd|]. rewrite Hadd. cbn [snd].
  unfold BlacklistService.isBlacklisted, BlacklistService.hashValue.
  split.
  - rewrite find_snoc. cbn [BlacklistService.userEmail].
    rewrite String.eqb_refl.
    now destruct (find _ table).
  - intros e. cbn [fst]. rewrite find_snoc.
    destruct (find _ table); [reflexivity | discriminate].
Qed.

Section Anonymization.
Context `{Externals}.

Lemma revokeAllTokens_run (user : User) (w : world) :
  TokenRevocation.revokeAllTokens user w
  = (Ok true,
     after (SharedCache.invalidateUser (Some (id user)))
       (after (TokenService.revokeAllAccessTokens user) w)).
Proof using Type. reflexivity. Qed.

(** X17. anonymize never completes.  The merge marks the row isDeleted
    before addToBlacklist is called, and addToBlacklist refuses a row marked
    deleted; its catch turns the refusal into the 500 'Falha ao adicionar
    usuário à lista negra'.  So for every user and every state the call
    throws that exception, the auth_deleteds table is left as it was - the
    address is never blacklisted - while the scrubbed row has been saved and
    the user's access tokens revoked. *)
Theorem anonymize_always_fails
    (randomPassword : string) (user : User) (s : UserAnonymizationService.store) :
  fst (UserAnonymizationService.anonymize randomPassword user s)
  = Throw (Exception "Falha ao adicionar usuário à lista negra" 500) /\
  UserAnonymizationService.st_authDeleteds
    (snd (UserAnonymizationService.anonymize randomPassword user s))
  = UserAnonymizationService.st_authDeleteds s /\
  users (UserAnonymizationService.st_world
           (snd (UserAnonymizationService.anonymize randomPassword user s)))
  = map (fun v => if id v =? id user
                  then UserAnonymizationService.anonymized randomPassword user
                  else v)
        (users (UserAnonymizationService.st_world s)) /\
  filter (fun t => tokenableId t =? id user)
    (accessTokens (UserAnonymizationService.st_world
                     (snd (UserAnonymizationService.anonymize randomPassword user s))))
  = [].
Proof using Type.
  unfold UserAnonymizationService.anonymize.
  set (u := UserAnonymizationService.anonymized randomPassword user).
  assert (Hrun : (Db.save u ;;; TokenRevocation.revokeAllTokens u)
                   (UserAnonymizationService.st_world s)
                 = (Ok true,
                    after (SharedCache.invalidateUser (Some (id u)))
                      (after (TokenService.revokeAllAccessTokens u)
                         (after (Db.save u) (UserAnonymizationService.st_world s)))))
    by reflexivity.
  rewrite Hrun. cbv beta iota.
  change (BlacklistService.addToBlacklist (Some u)
            (UserAnonymizationService.st_authDeleteds s))
    with (@Throw unit BlacklistService.add_failure,
          UserAnonymizationService.st_authDeleteds s).
  cbv beta iota. cbn [fst snd UserAnonymizationService.st_authDeleteds
                        UserAnonymizationService.st_world].
  split; [reflexivity|]. split; [reflexivity|].
  split; [reflexivity|].
  change (id u) with (id user).
  apply filter_own_of_others.
Qed.

End Anonymization.

(** ** UserService: reads after writes *)

Section Users.
Context `{Externals}.

Lemma invalidateUser_miss (now i : Z) (w : world) :
  CacheService.live now (cache (after (SharedCache.invalidateUser (Some i)) w))
    (userKey i) = None.
Proof using Type.
  unfold CacheService.live, after, SharedCache.invalidateUser, bind,
    CacheService.delete, modify.
  cbn [fst snd cache with_cache].
  destruct (decide (listKey = userKey i)) as [-> | Hne].
  - now rewrite lookup_delete_eq.
  - now rewrite lookup_delete_ne, lookup_delete_eq.
Qed.

Lemma invalidateUser_rest (i : Z) (w : world) :
  users (after (SharedCache.invalidateUser (Some i)) w) = users w /\
  accessTokens (after (SharedCache.invalidateUser (Some i)) w) = accessTokens w /\
  outbox (after (SharedCache.invalidateUser (Some i)) w) = outbox w.
Proof using Type. now repeat split. Qed.

(** A read that misses the cache and finds the row: the row is answered and
    its serialization cached for an hour. *)
Lemma findById_miss (now i : Z) (w : world) (u : User) :
  CacheService.live now (cache w) (userKey i) = None ->
  find (UserTable.id_is i) (users w) = Some u ->
  UserService.findById now i w
  = (Ok (VUser u),
     with_cache (<[userKey i := (VUser (serialize u), now + 3600000)]> (cache w)) w).
Proof using Type.
  intros Hmiss Hrow.
  unfold UserService.findById, bind, CacheService.get. cbn [fst snd].
  rewrite Hmiss.
  unfold UserTable.findOrFail, Db.firstOrFail, Db.first, bind. cbn [fst snd].
  rewrite Hrow. reflexivity.
Qed.


Lemma find_by_id_after_save (u u' : User) (us : list User) :
  find (UserTable.id_is (id u')) us = Some u ->
  find (UserTable.id_is (id u'))
       (map (fun v => if id v =? id u' then u' else v) us)
  = Some u'.
Proof using Type.
  intros Hfind. apply (find_after_save _ u u' us Hfind).
  - apply find_some in Hfind as [_ Hid]. unfold UserTable.id_is in Hid.
    apply Z.eqb_eq in Hid. now symmetry.
  - unfold UserTable.id_is. apply Z.eqb_refl.
Qed.


Lemma find_none_after_delete (i : Z) (us : list User) :
  find (UserTable.id_is i) (filter (fun v => negb (id v =? i)) us) = None.
Proof using Type.
  induction us as [|v us IH]; [reflexivity|].
  rewrite (filter_cons _ v us).
  destruct (decide (negb (id v =? i))) as [Hv | Hv]; [|exact IH].
  cbn [find]. unfold UserTable.id_is at 1.
  destruct (id v =? i); [contradiction Hv | exact IH].
Qed.

(** X19. A deleted user is gone for every later read: delete answers true,
    and findById for that id then throws E_ROW_NOT_FOUND at any instant -
    the cache entry was invalidated and no row of that id is left - and
    writes nothing. *)
Theorem delete_then_findById (user : User) (now : Z) (w : world) :
  outcome (UserService.delete user) w = Ok true /\
  UserService.findById now (id user) (after (UserService.delete user) w)
  = (Throw E_ROW_NOT_FOUND, after (UserService.delete user) w) /\
  accessTokens (after (UserService.delete user) w) = accessTokens w.
Proof using Type.
  split; [reflexivity|]. split; [|reflexivity].
  set (w1 := after (UserService.delete user) w).
  assert (Hmiss : CacheService.live now (cache w1) (userKey (id user)) = None)
    by apply (invalidateUser_miss now (id user) w).
  assert (Hrow : find (UserTable.id_is (id user)) (users w1) = None)
    by apply find_none_after_delete.
  unfold UserService.findById, bind, CacheService.get. cbn [fst snd].
  rewrite Hmiss.
  unfold UserTable.findOrFail, Db.firstOrFail, Db.first, bind. cbn [fst snd].
  now rewrite Hrow.
Qed.

(** X20. An account that went through anonymize is refused by getMe: the
    call threw, but the scrubbed row (inactive, deleted) was saved and the
    cache entry invalidated before it did, so getMe reads the row and throws
    the 403 'Usuário inativo'. *)
Theorem getMe_after_anonymize
    (randomPassword : string) (user row : User) (now : Z)
    (s : UserAnonymizationService.store) :
  find (UserTable.id_is (id user)) (users (UserAnonymizationService.st_world s))
  = Some row ->
  outcome (UserService.getMe now user)
    (UserAnonymizationService.st_world
       (snd (UserAnonymizationService.anonymize randomPassword user s)))
  = Throw (Exception "Usuário inativo" 403).
Proof using Type.
  intros Hrow.
  set (u := UserAnonymizationService.anonymized randomPassword user).
  set (w0 := UserAnonymizationService.st_world s) in *.
  assert (Hworld : UserAnonymizationService.st_world
                     (snd (UserAnonymizationService.anonymize randomPassword user s))
                   = after (SharedCache.invalidateUser (Some (id user)))
                       (after (TokenService.revokeAllAccessTokens u)
                          (after (Db.save u) w0)))
    by reflexivity.
  rewrite Hworld. clear Hworld.
  set (w1 := after (SharedCache.invalidateUser (Some (id user))) _).
  assert (Hmiss : CacheService.live now (cache w1) (userKey (id user)) = None)
    by apply invalidateUser_miss.
  assert (Hsaved : find (UserTable.id_is (id user)) (users w1) = Some u)
    by (apply (find_by_id_after_save row u (users w0)); exact Hrow).
  pose proof (findById_miss now (id user) w1 u Hmiss Hsaved) as Hread.
  unfold outcome, UserService.getMe, bind. rewrite Hread. reflexivity.
Qed.

End Users.

(** ** AuthService.login: the refusal of a blocked account, and a success *)

Section LoginOutcomes.
Context `{Externals}.

(** The run of a login that the protection check refuses. *)
Lemma login_refused_run now params w r :
  Str.nonempty (AuthService.email params) = true ->
  Str.nonempty (AuthService.password params) = true ->
  outcome (LoginProtectionService.checkLoginAttempt now
             (Str.normalize (AuthService.email params))
             (default "unknown" (AuthService.ip params))) w = Ok r ->
  LoginProtectionService.allowed r = false ->
  AuthService.login now params w
  = (Throw (if LoginProtectionService.isBlocked r
            then AuthService.account_blocked
            else AuthService.too_many_attempts
                   (LoginProtectionService.attemptsRemaining r)),
     after (LoginProtectionService.checkLoginAttempt now
              (Str.normalize (AuthService.email params))
              (default "unknown" (AuthService.ip params))) w).
Proof using Type.
  intros Hemail Hpassword Hr Hallowed.
  unfold AuthService.login. rewrite Hemail, Hpassword. cbn [negb orb].
  unfold bind at 1. rewrite run_eq, Hr, Hallowed. cbn [negb].
  now destruct (LoginProtectionService.isBlocked r).
Qed.

(** X21. While an account block is live, login refuses before it looks at
    the users table or at the password: with credentials present, the call
    throws the 403 'Conta temporariamente bloqueada ...' whatever the
    password and the address, and the world it leaves is the one the
    limiter's check leaves - no attempt is recorded, no token issued, no row
    or mail written. *)
Theorem blocked_account_login_refused
    (now b : Z) (params : AuthService.LoginParams) (w : world) :
  Str.nonempty (AuthService.email params) = true ->
  Str.nonempty (AuthService.password params) = true ->
  CacheService.live now (cache w)
    (LoginProtectionService.getAccountBlockKey
       (Str.normalize (AuthService.email params))) = Some (VNum b) ->
  now < b ->
  outcome (AuthService.login now params) w
  = Throw (Exception
             ("Conta temporariamente bloqueada devido a múltiplas tentativas de login. "
              +:+ "Verifique seu email.") 403) /\
  after (AuthService.login now params) w
  = after (RateLimiter.check now
             ("login:" +:+ Str.normalize (AuthService.email params))
             (default "unknown" (AuthService.ip params))
             LoginProtectionService.RATE_LIMIT_CONFIG) w /\
  users (after (AuthService.login now params) w) = users w /\
  accessTokens (after (AuthService.login now params) w) = accessTokens w /\
  outbox (after (AuthService.login now params) w) = outbox w.
Proof using Type.
  intros Hemail Hpassword Hlive Hlt.
  set (identifier := Str.normalize (AuthService.email params)) in *.
  set (ip := default "unknown" (AuthService.ip params)).
  destruct (check_outcome now ("login:" +:+ identifier) ip
              LoginProtectionService.RATE_LIMIT_CONFIG w) as [r Hr].
  assert (Hlive' :
            CacheService.live now
              (cache (after (RateLimiter.check now ("login:" +:+ identifier) ip
                               LoginProtectionService.RATE_LIMIT_CONFIG) w))
              (LoginProtectionService.getAccountBlockKey identifier)
            = Some (VNum b)).
  { rewrite <- Hlive. apply live_lookup, check_frame, account_key_not_limiter. }
  pose proof (checkLoginAttempt_run now identifier ip w r Hr) as Hcheck.
  rewrite Hlive' in Hcheck. apply Z.ltb_lt in Hlt. rewrite Hlt in Hcheck.
  assert (Hout : outcome (LoginProtectionService.checkLoginAttempt now identifier ip) w
                 = Ok (LoginProtectionService.mkLoginProtectionResult
                         false 0 (if truthy (VNum b) then Some b else None) true))
    by (unfold outcome; now rewrite Hcheck).
  assert (Hafter : after (LoginProtectionService.checkLoginAttempt now identifier ip) w
                   = after (RateLimiter.check now ("login:" +:+ identifier) ip
                              LoginProtectionService.RATE_LIMIT_CONFIG) w)
    by (unfold after at 1; now rewrite Hcheck).
  pose proof (login_refused_run now params w _ Hemail Hpassword Hout eq_refl) as Hrun.
  unfold outcome, after at 1 3 4 5. rewrite Hrun. cbn [fst snd].
  fold identifier ip. rewrite Hafter.
  split; [reflexivity|]. split; [reflexivity|].
  apply check_rest.
Qed.

(** The run of a login whose credentials are accepted. *)
Lemma login_success_run now params w r u authUser :
  Str.nonempty (AuthService.email params) = true ->
  Str.nonempty (AuthService.password params) = true ->
  outcome (LoginProtectionService.checkLoginAttempt now
             (Str.normalize (AuthService.email params))
             (default "unknown" (AuthService.ip params))) w = Ok r ->
  LoginProtectionService.allowed r = true ->
  find (fun u => Db.email_is (AuthService.email params) u
                 || Db.username_is (AuthService.email params) u) (users w) = Some u ->
  AuthService.isActive_user u = true ->
  verifyCredentials (users w) (AuthService.email params) (AuthService.password params)
  = Ok (Some authUser) ->
  AuthService.login now params w
  = (Ok (AuthService.mkLoginResult
           (mkAccessToken (id authUser) "access_token" ["*"] 86400 now)
           (serialize (set_login (Some now)
                         (Some (default "unknown" (AuthService.ip params))) authUser))),
     after (AuthService.cacheUser now
              (set_login (Some now)
                 (Some (default "unknown" (AuthService.ip params))) authUser))
       (after (Db.save
                 (set_login (Some now)
                    (Some (default "unknown" (AuthService.ip params))) authUser))
          (after (TokenService.createAccessToken now authUser)
             (after (LoginProtectionService.clearLoginAttempts
                       (Str.normalize (AuthService.email params))
                       (default "unknown" (AuthService.ip params)))
                (after (LoginProtectionService.checkLoginAttempt now
                          (Str.normalize (AuthService.email params))
                          (default "unknown" (AuthService.ip params))) w))))).
Proof using Type.
  intros Hemail Hpassword Hr Hallowed Hfind Hactive Hcred.
  assert (Husers :
            users (after (LoginProtectionService.checkLoginAttempt now
                            (Str.normalize (AuthService.email params))
                            (default "unknown" (AuthService.ip params))) w)
            = users w).
  { destruct (check_outcome now
                ("login:" +:+ Str.normalize (AuthService.email params))
                (default "unknown" (AuthService.ip params))
                LoginProtectionService.RATE_LIMIT_CONFIG w) as [r0 Hr0].
    unfold after at 1. rewrite (checkLoginAttempt_run _ _ _ _ _ Hr0).
    apply check_rest. }
  unfold AuthService.login. rewrite Hemail, Hpassword. cbn [negb orb].
  unfold bind at 1. rewrite run_eq, Hr, Hallowed. cbn [negb].
  unfold bind at 1. unfold Db.first at 1. rewrite Husers, Hfind, Hactive.
  cbn [negb]. unfold bind at 1. rewrite Husers, Hcred.
  reflexivity.
Qed.

(** X22. A login that succeeds.  With credentials present, the protection
    check passed, the row found by e-mail address or user name active and
    not deleted, and the credentials accepted, login returns a fresh access
    token of the user together with the user as serialized - without the
    password - carrying the instant and the address of this login.  After
    the call that token is the user's only one, the row of the user's id in
    the table is the updated one, and the user cache holds the same
    password-less snapshot for the hour that follows. *)
Theorem successful_login
    (now : Z) (params : AuthService.LoginParams) (w : world)
    (r : LoginProtectionService.LoginProtectionResult) (u authUser : User) :
  Str.nonempty (AuthService.email params) = true ->
  Str.nonempty (AuthService.password params) = true ->
  outcome (LoginProtectionService.checkLoginAttempt now
             (Str.normalize (AuthService.email params))
             (default "unknown" (AuthService.ip params))) w = Ok r ->
  LoginProtectionService.allowed r = true ->
  find (fun u => Db.email_is (AuthService.email params) u
                 || Db.username_is (AuthService.email params) u) (users w) = Some u ->
  AuthService.isActive_user u = true ->
  verifyCredentials (users w) (AuthService.email params) (AuthService.password params)
  = Ok (Some authUser) ->
  let logged := set_login (Some now)
                  (Some (default "unknown" (AuthService.ip params))) authUser in
  outcome (AuthService.login now params) w
  = Ok (AuthService.mkLoginResult
          (mkAccessToken (id authUser) "access_token" ["*"] 86400 now)
          (set_password "" logged)) /\
  filter (fun t => tokenableId t =? id authUser)
         (accessTokens (after (AuthService.login now params) w))
  = [mkAccessToken (id authUser) "access_token" ["*"] 86400 now] /\
  filter (fun t => negb (tokenableId t =? id authUser))
         (accessTokens (after (AuthService.login now params) w))
  = filter (fun t => negb (tokenableId t =? id authUser)) (accessTokens w) /\
  users (after (AuthService.login now params) w)
  = map (fun v => if id v =? id authUser then logged else v) (users w) /\
  (forall t, now <= t -> t < now + 3600000 ->
     CacheService.live t (cache (after (AuthService.login now params) w))
       (userKey (id authUser))
     = Some (VUser (set_password "" logged))) /\
  outbox (after (AuthService.login now params) w) = outbox w.
Proof using Type.
  intros Hemail Hpassword Hr Hallowed Hfind Hactive Hcred logged.
  pose proof (login_success_run now params w r u authUser
                Hemail Hpassword Hr Hallowed Hfind Hactive Hcred) as Hrun.
  set (identifier := Str.normalize (AuthService.email params)) in *.
  set (ip := default "unknown" (AuthService.ip params)) in *.
  fold logged in Hrun.
  destruct (check_outcome now ("login:" +:+ identifier) ip
              LoginProtectionService.RATE_LIMIT_CONFIG w) as [r0 Hr0].
  assert (Hafter : after (LoginProtectionService.checkLoginAttempt now identifier ip) w
                   = after (RateLimiter.check now ("login:" +:+ identifier) ip
                              LoginProtectionService.RATE_LIMIT_CONFIG) w)
    by (unfold after at 1; now rewrite (checkLoginAttempt_run _ _ _ _ _ Hr0)).
  rewrite Hafter in Hrun.
  destruct (check_rest now ("login:" +:+ identifier) ip
              LoginProtectionService.RATE_LIMIT_CONFIG w) as (Hu & Ht & Ho).
  set (w1 := after (RateLimiter.check now ("login:" +:+ identifier) ip
                      LoginProtectionService.RATE_LIMIT_CONFIG) w) in *.
  unfold outcome, after at 1 2 3 4 5. rewrite Hrun. cbn [fst snd].
  split; [reflexivity|].
  destruct (createAccessToken_tokens now authUser
              (after (LoginProtectionService.clearLoginAttempts identifier ip) w1))
    as (Hown & Hothers).
  split; [exact Hown|].
  split; [rewrite <- Ht; exact Hothers|].
  split; [cbn [after fst snd]; now rewrite <- Hu|].
  split; [|exact Ho].
  intros t Hle Hlt.
  unfold CacheService.live, after at 1, AuthService.cacheUser, CacheService.set, modify.
  cbn [fst snd cache with_cache]. rewrite lookup_insert_eq.
  apply Z.ltb_lt in Hlt. unfold hours.
  replace (now + 1 * 60 * 60 * 1000) with (now + 3600000) by lia.
  now rewrite Hlt.
Qed.

End LoginOutcomes.

(** ** Failures from several addresses *)

Lemma append_cancel_l (p a b : string) : p +:+ a = p +:+ b -> a = b.
Proof.
  induction p as [|c p IH]; [exact (fun E => E)|].
  cbv [String.append]. fold String.append. intros E. injection E as E. now apply IH.
Qed.

(** The limiter's entries of one address are not among those of another. *)
Lemma other_address_not_limiter identifier ip ip' k :
  ip <> ip' ->
  RateLimiter.limiter_key identifier ip' k ->
  ~ RateLimiter.limiter_key identifier ip k.
Proof.
  intros Hne [-> | [-> | ->]] [E | [E | E]];
    try (exfalso; revert E; key_neq);
    unfold RateLimiter.attemptsKey, RateLimiter.windowKey, RateLimiter.blockedKey in E;
    do 3 apply append_cancel_l in E; now apply Hne.
Qed.

Lemma recordLoginAttempt_failure_frame now identifier ip userName userEmail w k :
  ~ RateLimiter.limiter_key ("login:" +:+ identifier) ip k ->
  k <> LoginProtectionService.getAccountBlockKey identifier ->
  cache (after (LoginProtectionService.recordLoginAttempt now
                  (LoginProtectionService.mkLoginAttemptParams
                     identifier ip false userName userEmail)) w) !! k
  = cache w !! k.
Proof.
  intros Hk Hacc.
  destruct (recordLoginAttempt_failure now identifier ip userName userEmail w)
    as (_ & _ & ->).
  destruct (LoginProtectionService.reaches_max _).
  - rewrite lookup_insert_ne by (intros E; now apply Hacc).
    now apply recordAttempt_frame.
  - now apply recordAttempt_frame.
Qed.

Lemma failed_logins_frame identifier ip userName userEmail ts k :
  ~ RateLimiter.limiter_key ("login:" +:+ identifier) ip k ->
  k <> LoginProtectionService.getAccountBlockKey identifier ->
  forall w,
    cache (LoginProtectionService.failed_logins identifier ip userName userEmail ts w)
      !! k
    = cache w !! k.
Proof.
  intros Hk Hacc. induction ts as [|t ts IH]; intros w; [reflexivity|].
  unfold LoginProtectionService.failed_logins in *. cbn [fold_left].
  rewrite IH. now apply recordLoginAttempt_failure_frame.
Qed.

(** A run of fewer failures than the maximum, from a state with no window
    running, leaves the account-block entries and the outbox as they were. *)
Lemma failed_logins_below_max identifier ip userName userEmail t1 rest w0 :
  RateLimiter.fresh t1 LoginProtectionService.RATE_LIMIT_CONFIG (cache w0)
    ("login:" +:+ identifier) ip ->
  in_order_before t1 (t1 + LoginProtectionService.WINDOW_MS) rest ->
  Z.of_nat (length (t1 :: rest)) < LoginProtectionService.MAX_ATTEMPTS ->
  (forall a,
     cache (LoginProtectionService.failed_logins identifier ip userName userEmail
              (t1 :: rest) w0)
       !! LoginProtectionService.getAccountBlockKey a
     = cache w0 !! LoginProtectionService.getAccountBlockKey a) /\
  outbox (LoginProtectionService.failed_logins identifier ip userName userEmail
            (t1 :: rest) w0)
  = outbox w0.
Proof.
  intros Hfresh Hord Hlen.
  destruct (failed_login_first t1 identifier ip userName userEmail w0 Hfresh)
    as [Hc1 Hacc1].
  pose proof (failed_login_first_outbox t1 identifier ip userName userEmail w0 Hfresh)
    as Hout1.
  destruct (failed_logins_chain identifier ip userName userEmail rest _ 1 t1 t1
              Hc1 ltac:(lia) Hord) as (_ & Hrest).
  replace (1 + Z.of_nat (length rest)) with (Z.of_nat (length (t1 :: rest))) in *
    by (cbn [length]; lia).
  destruct (Hrest Hlen) as (Hacc & Hout).
  change (LoginProtectionService.failed_logins identifier ip userName userEmail
            (t1 :: rest) w0)
    with (LoginProtectionService.failed_logins identifier ip userName userEmail rest
            (after (LoginProtectionService.recordLoginAttempt t1
                      (LoginProtectionService.mkLoginAttemptParams
                         identifier ip false userName userEmail)) w0)).
  split; [intros a; now rewrite Hacc, Hacc1 | now rewrite Hout, Hout1].
Qed.

(** X23. The failures are counted per address.  Failed logins on one
    account from two different addresses, fewer than five from each (each
    run in order, within its window, started with no window running for its
    address), never block the account and send no mail, although together
    they may be as many as eight: every account-block entry and the outbox
    are as they were. *)
Theorem failures_from_two_addresses_do_not_block
    (identifier ip1 ip2 : string) (userName userEmail : option string)
    (t1 s1 : Z) (rest1 rest2 : list Z) (w0 : world) :
  ip1 <> ip2 ->
  RateLimiter.fresh t1 LoginProtectionService.RATE_LIMIT_CONFIG (cache w0)
    ("login:" +:+ identifier) ip1 ->
  in_order_before t1 (t1 + LoginProtectionService.WINDOW_MS) rest1 ->
  Z.of_nat (length (t1 :: rest1)) < LoginProtectionService.MAX_ATTEMPTS ->
  RateLimiter.fresh s1 LoginProtectionService.RATE_LIMIT_CONFIG (cache w0)
    ("login:" +:+ identifier) ip2 ->
  in_order_before s1 (s1 + LoginProtectionService.WINDOW_MS) rest2 ->
  Z.of_nat (length (s1 :: rest2)) < LoginProtectionService.MAX_ATTEMPTS ->
  (forall a,
     cache (LoginProtectionService.failed_logins identifier ip2 userName userEmail
              (s1 :: rest2)
              (LoginProtectionService.failed_logins identifier ip1 userName userEmail
                 (t1 :: rest1) w0))
       !! LoginProtectionService.getAccountBlockKey a
     = cache w0 !! LoginProtectionService.getAccountBlockKey a) /\
  outbox (LoginProtectionService.failed_logins identifier ip2 userName userEmail
            (s1 :: rest2)
            (LoginProtectionService.failed_logins identifier ip1 userName userEmail
               (t1 :: rest1) w0))
  = outbox w0.
Proof.
  intros Hne Hf1 Ho1 Hl1 Hf2 Ho2 Hl2.
  destruct (failed_logins_below_max identifier ip1 userName userEmail t1 rest1 w0
              Hf1 Ho1 Hl1) as (Hacc1 & Hout1).
  set (w1 := LoginProtectionService.failed_logins identifier ip1 userName userEmail
               (t1 :: rest1) w0) in *.
  assert (Hsame : forall k,
            RateLimiter.limiter_key ("login:" +:+ identifier) ip2 k ->
            cache w1 !! k = cache w0 !! k).
  { intros k Hk. apply failed_logins_frame.
    - now apply (other_address_not_limiter _ ip1 ip2).
    - intros ->. now apply (account_key_not_limiter identifier
                              ("login:" +:+ identifier) ip2). }
  assert (Hf2' : RateLimiter.fresh s1 LoginProtectionService.RATE_LIMIT_CONFIG
                   (cache w1) ("login:" +:+ identifier) ip2).
  { unfold RateLimiter.fresh, RateLimiter.state in *.
    rewrite (live_lookup s1 (cache w0) (cache w1)
               (RateLimiter.attemptsKey ("login:" +:+ identifier) ip2)),
            (live_lookup s1 (cache w0) (cache w1)
               (RateLimiter.windowKey ("login:" +:+ identifier) ip2));
      [exact Hf2 | |]; apply Hsame; unfold RateLimiter.limiter_key; auto. }
  destruct (failed_logins_below_max identifier ip2 userName userEmail s1 rest2 w1
              Hf2' Ho2 Hl2) as (Hacc2 & Hout2).
  split; [intros a; now rewrite Hacc2, Hacc1 | now rewrite Hout2, Hout1].
Qed.

(** ** Worked instances *)

(** Closes a goal between closed terms by running them. *)
Ltac by_running :=
  vm_compute;
  first [ exact I
        | reflexivity
        | let E := fresh "E" in intros E; discriminate E
        | repeat split; first [ exact I | reflexivity
                              | let E := fresh "E" in intros E; discriminate E ] ].

Lemma allowed_verification_request_witness :
  outcome (@EmailVerificationService.requestEmailVerification Sample.externals
             0 Sample.entropy Sample.bob (Some "7.7.7.7")) Sample.empty
  = Ok true /\
  outbox (after (@EmailVerificationService.requestEmailVerification Sample.externals
                   0 Sample.entropy Sample.bob (Some "7.7.7.7")) Sample.empty)
  = [mkMail "bob" "Verificação de E-mail" true
            (VerificationMail "Bob" "0102030405060708090a0b0c0d0e0fff")].
Proof.
  pose proof (@allowed_verification_request Sample.externals
                0 Sample.entropy Sample.bob (Some "7.7.7.7") Sample.empty
                (RateLimiter.mkCheckResult true 5 None)
                ltac:(by_running) ltac:(by_running)) as T.
  exact (conj (proj1 T) (proj1 (proj2 (proj2 T)))).
Defined.

Lemma verification_request_then_confirm_witness :
  outcome (@EmailVerificationService.verifyEmail Sample.externals
             1000 Scenario.padded_address (Sha256.hex Sample.entropy) None)
    (after (@EmailVerificationService.requestEmailVerification Sample.externals
              0 Sample.entropy Sample.alice None) Sample.empty)
  = Ok true.
Proof.
  apply (proj1 (@verification_request_then_confirm Sample.externals
                  0 1000 Sample.entropy Sample.alice Sample.alice None None
                  Scenario.padded_address Sample.empty
                  (RateLimiter.mkCheckResult true 5 None)
                  ltac:(by_running) ltac:(by_running) ltac:(by_running)
                  ltac:(by_running))).
  by_running.
Defined.

Lemma reset_request_then_confirm_witness :
  outcome (@PasswordService.resetPassword Sample.externals
             1000 " Alice@X.com " (Sha256.hex Sample.entropy) "n3w-secret" None)
    (after (@PasswordService.requestPasswordReset Sample.externals
              0 Sample.entropy "alice@x.com" None) Sample.empty)
  = Ok true.
Proof.
  apply (proj1 (@reset_request_then_confirm Sample.externals
                  0 1000 Sample.entropy Sample.alice None None
                  "alice@x.com" " Alice@X.com " "n3w-secret" Sample.empty
                  (RateLimiter.mkCheckResult true 5 None)
                  ltac:(by_running) ltac:(by_running) ltac:(by_running)
                  ltac:(by_running) ltac:(by_running))).
  by_running.
Defined.

Lemma newer_request_supersedes_witness :
  @EmailVerificationService.verifyEmail Sample.externals
    2000 "alice@x.com" Sample.mailed None Scenario.second_request
  = (Throw (Exception "Token inválido ou expirado" 400), Scenario.second_request).
Proof.
  apply (@newer_request_supersedes Sample.externals
           1000 2000 Scenario.entropy2 Sample.alice None None
           "alice@x.com" Sample.mailed Sample.pending
           (RateLimiter.mkCheckResult true 4 None));
    by_running.
Defined.

Lemma failed_confirmation_changes_nothing_witness :
  exists e,
    @EmailVerificationService.verifyEmail Sample.externals
      1000 "alice@x.com" "not a token" None Sample.pending
    = (Throw e, Sample.pending).
Proof.
  apply (proj1 (@failed_confirmation_changes_nothing Sample.externals
                  1000 "alice@x.com" "not a token" "n3w-secret" None Sample.pending)).
  by_running.
Defined.

Lemma reset_refused_for_inactive_account_witness :
  @PasswordService.resetPassword Sample.externals
    1000 "carol@x.com" (Sha256.hex Sample.entropy) "n3w-secret" None
    Scenario.carol_reset_pending
  = (Throw (Exception "Usuário inativo" 403), Scenario.carol_reset_pending).
Proof.
  apply (@reset_refused_for_inactive_account Sample.externals
           1000 "carol@x.com" (Sha256.hex Sample.entropy) "n3w-secret" None
           Scenario.carol_reset_pending Scenario.carol_deactivated);
    by_running.
Defined.

Lemma reset_request_for_unknown_or_inactive_witness :
  @PasswordService.requestPasswordReset Sample.externals
    0 Sample.entropy "nobody@x.com" None Sample.empty
  = (Throw E_ROW_NOT_FOUND, Sample.empty) /\
  @PasswordService.requestPasswordReset Sample.externals
    2000 Sample.entropy "carol@x.com" None Scenario.carol_reset_pending
  = (Throw (Exception "Usuário inativo" 403), Scenario.carol_reset_pending).
Proof.
  split.
  - apply (proj1 (@reset_request_for_unknown_or_inactive Sample.externals
                    0 Sample.entropy "nobody@x.com" None Sample.empty)).
    by_running.
  - apply (proj2 (@reset_request_for_unknown_or_inactive Sample.externals
                    2000 Sample.entropy "carol@x.com" None
                    Scenario.carol_reset_pending) Scenario.carol_deactivated);
      by_running.
Defined.

Lemma fewer_failures_do_not_block_witness :
  outcome (LoginProtectionService.getFailedAttempts 50 "alice" "1.2.3.4")
    (LoginProtectionService.failed_logins "alice" "1.2.3.4" None None
       [10; 20; 30; 40] Sample.empty)
  = Ok (VNum 4) /\
  outbox (LoginProtectionService.failed_logins "alice" "1.2.3.4" None None
            [10; 20; 30; 40] Sample.empty)
  = outbox Sample.empty.
Proof.
  pose proof (fewer_failures_do_not_block "alice" "1.2.3.4" None None
                10 [20; 30; 40] Sample.empty
                ltac:(by_running) ltac:(by_running) ltac:(by_running)) as T.
  exact (conj (proj2 (proj2 T) 50 ltac:(by_running) ltac:(by_running))
              (proj1 (proj2 T))).
Defined.

Lemma account_block_lifts_after_two_hours_witness :
  LoginProtectionService.checkLoginAttempt 7200050 "alice" "1.2.3.4"
    (LoginProtectionService.failed_logins "alice" "1.2.3.4" None None
       [10; 20; 30; 40; 50] Sample.empty)
  = (Ok (LoginProtectionService.mkLoginProtectionResult true 5 None false),
     LoginProtectionService.failed_logins "alice" "1.2.3.4" None None
       [10; 20; 30; 40; 50] Sample.empty).
Proof.
  apply (account_block_lifts_after_two_hours "alice" "1.2.3.4" None None
           10 20 30 40 50 7200050 Sample.empty);
    by_running.
Defined.

Lemma block_mail_on_the_fifth_failure_witness :
  outbox Scenario.five_failures
  = [mkMail "alice@x.com"
            "Conta temporariamente bloqueada - Tentativas de login suspeitas"
            true (AccountBlockedMail "Alice" "1.2.3.4" 50 2)].
Proof.
  exact (proj2 (block_mail_on_the_fifth_failure "alice@x.com" "1.2.3.4"
                  (Some "Alice") (Some "alice@x.com") 10 20 30 40 50 Sample.empty
                  ltac:(by_running) ltac:(by_running) ltac:(by_running)
                  ltac:(by_running) ltac:(by_running) ltac:(by_running))).
Defined.

Lemma key_failures_accumulate_witness :
  cache (AppKeyAttempts.failed_uses "k-live-01" "1.2.3.4"
           [0; 50000; 100000; 150000; 200000] Sample.empty)
    !! AppKeyService.rateKey "1.2.3.4" "k-live-01"
  = Some (VRate (mkRateLimitData 5 0 (Some 1100000)), 1100000).
Proof.
  exact (key_failures_accumulate "k-live-01" "1.2.3.4" 0
           [50000; 100000; 150000; 200000] Sample.empty
           ltac:(by_running) ltac:(by_running)).
Defined.

Lemma addToBlacklist_then_isBlacklisted_witness :
  BlacklistService.isBlacklisted "alice@x.com"
    (snd (BlacklistService.addToBlacklist (Some Sample.alice) []))
  = (Ok true, snd (BlacklistService.addToBlacklist (Some Sample.alice) [])).
Proof.
  exact (proj1 (proj2 (addToBlacklist_then_isBlacklisted Sample.alice []
                         ltac:(by_running)))).
Defined.


Lemma getMe_after_anonymize_witness :
  outcome (@UserService.getMe Sample.externals 100 Sample.alice)
    (UserAnonymizationService.st_world
       (snd (@UserAnonymizationService.anonymize Sample.externals
               "$scrypt$r4nd0m" Sample.alice
               (UserAnonymizationService.mkStore Sample.empty []))))
  = Throw (Exception "Usuário inativo" 403).
Proof.
  apply (@getMe_after_anonymize Sample.externals
           "$scrypt$r4nd0m" Sample.alice Sample.alice 100
           (UserAnonymizationService.mkStore Sample.empty [])).
  by_running.
Defined.

Lemma blocked_account_login_refused_witness :
  outcome (@AuthService.login Sample.externals 60 Scenario.alice_login)
    Scenario.five_failures
  = Throw (Exception
             ("Conta temporariamente bloqueada devido a múltiplas tentativas de login. "
              +:+ "Verifique seu email.") 403).
Proof.
  exact (proj1 (@blocked_account_login_refused Sample.externals
                  60 7200050 Scenario.alice_login Scenario.five_failures
                  ltac:(by_running) ltac:(by_running) ltac:(by_running)
                  ltac:(by_running))).
Defined.

Lemma successful_login_witness :
  outcome (@AuthService.login Sample.externals 100 Scenario.alice_login) Sample.empty
  = Ok (AuthService.mkLoginResult
          (mkAccessToken 1 "access_token" ["*"] 86400 100)
          (mkUser 1 (Some "alice@x.com") "Alice" "alice" true (Some false) ""
                  None (Some 100) (Some "9.9.9.9"))).
Proof.
  exact (proj1 (@successful_login Sample.externals
                  100 Scenario.alice_login Sample.empty
                  (LoginProtectionService.mkLoginProtectionResult true 5 None false)
                  Sample.alice Sample.alice
                  ltac:(by_running) ltac:(by_running) ltac:(by_running)
                  ltac:(by_running) ltac:(by_running) ltac:(by_running)
                  ltac:(by_running))).
Defined.

Lemma failures_from_two_addresses_do_not_block_witness :
  cache (LoginProtectionService.failed_logins "alice" "2.2.2.2" None None
           [100; 110; 120; 130]
           (LoginProtectionService.failed_logins "alice" "1.1.1.1" None None
              [10; 20; 30; 40] Sample.empty))
    !! LoginProtectionService.getAccountBlockKey "alice"
  = cache Sample.empty !! LoginProtectionService.getAccountBlockKey "alice" /\
  outbox (LoginProtectionService.failed_logins "alice" "2.2.2.2" None None
            [100; 110; 120; 130]
            (LoginProtectionService.failed_logins "alice" "1.1.1.1" None None
               [10; 20; 30; 40] Sample.empty))
  = outbox Sample.empty.
Proof.
  pose proof (failures_from_two_addresses_do_not_block
                "alice" "1.1.1.1" "2.2.2.2" None None 10 100
                [20; 30; 40] [110; 120; 130] Sample.empty
                ltac:(by_running) ltac:(by_running) ltac:(by_running)
                ltac:(by_running) ltac:(by_running) ltac:(by_running)
                ltac:(by_running)) as T.
  exact (conj (proj1 T "alice") (proj2 T)).
Defined.

(** ** The scan of the API keys *)

(** X24. findValidKey answers the first key of the list, in its order, that
    is not expired and whose value has the SHA-256 digest of the secret
    presented, and nothing when there is none; it does not look at isActive.
    A listed, unexpired key whose value is the secret presented is therefore
    never missed: some key is returned. *)
Theorem findValidKey_first_match
    (now : Z) (keys : list AppKeyService.AppKey) (providedKey : string) :
  AppKeyService.findValidKey now keys providedKey
  = Ok (find (fun key =>
                negb (AppKeyService.isExpired now (AppKeyService.expiresAt key))
                && Crypto.bytes_eqb (Sha256.digest (AppKeyService.keyValue key))
                                    (Sha256.digest providedKey))
             keys) /\
  (forall key,
     In key keys ->
     AppKeyService.isExpired now (AppKeyService.expiresAt key) = false ->
     AppKeyService.keyValue key = providedKey ->
     AppKeyService.findValidKey now keys providedKey <> Ok None).
Proof.
  assert (Hscan : AppKeyService.findValidKey now keys providedKey
                  = Ok (find (fun key =>
                                negb (AppKeyService.isExpired now
                                        (AppKeyService.expiresAt key))
                                && Crypto.bytes_eqb
                                     (Sha256.digest (AppKeyService.keyValue key))
                                     (Sha256.digest providedKey))
                             keys)).
  { induction keys as [|k rest IH]; [reflexivity|].
    cbn [AppKeyService.findValidKey find].
    destruct (AppKeyService.isExpired now (AppKeyService.expiresAt k)); [exact IH|].
    rewrite safeCompare_run. cbn [negb andb].
    destruct (Crypto.bytes_eqb _ _); [reflexivity | exact IH]. }
  split; [exact Hscan|].
  intros key Hin Hlive Hvalue. rewrite Hscan. intros Hnone.
  apply (f_equal (fun r => match r with Ok found => found | Throw _ => None end))
    in Hnone.
  cbv beta iota in Hnone.
  apply (find_none _ _ Hnone) in Hin. cbv beta in Hin.
  rewrite Hlive, Hvalue in Hin.
  assert (Heq : Crypto.bytes_eqb (Sha256.digest providedKey) (Sha256.digest providedKey)
                = true) by (apply bytes_eqb_eq; reflexivity).
  rewrite Heq in Hin. exact (Bool.diff_true_false Hin).
Qed.

Lemma findValidKey_first_match_witness :
  AppKeyService.findValidKey 1000
    [AppKeyService.mkAppKey 1 "k-old-00" true (Some 500) ["read"];
     AppKeyService.mkAppKey 2 "k-live-01" false None ["read"];
     AppKeyService.mkAppKey 3 "k-live-01" true None ["read"; "write"]]
    "k-live-01"
  = Ok (Some (AppKeyService.mkAppKey 2 "k-live-01" false None ["read"])).
Proof.
  rewrite (proj1 (findValidKey_first_match 1000
                    [AppKeyService.mkAppKey 1 "k-old-00" true (Some 500) ["read"];
                     AppKeyService.mkAppKey 2 "k-live-01" false None ["read"];
                     AppKeyService.mkAppKey 3 "k-live-01" true None ["read"; "write"]]
                    "k-live-01")).
  vm_compute. reflexivity.
Defined.
